(** * LinguaGacha: translation orchestration core

    A shallow embedding of the chunk planner ([CacheManager]), the response
    decoder and checker ([ResponseDecoder], [ResponseChecker]) and the
    scheduler passes of [Translator], with the properties stated about them.

    Conventions.
    - A Python [str] is a sequence of Unicode code points: [pystr := list N].
    - A Python [int] is a [Z]; a Python [float] is a binary64 [PrimFloat.float];
      the quotient of two [int]s, which can be beyond 2^53, is kept as its
      significand and exponent ([dyadic]).
    - A Python [dict] is an insertion-ordered association list ([PyDict]).
    - A raised exception is the [Raise] branch of the result type [res]. *)

From Stdlib Require Import Ascii String DecimalString DecimalNat.
From Stdlib Require Import List ZArith NArith Bool Lia Arith Permutation.
From Stdlib Require Import Floats.PrimFloat Floats.SpecFloat Floats.FloatOps.
Import ListNotations.

Set Implicit Arguments.
Set Warnings "-inexact-float,-register-all".

Open Scope Z_scope.

(* ================================================================== *)
(** * Results and exceptions *)

Inductive exn : Type :=
| IndexError
| AttributeError
| TypeError
| OverflowError.

Inductive res (A : Type) : Type :=
| Ok (a : A)
| Raise (e : exn).

Arguments Ok {A} a.
Arguments Raise {A} e.

Definition bind {A B : Type} (m : res A) (k : A -> res B) : res B :=
  match m with
  | Ok a => k a
  | Raise e => Raise e
  end.

Notation "x <- m ;; k" := (bind m (fun x => k))
  (at level 61, m at next level, right associativity).

(** [xs[i]] for a non-negative index. *)
Definition py_index {A : Type} (xs : list A) (i : nat) : res A :=
  match nth_error xs i with
  | Some x => Ok x
  | None => Raise IndexError
  end.

(** [xs[-1]]. *)
Definition py_last {A : Type} (xs : list A) : res A :=
  match rev xs with
  | x :: _ => Ok x
  | [] => Raise IndexError
  end.

(** [len(xs)]. *)
Definition len {A : Type} (xs : list A) : Z := Z.of_nat (length xs).

(** [[x] * n]. *)
Definition py_repeat {A : Type} (x : A) (n : Z) : list A := repeat x (Z.to_nat n).

(* ================================================================== *)
(** * Python strings *)

Module PyStr.

Definition char : Type := N.
Definition pystr : Type := list char.

(** An ASCII literal as a [pystr]. *)
Definition lit (s : string) : pystr := map N_of_ascii (list_ascii_of_string s).

Fixpoint eqb (a b : pystr) : bool :=
  match a, b with
  | [], [] => true
  | x :: a', y :: b' => N.eqb x y && eqb a' b'
  | _, _ => false
  end.

(** [str.isspace] on one code point (CPython's _PyUnicode_IsWhitespace). *)
Definition isspace (c : char) : bool :=
  (((9 <=? c) && (c <=? 13)) || ((28 <=? c) && (c <=? 31)) || (c =? 32)
   || (c =? 133) || (c =? 160) || (c =? 5760)
   || ((8192 <=? c) && (c <=? 8202)) || (c =? 8232) || (c =? 8233)
   || (c =? 8239) || (c =? 8287) || (c =? 12288))%N.

Fixpoint lstrip (s : pystr) : pystr :=
  match s with
  | c :: s' => if isspace c then lstrip s' else s
  | [] => []
  end.

Definition rstrip (s : pystr) : pystr := rev (lstrip (rev s)).

(** [s.strip()]. *)
Definition strip (s : pystr) : pystr := rstrip (lstrip s).

(** Line boundaries of [str.splitlines]. *)
Definition is_linebreak (c : char) : bool :=
  (((10 <=? c) && (c <=? 13)) || ((28 <=? c) && (c <=? 30))
   || (c =? 133) || (c =? 8232) || (c =? 8233))%N.

(** [cur] is the line being read; a carriage return followed by a line
    feed is one boundary; no empty line is produced after a final
    boundary. *)
Fixpoint splitlines_from (cur : pystr) (s : pystr) : list pystr :=
  match s with
  | [] => match cur with [] => [] | _ => [cur] end
  | c :: rest =>
      if (c =? 13)%N then
        match rest with
        | d :: rest' =>
            if (d =? 10)%N then cur :: splitlines_from [] rest'
            else cur :: splitlines_from [] rest
        | [] => cur :: splitlines_from [] rest
        end
      else if is_linebreak c then cur :: splitlines_from [] rest
      else splitlines_from (cur ++ [c]) rest
  end.

(** [s.splitlines()]. *)
Definition splitlines (s : pystr) : list pystr := splitlines_from [] s.

(** [s.startswith(p)]. *)
Fixpoint startswith (p s : pystr) : bool :=
  match p, s with
  | [], _ => true
  | x :: p', y :: s' => N.eqb x y && startswith p' s'
  | _ :: _, [] => false
  end.

(** [sub in s]. *)
Fixpoint contains (sub s : pystr) : bool :=
  startswith sub s ||
  match s with
  | [] => false
  | _ :: s' => contains sub s'
  end.

(** [s.endswith(suf)]. *)
Definition endswith (suf s : pystr) : bool := startswith (rev suf) (rev s).

(** [s.endswith(sufs)] for a tuple of suffixes. *)
Definition endswith_any (sufs : list pystr) (s : pystr) : bool :=
  existsb (fun suf => endswith suf s) sufs.

(** [s.count(c)] for a one-character [c]. *)
Definition count (c : char) (s : pystr) : Z := len (filter (N.eqb c) s).

(** [str(n)] for a non-negative integer [n]. *)
Definition of_nat (n : nat) : pystr :=
  lit (NilEmpty.string_of_uint (Nat.to_uint n)).

End PyStr.

Import PyStr.

(* ================================================================== *)
(** * Base enumerations *)

(** [Base.TranslationStatus]. *)
Inductive TranslationStatus : Type :=
| UNTRANSLATED
| TRANSLATING
| TRANSLATED
| EXCLUDED.

Definition status_eqb (a b : TranslationStatus) : bool :=
  match a, b with
  | UNTRANSLATED, UNTRANSLATED | TRANSLATING, TRANSLATING
  | TRANSLATED, TRANSLATED | EXCLUDED, EXCLUDED => true
  | _, _ => false
  end.

(** [BaseLanguage.Enum]: the languages the code tests for, and the rest. *)
Inductive Language : Type :=
| ZH
| EN
| JA
| KO
| OtherLanguage (code : pystr).

Definition is_JA (l : Language) : bool := match l with JA => true | _ => false end.
Definition is_KO (l : Language) : bool := match l with KO => true | _ => false end.
Definition is_ZH (l : Language) : bool := match l with ZH => true | _ => false end.

(* ================================================================== *)
(** * Cache items *)

(** [CacheItem.FileType]: [KVJSON] and the other file types. *)
Inductive FileType : Type :=
| KVJSON
| OtherFileType (name : pystr).

Definition is_KVJSON (t : FileType) : bool :=
  match t with KVJSON => true | OtherFileType _ => false end.

(** Modelled from the spec: module/Cache/CacheItem.py is not among the
    sources.  A [CacheItem] holds the attributes of the spec's data model;
    [get_vars_rest] stands for the remaining serialized variables.  The
    getters of the source are the projections. *)
Record CacheItem : Type := mkCacheItem {
  get_src : pystr;
  get_dst : pystr;
  get_status : TranslationStatus;
  get_file_path : pystr;
  get_file_type : FileType;
  get_token_count : Z;
  get_retry_count : Z;
  get_skip_internal_filter : bool;
  get_row : Z;
  get_vars_rest : list (pystr * pystr)
}.

Definition set_status (v : TranslationStatus) (it : CacheItem) : CacheItem :=
  mkCacheItem (get_src it) (get_dst it) v (get_file_path it) (get_file_type it)
    (get_token_count it) (get_retry_count it) (get_skip_internal_filter it)
    (get_row it) (get_vars_rest it).

Definition set_src (v : pystr) (it : CacheItem) : CacheItem :=
  mkCacheItem v (get_dst it) (get_status it) (get_file_path it) (get_file_type it)
    (get_token_count it) (get_retry_count it) (get_skip_internal_filter it)
    (get_row it) (get_vars_rest it).

Definition set_dst (v : pystr) (it : CacheItem) : CacheItem :=
  mkCacheItem (get_src it) v (get_status it) (get_file_path it) (get_file_type it)
    (get_token_count it) (get_retry_count it) (get_skip_internal_filter it)
    (get_row it) (get_vars_rest it).

Definition set_row (v : Z) (it : CacheItem) : CacheItem :=
  mkCacheItem (get_src it) (get_dst it) (get_status it) (get_file_path it)
    (get_file_type it) (get_token_count it) (get_retry_count it)
    (get_skip_internal_filter it) v (get_vars_rest it).

(** [CacheItem(item.get_vars())]: a new object with the same variables. *)
Definition copy_item (it : CacheItem) : CacheItem := it.

(* ================================================================== *)
(** * True division of integers *)

(** A finite binary64 value, [significand * 2 ^ exponent]. *)
Record dyadic : Type := mkDyadic {
  significand : Z;
  exponent : Z
}.

(** The integer nearest to [num / den], a tie going to the even one. *)
Definition round_half_even (num den : Z) : Z :=
  let q := num / den in
  let r := num mod den in
  if 2 * r <? den then q
  else if den <? 2 * r then q + 1
  else if Z.even q then q else q + 1.

(** The exponent of the binary64 value nearest to [n / d], for positive [n]
    and [d]: 52 below the binary logarithm of the quotient, so that the
    significand has 53 bits, and not below -1074, where the subnormal
    numbers end. *)
Definition binary64_exponent (n d : Z) : Z :=
  let k := Z.log2 n - Z.log2 d in
  let lg := if d * 2 ^ Z.max 0 k <=? n * 2 ^ Z.max 0 (- k) then k else k - 1 in
  Z.max (lg - 52) (-1074).

(** [a / b] on two [int]s, for a positive [b]: the binary64 value nearest to
    the quotient (CPython rounds the exact quotient once, whatever the size
    of [a]), and [OverflowError] when that value is not finite. *)
Definition truediv (a : Z) (b : positive) : res dyadic :=
  let n := Z.abs a in
  let d := Z.pos b in
  let e := if n =? 0 then 0 else binary64_exponent n d in
  let m := round_half_even (n * 2 ^ Z.max 0 (- e)) (d * 2 ^ Z.max 0 e) in
  if 2 ^ 1024 * 2 ^ Z.max 0 (- e) <=? m * 2 ^ Z.max 0 e then Raise OverflowError
  else Ok (mkDyadic (Z.sgn a * m) e).

(** [int(x)] on a finite [float]: it truncates toward zero. *)
Definition int_of_float (x : dyadic) : Z :=
  Z.quot (significand x * 2 ^ Z.max 0 (exponent x)) (2 ^ Z.max 0 (- exponent x)).

(* ================================================================== *)
(** * CacheManager: chunk planning *)

Module CacheManager.

(** [END_LINE_PUNCTUATION], by code point: full stop, U+3002, question
    mark, U+FF1F, exclamation mark, U+FF01, U+2026, apostrophe, quotation
    mark, U+2019, U+201D, U+300D, U+300F. *)
Definition END_LINE_PUNCTUATION : list pystr :=
  [ [46]; [12290]; [63]; [65311]; [33]; [65281]; [8230]; [39]; [34];
    [8217]; [8221]; [12301]; [12303] ]%N.

(** [get_item_count_by_status]. *)
Definition get_item_count_by_status (items : list CacheItem)
    (status : TranslationStatus) : Z :=
  len (filter (fun item => status_eqb (get_status item) status) items).

(** [sum(1 for line in src.splitlines() if line.strip())]. *)
Definition non_empty_lines (src : pystr) : Z :=
  len (filter (fun line => negb (PyStr.eqb (strip line) [])) (splitlines src)).

(** The loop of [generate_preceding_chunks]: [k] indices remain, the next
    one is [k - 1]; [result] is the list collected so far. *)
Fixpoint preceding_loop (items chunk : list CacheItem)
    (preceding_lines_threshold : Z) (k : nat) (result : list CacheItem)
    : res (list CacheItem) :=
  match k with
  | O => Ok result
  | S i =>
      item <- py_index items i ;;
      if status_eqb (get_status item) EXCLUDED then
        preceding_loop items chunk preceding_lines_threshold i result
      else
        let src := strip (get_src item) in
        if PyStr.eqb src [] then
          preceding_loop items chunk preceding_lines_threshold i result
        else if preceding_lines_threshold <=? len result then Ok result
        else
          last <- py_last chunk ;;
          if negb (PyStr.eqb (get_file_path item) (get_file_path last)) then
            Ok result
          else if endswith_any END_LINE_PUNCTUATION src then
            preceding_loop items chunk preceding_lines_threshold i
              (result ++ [item])
          else Ok result
  end.

(** [generate_preceding_chunks]: the indices are
    [range(start - skip - len(chunk) - 1, -1, -1)]. *)
Definition generate_preceding_chunks (items chunk : list CacheItem)
    (start skip preceding_lines_threshold : Z) : res (list CacheItem) :=
  result <- preceding_loop items chunk preceding_lines_threshold
              (Z.to_nat (start - skip - len chunk - 1 + 1)) [] ;;
  Ok (rev result).

(** The local variables of [generate_item_chunks]. *)
Record Plan : Type := mkPlan {
  skip : Z;
  line_length : Z;
  token_length : Z;
  chunk : list CacheItem;
  chunks : list (list CacheItem);
  preceding_chunks : list (list CacheItem)
}.

(** Line 161, [max(8, int(token_threshold / 16))]: the quotient is a
    [float], so a threshold whose quotient is beyond the binary64 range
    raises [OverflowError] here, before any item is read. *)
Definition line_limit (token_threshold : Z) : res Z :=
  quotient <- truediv token_threshold 16 ;;
  Ok (Z.max 8 (int_of_float quotient)).

(** The test of the [elif]: a short-circuit [or]; [line_limit0] is the
    local variable [line_limit]. *)
Definition chunk_is_full (st : Plan) (item : CacheItem)
    (line_limit0 token_threshold current_line_length current_token_length : Z)
    : res bool :=
  if line_limit0 <? line_length st + current_line_length then Ok true
  else if token_threshold <? token_length st + current_token_length then Ok true
  else
    last <- py_last (chunk st) ;;
    Ok (negb (PyStr.eqb (get_file_path item) (get_file_path last))).

(** The body of the [for] loop, for the item at index [i]. *)
Definition chunk_step (items : list CacheItem)
    (line_limit0 token_threshold preceding_lines_threshold : Z)
    (i : Z) (item : CacheItem) (st : Plan) : res Plan :=
  if negb (status_eqb (get_status item) UNTRANSLATED) then
    Ok (mkPlan (skip st + 1) (line_length st) (token_length st) (chunk st)
          (chunks st) (preceding_chunks st))
  else
    let current_line_length := non_empty_lines (get_src item) in
    let current_token_length := get_token_count item in
    st1 <- (if len (chunk st) =? 0 then Ok st
            else
              full <- chunk_is_full st item line_limit0 token_threshold
                        current_line_length current_token_length ;;
              if (full : bool) then
                preceding <- generate_preceding_chunks items (chunk st) i (skip st)
                               preceding_lines_threshold ;;
                Ok (mkPlan 0 0 0 [] (chunks st ++ [chunk st])
                      (preceding_chunks st ++ [preceding]))
              else Ok st) ;;
    Ok (mkPlan (skip st1) (line_length st1 + current_line_length)
          (token_length st1 + current_token_length) (chunk st1 ++ [item])
          (chunks st1) (preceding_chunks st1)).

(** [for i, item in enumerate(self.items)], from index [i] on. *)
Fixpoint chunk_loop (items : list CacheItem)
    (line_limit0 token_threshold preceding_lines_threshold : Z)
    (i : Z) (rest : list CacheItem) (st : Plan) : res Plan :=
  match rest with
  | [] => Ok st
  | item :: rest' =>
      st' <- chunk_step items line_limit0 token_threshold
               preceding_lines_threshold i item st ;;
      chunk_loop items line_limit0 token_threshold preceding_lines_threshold
        (i + 1) rest' st'
  end.

(** Lines 163 to 204 of [generate_item_chunks], with [line_limit] computed:
    after the loop [i] is the last index, so [i + 1 = len(self.items)]
    where the remaining chunk is flushed. *)
Definition generate_item_chunks_with (items : list CacheItem)
    (line_limit0 token_threshold preceding_lines_threshold : Z)
    : res (list (list CacheItem) * list (list CacheItem)) :=
  st <- chunk_loop items line_limit0 token_threshold preceding_lines_threshold
          0 items (mkPlan 0 0 0 [] [] []) ;;
  if 0 <? len (chunk st) then
    preceding <- generate_preceding_chunks items (chunk st) (len items) (skip st)
                   preceding_lines_threshold ;;
    Ok (chunks st ++ [chunk st], preceding_chunks st ++ [preceding])
  else Ok (chunks st, preceding_chunks st).

(** [generate_item_chunks]. *)
Definition generate_item_chunks (items : list CacheItem)
    (token_threshold preceding_lines_threshold : Z)
    : res (list (list CacheItem) * list (list CacheItem)) :=
  line_limit0 <- line_limit token_threshold ;;
  generate_item_chunks_with items line_limit0 token_threshold
    preceding_lines_threshold.

End CacheManager.

(* ================================================================== *)
(** * Python dictionaries and numbers *)

Module PyDict.

Section Dict.

Variable V : Type.

(** A [dict] with [str] keys, in insertion order; a key occurs once. *)
Definition dict : Type := list (pystr * V).

(** [d.get(k)]. *)
Fixpoint get (d : dict) (k : pystr) : option V :=
  match d with
  | [] => None
  | (k', v) :: d' => if PyStr.eqb k' k then Some v else get d' k
  end.

(** [d.get(k, default)]. *)
Definition get_default (d : dict) (k : pystr) (default : V) : V :=
  match get d k with
  | Some v => v
  | None => default
  end.

(** [k in d]. *)
Definition mem (k : pystr) (d : dict) : bool :=
  match get d k with Some _ => true | None => false end.

(** [d[k] = v]: a present key keeps its place, a new key goes last. *)
Fixpoint set (d : dict) (k : pystr) (v : V) : dict :=
  match d with
  | [] => [(k, v)]
  | (k', v') :: d' =>
      if PyStr.eqb k' k then (k', v) :: d' else (k', v') :: set d' k v
  end.

Definition keys (d : dict) : list pystr := map fst d.
Definition values (d : dict) : list V := map snd d.

End Dict.

(** [d.setdefault(k, []).append(x)] on a dictionary of lists. *)
Fixpoint setdefault_append {A : Type} (d : dict (list A)) (k : pystr) (x : A)
    : dict (list A) :=
  match d with
  | [] => [(k, [x])]
  | (k', xs) :: d' =>
      if PyStr.eqb k' k then (k', xs ++ [x]) :: d'
      else (k', xs) :: setdefault_append d' k x
  end.

End PyDict.

(** [int(x)] to [float]: rounded to nearest, ties to even. *)
Definition float_of_Z (z : Z) : float :=
  FloatOps.SF2Prim (SpecFloat.binary_normalize FloatOps.prec FloatOps.emax z 0 false).

(** [x == b] for a [float] and a [bool]: [True] is the integer 1. *)
Definition float_eq_bool (x : float) (b : bool) : bool :=
  PrimFloat.eqb x (float_of_Z (if b then 1 else 0)).

(** [itertools.zip_longest(xs, ys, fillvalue = fill)]. *)
Fixpoint zip_longest {A : Type} (fill : A) (xs ys : list A) : list (A * A) :=
  match xs, ys with
  | [], [] => []
  | x :: xs', [] => (x, fill) :: zip_longest fill xs' []
  | [], y :: ys' => (fill, y) :: map (fun y' => (fill, y')) ys'
  | x :: xs', y :: ys' => (x, y) :: zip_longest fill xs' ys'
  end.

(* ================================================================== *)
(** * ResponseDecoder *)

(** The Python values a JSON parse returns. *)
Inductive json : Type :=
| JNull
| JBool (b : bool)
| JInt (z : Z)
| JFloat (f : float)
| JStr (s : pystr)
| JList (l : list json)
| JDict (d : list (pystr * json)).

Module ResponseDecoder.

Section Decode.

(** [json_repair.loads], an external library, as the value it returns:
    [decode] where every call of the parser returns.  The calls that raise
    are in [Raising] below. *)
Variable repair_loads : pystr -> json.

(** [x if isinstance(x, str) else ""], for the result of [dict.get]. *)
Definition str_or_empty (x : option json) : pystr :=
  match x with
  | Some (JStr s) => s
  | _ => []
  end.

(** The body of the line-wise loop, for one line. *)
Definition decode_line (line : pystr)
    (acc : PyDict.dict pystr * list (PyDict.dict pystr))
    : PyDict.dict pystr * list (PyDict.dict pystr) :=
  let (dst_dict, glossary_list) := acc in
  match repair_loads line with
  | JDict json_data =>
      let dst_dict1 :=
        if len json_data =? 1 then
          match json_data with
          | (_, JStr v) :: _ => PyDict.set dst_dict (of_nat (length dst_dict)) v
          | _ => dst_dict
          end
        else dst_dict in
      let glossary_list1 :=
        if len json_data =? 3 then
          if existsb (fun v => PyDict.mem v json_data)
               [lit "src"; lit "dst"; lit "gender"]
          then
            glossary_list ++
            [ [ (lit "src", str_or_empty (PyDict.get json_data (lit "src")));
                (lit "dst", str_or_empty (PyDict.get json_data (lit "dst")));
                (lit "info", str_or_empty (PyDict.get json_data (lit "gender"))) ] ]
          else glossary_list
        else glossary_list in
      (dst_dict1, glossary_list1)
  | _ => (dst_dict, glossary_list)
  end.

(** The line-wise pass: [for line in response.splitlines()]. *)
Definition decode_lines (response : pystr)
    : PyDict.dict pystr * list (PyDict.dict pystr) :=
  fold_left (fun acc line => decode_line line acc) (splitlines response) ([], []).

(** The loop of the fallback: [for k, v in json_data.items()]. *)
Definition decode_values (json_data : list (pystr * json))
    (dst_dict : PyDict.dict pystr) : PyDict.dict pystr :=
  fold_left
    (fun d kv =>
       match snd kv with
       | JStr v => PyDict.set d (of_nat (length d)) v
       | _ => d
       end)
    json_data dst_dict.

(** The fallback: the whole response parsed as one dictionary. *)
Definition decode_whole (response : pystr) (dst_dict : PyDict.dict pystr)
    : PyDict.dict pystr :=
  match repair_loads response with
  | JDict json_data => decode_values json_data dst_dict
  | _ => dst_dict
  end.

(** [decode]. *)
Definition decode (response : pystr)
    : PyDict.dict pystr * list (PyDict.dict pystr) :=
  let (dst_dict, glossary_list) := decode_lines response in
  if len dst_dict =? 0 then (decode_whole response dst_dict, glossary_list)
  else (dst_dict, glossary_list).

End Decode.

(** [decode] over a parser that can raise: lines 17 and 41 call
    [repair.loads] outside any [try], so what it raises there, [decode]
    raises. *)
Module Raising.

Section Decode.

Variable repair_loads : pystr -> res json.

(** The body of the line-wise loop, for one line: line 17, then lines 18 to
    37 on the value it returned. *)
Definition decode_line (line : pystr)
    (acc : PyDict.dict pystr * list (PyDict.dict pystr))
    : res (PyDict.dict pystr * list (PyDict.dict pystr)) :=
  json_data <- repair_loads line ;;
  Ok (decode_line (fun _ => json_data) line acc).

(** The line-wise pass: the first call that raises ends it. *)
Definition decode_lines (response : pystr)
    : res (PyDict.dict pystr * list (PyDict.dict pystr)) :=
  fold_left (fun acc line => acc0 <- acc ;; decode_line line acc0)
    (splitlines response) (Ok ([], [])).

(** The fallback: line 41, then lines 42 to 45 on the value it returned. *)
Definition decode_whole (response : pystr) (dst_dict : PyDict.dict pystr)
    : res (PyDict.dict pystr) :=
  json_data <- repair_loads response ;;
  Ok (decode_whole (fun _ => json_data) response dst_dict).

(** [decode]. *)
Definition decode (response : pystr)
    : res (PyDict.dict pystr * list (PyDict.dict pystr)) :=
  acc <- decode_lines response ;;
  let (dst_dict, glossary_list) := acc in
  if len dst_dict =? 0 then
    dst_dict1 <- decode_whole response dst_dict ;;
    Ok (dst_dict1, glossary_list)
  else Ok (dst_dict, glossary_list).

End Decode.

End Raising.

End ResponseDecoder.

(* ================================================================== *)
(** * ResponseChecker *)

Module ResponseChecker.

(** [ResponseChecker.Error]. *)
Inductive Error : Type :=
| NONE
| UNKNOWN
| FAIL_DATA
| FAIL_LINE_COUNT
| LINE_ERROR_KANA
| LINE_ERROR_HANGEUL
| LINE_ERROR_FAKE_REPLY
| LINE_ERROR_EMPTY_LINE
| LINE_ERROR_SIMILARITY
| LINE_ERROR_DEGRADATION.

Definition is_NONE (e : Error) : bool :=
  match e with NONE => true | _ => false end.

Definition RETRY_COUNT_THRESHOLD : Z := 2.

Section Checker.

(** What the checker uses and the sources do not hold:
    [TextPreserver.PLACEHOLDER], [RuleFilter.filter], [LanguageFilter.filter],
    the helpers of [TextHelper], and the search of the compiled pattern
    [RE_DEGRADATION] ([RE_DEGRADATION.search(s) != None]). *)
Variable PLACEHOLDER : pystr.
Variable RuleFilter_filter : pystr -> bool -> bool.
Variable LanguageFilter_filter : pystr -> Language -> bool.
Variable RE_DEGRADATION_search : pystr -> bool.
Variable any_hiragana any_katakana any_hangeul : pystr -> bool.
Variable check_similarity_by_jaccard : pystr -> pystr -> float.

(** The fields of [self]: the items of the task, and the two languages of
    the configuration. *)
Record Checker : Type := mkChecker {
  items : list CacheItem;
  source_language : Language;
  target_language : Language
}.

(** [dst.strip()], where [dst] may be [None]. *)
Definition strip_value (v : option pystr) : res pystr :=
  match v with
  | Some s => Ok (strip s)
  | None => Raise AttributeError
  end.

(** The test of line 116.  The comparison chain [x > 0.80 == True] is
    [x > 0.80 and 0.80 == True]. *)
Definition contained_or_similar (src dst : pystr) : bool :=
  contains src dst || contains dst src
  || (PrimFloat.ltb 0.80 (check_similarity_by_jaccard src dst)
      && float_eq_bool 0.80 true).

(** The body of the loop of [check_lines], for one line. *)
Definition check_line (self : Checker) (src0 : pystr) (dst0 : option pystr)
    (item : CacheItem) (source_language0 : Language) : res Error :=
  let src := strip src0 in
  dst <- strip_value dst0 ;;
  if negb (PyStr.eqb src []) && PyStr.eqb dst [] then Ok LINE_ERROR_EMPTY_LINE
  else if contains PLACEHOLDER src then Ok NONE
  else if RuleFilter_filter src (get_skip_internal_filter item) then Ok NONE
  else if LanguageFilter_filter src source_language0 then Ok NONE
  else if negb (RE_DEGRADATION_search src) && RE_DEGRADATION_search dst
    then Ok LINE_ERROR_DEGRADATION
  else if is_JA source_language0 && (any_hiragana dst || any_katakana dst)
    then Ok LINE_ERROR_KANA
  else if is_KO source_language0 && any_hangeul dst then Ok LINE_ERROR_HANGEUL
  else if contained_or_similar src dst then
    if is_JA (source_language self) && is_ZH (target_language self) then
      if any_hiragana dst || any_katakana dst then Ok LINE_ERROR_SIMILARITY
      else Ok NONE
    else if is_KO (source_language self) && is_ZH (target_language self) then
      if any_hangeul dst then Ok LINE_ERROR_SIMILARITY
      else Ok NONE
    else Ok LINE_ERROR_SIMILARITY
  else Ok NONE.

(** [check_lines]: the three sequences of values are zipped, so the
    shortest one ends the loop. *)
Fixpoint check_values (self : Checker) (srcs : list pystr)
    (dsts : list (option pystr)) (its : list CacheItem)
    (source_language0 : Language) : res (list Error) :=
  match srcs, dsts, its with
  | src :: srcs', dst :: dsts', item :: its' =>
      e <- check_line self src dst item source_language0 ;;
      rest <- check_values self srcs' dsts' its' source_language0 ;;
      Ok (e :: rest)
  | _, _, _ => Ok []
  end.

Definition check_lines (self : Checker) (src_dict : PyDict.dict pystr)
    (dst_dict : PyDict.dict (option pystr)) (item_dict : PyDict.dict CacheItem)
    (source_language0 : Language) : res (list Error) :=
  check_values self (PyDict.values src_dict) (PyDict.values dst_dict)
    (PyDict.values item_dict) source_language0.

(** [v == "" or v == None]. *)
Definition empty_or_none (v : option pystr) : bool :=
  match v with
  | Some s => PyStr.eqb s []
  | None => true
  end.

(** [len(self.items) == 1 and self.items[0].get_retry_count() >= 2]. *)
Definition single_item_retried (self : Checker) : res bool :=
  if len (items self) =? 1 then
    item <- py_index (items self) 0 ;;
    Ok (RETRY_COUNT_THRESHOLD <=? get_retry_count item)
  else Ok false.

(** [check]. *)
Definition check (self : Checker) (src_dict : PyDict.dict pystr)
    (dst_dict : PyDict.dict (option pystr)) (item_dict : PyDict.dict CacheItem)
    (source_language0 : Language) : res (list Error) :=
  if (len dst_dict =? 0) || forallb empty_or_none (PyDict.values dst_dict) then
    Ok (py_repeat FAIL_DATA (len src_dict))
  else
    bypass <- single_item_retried self ;;
    if (bypass : bool) then Ok (py_repeat NONE (len src_dict))
    else if negb (len src_dict =? len dst_dict) then
      Ok (py_repeat FAIL_LINE_COUNT (len src_dict))
    else
      error <- check_lines self src_dict dst_dict item_dict source_language0 ;;
      if existsb (fun v => negb (is_NONE v)) error then Ok error
      else Ok (py_repeat NONE (len src_dict)).

End Checker.

End ResponseChecker.

(* ================================================================== *)
(** * Translator *)

(** [Base.TaskStatus]. *)
Module TaskStatus.
Inductive t : Type := IDLE | TRANSLATING | STOPPING.
Definition eqb (a b : t) : bool :=
  match a, b with
  | IDLE, IDLE | TRANSLATING, TRANSLATING | STOPPING, STOPPING => true
  | _, _ => false
  end.
End TaskStatus.

(** The values held by [extras] and by the result of a task. *)
Inductive pyval : Type :=
| VInt (z : Z)
| VFloat (f : float)
| VOther.

(** [int] to [float] in mixed arithmetic; an integer too large raises. *)
Definition to_float (z : Z) : res float :=
  if PrimFloat.is_infinity (float_of_Z z) then Raise OverflowError
  else Ok (float_of_Z z).

(** [a + b]. *)
Definition py_add (a b : pyval) : res pyval :=
  match a, b with
  | VInt x, VInt y => Ok (VInt (x + y))
  | VInt x, VFloat g => f <- to_float x ;; Ok (VFloat (PrimFloat.add f g))
  | VFloat f, VInt y => g <- to_float y ;; Ok (VFloat (PrimFloat.add f g))
  | VFloat f, VFloat g => Ok (VFloat (PrimFloat.add f g))
  | _, _ => Raise TypeError
  end.

(** [a - b]. *)
Definition py_sub (a b : pyval) : res pyval :=
  match a, b with
  | VInt x, VInt y => Ok (VInt (x - y))
  | VInt x, VFloat g => f <- to_float x ;; Ok (VFloat (PrimFloat.sub f g))
  | VFloat f, VInt y => g <- to_float y ;; Ok (VFloat (PrimFloat.sub f g))
  | VFloat f, VFloat g => Ok (VFloat (PrimFloat.sub f g))
  | _, _ => Raise TypeError
  end.

Module Translator.

(** Cache items are objects: a list of items holds references into a
    store, and a setter changes the object every reference sees. *)
Abbreviation loc := nat.
Definition store : Type := loc -> CacheItem.

Definition update (s : store) (l : loc) (v : CacheItem) : store :=
  fun l' => if Nat.eqb l' l then v else s l'.

(** The fields of [Config] read here. *)
Record Config : Type := mkConfig {
  source_language : Language;
  target_language : Language;
  mtool_optimizer_enable : bool;
  max_round : Z;
  token_threshold : Z;
  preceding_lines_threshold : Z;
  output_folder : pystr;
  glossary_enable : bool;
  auto_glossary_enable : bool
}.

Inductive Event : Type :=
| TRANSLATION_UPDATE (extras : PyDict.dict pyval)
| TRANSLATION_STOP_DONE
| GLOSSARY_REFRESH.

(** The state the translator works on: the manager's item list and the
    objects it refers to ([next] is the first unused reference), the
    project record, [extras], the two status flags, the request to save
    the cache, the events emitted, the item lists written out and the
    number of errors logged. *)
Record State : Type := mkState {
  items : list loc;
  heap : store;
  next : loc;
  project_status : TranslationStatus;
  project_extras : PyDict.dict pyval;
  extras : PyDict.dict pyval;
  translating : bool;
  WORK_STATUS : TaskStatus.t;
  save_to_file_require : option pystr;
  emitted : list Event;
  written : list (list CacheItem);
  errors_logged : nat
}.

(** [cache_manager.get_item_count_by_status(status)] on the objects. *)
Definition get_item_count_by_status (its : list loc) (s : store)
    (status : TranslationStatus) : Z :=
  CacheManager.get_item_count_by_status (map s its) status.

Section Filters.

Variable RuleFilter_filter : pystr -> bool -> bool.
Variable LanguageFilter_filter : pystr -> Language -> bool.

(** [for item in target: item.set_status(EXCLUDED)]. *)
Definition exclude_all (target : list loc) (s : store) : store :=
  fold_left (fun s item => update s item (set_status EXCLUDED (s item))) target s.

Definition count_excluded (its : list loc) (s : store) : Z :=
  len (filter (fun v => status_eqb (get_status (s v)) EXCLUDED) its).

(** [rule_filter]: the store afterwards, and the count it reports. *)
Definition rule_filter (its : list loc) (s : store) : store * option Z :=
  if len its =? 0 then (s, None)
  else
    let count_before := count_excluded its s in
    let target :=
      filter (fun v => RuleFilter_filter (get_src (s v))
                         (get_skip_internal_filter (s v))) its in
    let s' := exclude_all target s in
    (s', Some (count_excluded its s' - count_before)).

(** [language_filter]. *)
Definition language_filter (config : Config) (its : list loc) (s : store)
    : store * option Z :=
  if len its =? 0 then (s, None)
  else
    let count_before := count_excluded its s in
    let source_language0 := source_language config in
    let target :=
      filter (fun v => LanguageFilter_filter (get_src (s v)) source_language0)
        its in
    let s' := exclude_all target s in
    (s', Some (count_excluded its s' - count_before)).

End Filters.

(** One pass of the innermost loop of [mtool_optimizer_postprocess]: a new
    object copied from [item], and appended to the list. *)
Definition append_line (row : Z) (item : loc)
    (acc : list loc * store * loc) (pair : pystr * pystr)
    : list loc * store * loc :=
  let '(its, s, n) := acc in
  let item_ex := copy_item (s item) in
  let item_ex := set_src (strip (fst pair)) item_ex in
  let item_ex := set_dst (strip (snd pair)) item_ex in
  let item_ex := set_row row item_ex in
  (its ++ [n], update s n item_ex, S n).

(** The body of the loop over the items of one group. *)
Definition expand_item (row : Z) (acc : list loc * store * loc) (item : loc)
    : list loc * store * loc :=
  let '(its, s, n) := acc in
  let src := get_src (s item) in
  let dst := get_dst (s item) in
  if 0 <? PyStr.count 10%N src then
    fold_left (append_line row item)
      (zip_longest [] (splitlines src) (splitlines dst)) acc
  else acc.

(** [group_by_file_path], from the KVJSON items. *)
Definition group_by_file_path (items_kvjson : list loc) (s : store)
    : PyDict.dict (list loc) :=
  fold_left
    (fun d item => PyDict.setdefault_append d (get_file_path (s item)) item)
    items_kvjson [].

(** [mtool_optimizer_postprocess]. *)
Definition mtool_optimizer_postprocess (config : Config)
    (its : list loc) (s : store) (n : loc) : list loc * store * loc :=
  if (len its =? 0) || negb (mtool_optimizer_enable config) then (its, s, n)
  else
    let items_kvjson := filter (fun item => is_KVJSON (get_file_type (s item))) its in
    fold_left
      (fun acc items_by_file_path =>
         fold_left (expand_item (len items_by_file_path)) items_by_file_path acc)
      (PyDict.values (group_by_file_path items_kvjson s))
      (its, s, n).

(** What [future.result()] does: it raises, or returns something that is
    not a [dict], or returns a [dict]. *)
Inductive Future : Type :=
| FutureRaised (e : exn)
| FutureOther
| FutureDict (result : PyDict.dict pyval).

(** The dictionary [new] of [task_done_callback]; [now] is [time.time()]. *)
Definition new_extras (now : float) (extras0 result : PyDict.dict pyval)
    : res (PyDict.dict pyval) :=
  let zero := VInt 0 in
  let new := [] in
  let new := PyDict.set new (lit "start_time")
               (PyDict.get_default extras0 (lit "start_time") zero) in
  let new := PyDict.set new (lit "total_line")
               (PyDict.get_default extras0 (lit "total_line") zero) in
  line <- py_add (PyDict.get_default extras0 (lit "line") zero)
            (PyDict.get_default result (lit "row_count") zero) ;;
  let new := PyDict.set new (lit "line") line in
  tokens <- py_add (PyDict.get_default extras0 (lit "total_tokens") zero)
              (PyDict.get_default result (lit "input_tokens") zero) ;;
  tokens <- py_add tokens (PyDict.get_default result (lit "output_tokens") zero) ;;
  let new := PyDict.set new (lit "total_tokens") tokens in
  output <- py_add (PyDict.get_default extras0 (lit "total_output_tokens") zero)
              (PyDict.get_default result (lit "output_tokens") zero) ;;
  let new := PyDict.set new (lit "total_output_tokens") output in
  time <- py_sub (VFloat now) (PyDict.get_default extras0 (lit "start_time") zero) ;;
  let new := PyDict.set new (lit "time") time in
  Ok new.

(** The [except] branch: the error is logged, nothing else changes. *)
Definition log_error (st : State) : State :=
  mkState (items st) (heap st) (next st) (project_status st) (project_extras st)
    (extras st) (translating st) (WORK_STATUS st) (save_to_file_require st)
    (emitted st) (written st) (S (errors_logged st)).

(** [task_done_callback]. *)
Definition task_done_callback (config : Config) (now : float) (future : Future)
    (st : State) : State :=
  match future with
  | FutureRaised _ => log_error st
  | FutureOther => st
  | FutureDict result =>
      if len result =? 0 then st
      else
        match new_extras now (extras st) result with
        | Raise _ => log_error st
        | Ok new =>
            mkState (items st) (heap st) (next st) TRANSLATING new new
              (translating st) (WORK_STATUS st) (Some (output_folder config))
              (emitted st ++ [TRANSLATION_UPDATE new]) (written st)
              (errors_logged st)
        end
  end.

(** How the round loop is left: by the [return] of line 201, by the
    [break] of line 212 or of line 220, by the end of the range, or by an
    exception, which nothing in [translation_start_target] catches. *)
Inductive Exit : Type :=
| Returned
| Completed
| Exhausted
| RangeEnded
| Raised (e : exn).

(** [range(n)]. *)
Definition range (n : Z) : list Z := map Z.of_nat (seq 0 (Z.to_nat n)).

Section Rounds.

(** Lines 222 to 268 of a round: the chunks are planned and the tasks are
    built and run on the worker pool, each followed by its callback.
    [TranslatorTask] is not among the sources: what is taken of these lines
    is the state they leave, and the exception that ended them, when one
    did (line 223 raises what [generate_item_chunks] raises). *)
Variable run_tasks : Z -> Config -> State -> option exn * State.

Definition stop_now (st : State) : State :=
  mkState (items st) (heap st) (next st) (project_status st) (project_extras st)
    (extras st) false TaskStatus.IDLE (save_to_file_require st)
    (emitted st) (written st) (errors_logged st).

Definition record_total_line (count : Z) (st : State) : State :=
  mkState (items st) (heap st) (next st) (project_status st) (project_extras st)
    (PyDict.set (extras st) (lit "total_line") (VInt count))
    (translating st) (WORK_STATUS st) (save_to_file_require st)
    (emitted st) (written st) (errors_logged st).

(** Line 220,
    [self.config.token_threshold = max(1, int(self.config.token_threshold / 3))]:
    the quotient is a [float], and beyond the binary64 range the division
    raises [OverflowError]. *)
Definition shrink_token_threshold (config : Config) : res Config :=
  quotient <- truediv (token_threshold config) 3 ;;
  Ok (mkConfig (source_language config) (target_language config)
        (mtool_optimizer_enable config) (max_round config)
        (Z.max 1 (int_of_float quotient))
        (preceding_lines_threshold config) (output_folder config)
        (glossary_enable config) (auto_glossary_enable config)).

(** The round loop, over the rounds that remain. *)
Fixpoint rounds (status : TranslationStatus) (remaining : list Z)
    (config : Config) (st : State) : Exit * Config * State :=
  match remaining with
  | [] => (RangeEnded, config, st)
  | current_round :: remaining' =>
      if TaskStatus.eqb (WORK_STATUS st) TaskStatus.STOPPING then
        (Returned, config, stop_now st)
      else
        let item_count_status_untranslated :=
          get_item_count_by_status (items st) (heap st) UNTRANSLATED in
        if item_count_status_untranslated =? 0 then (Completed, config, st)
        else if (0 <? item_count_status_untranslated)
                && (current_round =? max_round config) then
          (Exhausted, config, st)
        else
          let st1 :=
            if (current_round =? 0) && status_eqb status UNTRANSLATED
            then record_total_line item_count_status_untranslated st
            else st in
          match (if 0 <? current_round then shrink_token_threshold config
                 else Ok config) with
          | Raise e => (Raised e, config, st1)
          | Ok config1 =>
              match run_tasks current_round config1 st1 with
              | (Some e, st2) => (Raised e, config1, st2)
              | (None, st2) => rounds status remaining' config1 st2
              end
          end
  end.

(** [check_and_wirte_result]: the glossary event, and the items handed to
    [FileManager.write_to_path], recorded as they are at that moment. *)
Definition check_and_wirte_result (config : Config) (st : State) : State :=
  mkState (items st) (heap st) (next st) (project_status st) (project_extras st)
    (extras st) (translating st) (WORK_STATUS st) (save_to_file_require st)
    (if glossary_enable config && auto_glossary_enable config
     then emitted st ++ [GLOSSARY_REFRESH] else emitted st)
    (written st ++ [map (heap st) (items st)]) (errors_logged st).

(** Lines 270 to 288: the post-processing, the project status, the results
    written out, the flags reset and the last event. *)
Definition finalize (config : Config) (st : State) : State :=
  let '(its, s, n) :=
    mtool_optimizer_postprocess config (items st) (heap st) (next st) in
  let project_status1 :=
    if get_item_count_by_status its s UNTRANSLATED =? 0 then TRANSLATED
    else project_status st in
  let st1 :=
    check_and_wirte_result config
      (mkState its s n project_status1 (project_extras st) (extras st)
         (translating st) (WORK_STATUS st) (save_to_file_require st)
         (emitted st) (written st) (errors_logged st)) in
  mkState (items st1) (heap st1) (next st1) (project_status st1)
    (project_extras st1) (extras st1) false TaskStatus.IDLE
    (save_to_file_require st1) (emitted st1 ++ [TRANSLATION_STOP_DONE])
    (written st1) (errors_logged st1).

(** [translation_start_target], from the round loop on: after the
    [return] and after an exception nothing more is run. *)
Definition translation_start_target (status : TranslationStatus)
    (config : Config) (st : State) : State :=
  match rounds status (range (max_round config + 1)) config st with
  | (Returned, _, st') => st'
  | (Raised _, _, st') => st'
  | (_, config', st') => finalize config' st'
  end.

End Rounds.

(** [initialize_max_workers], from the two settings of the configuration
    and from [response_json], which is what the probe of the slots left
    there: the parsed answer, or [None] when the request failed. *)
Definition initialize_max_workers (max_workers0 rpm_threshold0 : Z)
    (response_json : json) : Z * Z :=
  let max_workers :=
    if max_workers0 =? 0 then
      match response_json with
      | JList slots => if 0 <? len slots then len slots else max_workers0
      | _ => max_workers0
      end
    else max_workers0 in
  let rpm_threshold := rpm_threshold0 in
  if (max_workers =? 0) && (rpm_threshold =? 0) then (8, 0)
  else if (0 <? max_workers) && (rpm_threshold =? 0) then (max_workers, rpm_threshold)
  else if (max_workers =? 0) && (0 <? rpm_threshold) then (8192, rpm_threshold)
  else (max_workers, rpm_threshold).

(** [[line.strip() for line in src.splitlines() if line.strip() != ""]]. *)
Definition sub_lines (src : pystr) : list pystr :=
  map strip (filter (fun line => negb (PyStr.eqb (strip line) [])) (splitlines src)).

(** The set [target] of one group, as the list of what is added to it. *)
Definition group_target (s : store) (items_by_file_path : list loc) : list pystr :=
  fold_left
    (fun target item =>
       let src := get_src (s item) in
       if 0 <? PyStr.count 10%N src then target ++ sub_lines src else target)
    items_by_file_path [].

(** The two loops over one group of [mtool_optimizer_preprocess]. *)
Definition exclude_sub_lines (s : store) (items_by_file_path : list loc) : store :=
  let target := group_target s items_by_file_path in
  fold_left
    (fun s item =>
       if existsb (PyStr.eqb (get_src (s item))) target
       then update s item (set_status EXCLUDED (s item))
       else s)
    items_by_file_path s.

(** [mtool_optimizer_preprocess]: the store afterwards, and the count it
    reports. *)
Definition mtool_optimizer_preprocess (config : Config) (its : list loc)
    (s : store) : store * option Z :=
  if (len its =? 0) || negb (mtool_optimizer_enable config) then (s, None)
  else
    let count_before := count_excluded its s in
    let items_kvjson := filter (fun item => is_KVJSON (get_file_type (s item))) its in
    let s' :=
      fold_left exclude_sub_lines
        (PyDict.values (group_by_file_path items_kvjson s)) s in
    (s', Some (count_excluded its s' - count_before)).

(** [cache_manager.copy_items()]: a new object for each item of the list. *)
Definition copy_items (its : list loc) (s : store) (n : loc)
    : list loc * store * loc :=
  fold_left
    (fun acc item =>
       let '(copies, s, n) := acc in
       (copies ++ [n], update s n (copy_item (s item)), S n))
    its ([], s, n).

(** [check_and_wirte_result(items)], for any list of items. *)
Definition check_and_wirte_result_items (config : Config) (its : list loc)
    (st : State) : State :=
  mkState (items st) (heap st) (next st) (project_status st) (project_extras st)
    (extras st) (translating st) (WORK_STATUS st) (save_to_file_require st)
    (if glossary_enable config && auto_glossary_enable config
     then emitted st ++ [GLOSSARY_REFRESH] else emitted st)
    (written st ++ [map (heap st) its]) (errors_logged st).

(** [translation_manual_export_target]: the items are copied, the copies
    post-processed and written out. *)
Definition translation_manual_export_target (config : Config) (st : State)
    : State :=
  let '(copies, s, n) := copy_items (items st) (heap st) (next st) in
  let '(copies', s', n') := mtool_optimizer_postprocess config copies s n in
  check_and_wirte_result_items config copies'
    (mkState (items st) s' n' (project_status st) (project_extras st)
       (extras st) (translating st) (WORK_STATUS st) (save_to_file_require st)
       (emitted st) (written st) (errors_logged st)).

(** [translation_manual_export]: only while a translation is running; the
    thread it starts is run to its end. *)
Definition translation_manual_export (config : Config) (st : State) : State :=
  if TaskStatus.eqb (WORK_STATUS st) TaskStatus.TRANSLATING
  then translation_manual_export_target config st
  else st.

End Translator.

(* ================================================================== *)
(** * Collaborators of the checker, for worked examples *)

(** Modelled from the spec: module/Text/TextHelper.py is not among the
    sources.  The spec names character-script heuristics and a Jaccard
    similarity of the two texts; the scripts are taken by Unicode block and
    the similarity over the two sets of characters. *)
Module TextHelper.

Definition between (lo hi c : char) : bool := ((lo <=? c) && (c <=? hi))%N.

Definition hiragana (c : char) : bool := between 12352%N 12447%N c.
Definition katakana (c : char) : bool := between 12448%N 12543%N c.
Definition hangeul (c : char) : bool :=
  between 4352%N 4607%N c || between 12592%N 12687%N c
  || between 44032%N 55215%N c.

Definition any_hiragana (s : pystr) : bool := existsb hiragana s.
Definition any_katakana (s : pystr) : bool := existsb katakana s.
Definition any_hangeul (s : pystr) : bool := existsb hangeul s.

(** [set(s)], as a list without repetition. *)
Fixpoint char_set (s : pystr) : list char :=
  match s with
  | [] => []
  | c :: s' => if existsb (N.eqb c) s' then char_set s' else c :: char_set s'
  end.

(** [intersection / union if union > 0 else 0.0]. *)
Definition check_similarity_by_jaccard (x y : pystr) : float :=
  let set_x := char_set x in
  let set_y := char_set y in
  let intersection := len (filter (fun c => existsb (N.eqb c) set_y) set_x) in
  let union := len set_x + len set_y - intersection in
  if 0 <? union then PrimFloat.div (float_of_Z intersection) (float_of_Z union)
  else 0%float.

End TextHelper.

(** The search of [RE_DEGRADATION], the pattern [(.{1,2})\1{16,}] with
    [re.IGNORECASE]: somewhere in the text, one or two characters other than
    a line feed are followed by sixteen repetitions of themselves.  Under
    [re.IGNORECASE] a back reference compares two characters by their
    lower-case images in the interpreter's Unicode tables; that mapping is
    the parameter [lower] of the search. *)
Module Degradation.

Section Search.

Variable lower : char -> char.

Fixpoint skip_unit (unit s : pystr) : option pystr :=
  match unit, s with
  | [], _ => Some s
  | u :: unit', c :: s' =>
      if (lower u =? lower c)%N then skip_unit unit' s' else None
  | _ :: _, [] => None
  end.

Fixpoint repeated (unit : pystr) (times : nat) (s : pystr) : bool :=
  match times with
  | O => true
  | S times' =>
      match skip_unit unit s with
      | Some rest => repeated unit times' rest
      | None => false
      end
  end.

Definition matches_here (s : pystr) : bool :=
  match s with
  | a :: b :: rest =>
      (negb (a =? 10)%N && negb (b =? 10)%N && repeated [a; b] 16 rest)
      || (negb (a =? 10)%N && repeated [a] 16 (b :: rest))
  | [a] => false
  | [] => false
  end.

Fixpoint search (s : pystr) : bool :=
  matches_here s ||
  match s with
  | [] => false
  | _ :: s' => search s'
  end.

End Search.

(** The lower-case mapping on the letters [A] to [Z]; it is the mapping of
    the Unicode tables on every text whose cased letters are all ASCII. *)
Definition ascii_lower (c : char) : char :=
  if ((65 <=? c) && (c <=? 90))%N then (c + 32)%N else c.

End Degradation.

(* ================================================================== *)
(** * Specification vocabulary *)

Unset Implicit Arguments.

(** [Subseq l1 l2]: [l1] is [l2] with some elements left out, the order kept. *)
Inductive Subseq {A : Type} : list A -> list A -> Prop :=
| Subseq_nil : Subseq [] []
| Subseq_skip (x : A) (l1 l2 : list A) : Subseq l1 l2 -> Subseq l1 (x :: l2)
| Subseq_keep (x : A) (l1 l2 : list A) : Subseq l1 l2 -> Subseq (x :: l1) (x :: l2).

Section PlanningVocabulary.

Import CacheManager.

(** The items the planner has to place: those still UNTRANSLATED. *)
Definition untranslated (items : list CacheItem) : list CacheItem :=
  filter (fun item => status_eqb (get_status item) UNTRANSLATED) items.

(** Cumulative non-empty-line count and token count of a chunk. *)
Definition total_lines (c : list CacheItem) : Z :=
  fold_right Z.add 0 (map (fun item => non_empty_lines (get_src item)) c).

Definition total_tokens (c : list CacheItem) : Z :=
  fold_right Z.add 0 (map get_token_count c).

(** What a preceding item has to satisfy, for a chunk whose items are [c]. *)
Definition preceding_item_ok (c : list CacheItem) (item : CacheItem) : Prop :=
  get_status item <> EXCLUDED
  /\ strip (get_src item) <> []
  /\ (forall x, In x c -> get_file_path item = get_file_path x)
  /\ endswith_any END_LINE_PUNCTUATION (strip (get_src item)) = true.

Definition same_file (c : list CacheItem) : Prop :=
  forall a b, In a c -> In b c -> get_file_path a = get_file_path b.

(** [generate_preceding_chunks] on a non-empty single-file chunk. *)
Definition preceding_ok (items : list CacheItem) (thr : Z)
    (c pc : list CacheItem) : Prop :=
  len pc <= Z.max 0 thr
  /\ Subseq pc items
  /\ Forall (preceding_item_ok c) pc.

(** A chunk of more than one item is within both budgets. *)
Definition within_bounds (line_limit0 token_threshold : Z)
    (c : list CacheItem) : Prop :=
  1 < len c ->
  total_lines c <= line_limit0
  /\ total_tokens c <= token_threshold.

(** The loop invariant of [generate_item_chunks], after the items [pre]. *)
Record Inv (items : list CacheItem) (line_limit0 token_threshold thr : Z)
    (pre : list CacheItem) (st : Plan) : Prop := mkInv {
  inv_concat : concat (chunks st) ++ chunk st = untranslated pre;
  inv_skip : 0 <= skip st;
  inv_lines : line_length st = total_lines (chunk st);
  inv_tokens : token_length st = total_tokens (chunk st);
  inv_bounds : Forall (within_bounds line_limit0 token_threshold) (chunks st);
  inv_bound : within_bounds line_limit0 token_threshold (chunk st);
  inv_file : same_file (chunk st);
  inv_files : Forall same_file (chunks st);
  inv_prec : Forall2 (preceding_ok items thr) (chunks st) (preceding_chunks st)
}.

End PlanningVocabulary.

(** Two objects that differ at most in their status. *)
Definition same_but_status (a b : CacheItem) : Prop :=
  get_src a = get_src b
  /\ get_dst a = get_dst b
  /\ get_file_path a = get_file_path b
  /\ get_file_type a = get_file_type b
  /\ get_token_count a = get_token_count b
  /\ get_retry_count a = get_retry_count b
  /\ get_skip_internal_filter a = get_skip_internal_filter b
  /\ get_row a = get_row b
  /\ get_vars_rest a = get_vars_rest b.

Section CheckerVocabulary.

Import ResponseChecker.

Variable PLACEHOLDER : pystr.
Variable RuleFilter_filter : pystr -> bool -> bool.
Variable LanguageFilter_filter : pystr -> Language -> bool.
Variable RE_DEGRADATION_search : pystr -> bool.
Variable any_hiragana any_katakana any_hangeul : pystr -> bool.

(** A line reaches the rule of line 116 when none of the earlier rules of
    [check_lines] answers for it. *)
Definition reaches_similarity_rule (src dst : pystr) (item : CacheItem)
    (source_language0 : Language) : Prop :=
  src <> [] /\ dst <> []
  /\ contains PLACEHOLDER src = false
  /\ RuleFilter_filter src (get_skip_internal_filter item) = false
  /\ LanguageFilter_filter src source_language0 = false
  /\ negb (RE_DEGRADATION_search src) && RE_DEGRADATION_search dst = false
  /\ is_JA source_language0 && (any_hiragana dst || any_katakana dst) = false
  /\ is_KO source_language0 && any_hangeul dst = false.

(** The language gate of lines 118 to 130. *)
Definition similarity_gate (self : Checker) (dst : pystr) : bool :=
  if is_JA (source_language self) && is_ZH (target_language self)
  then any_hiragana dst || any_katakana dst
  else if is_KO (source_language self) && is_ZH (target_language self)
  then any_hangeul dst
  else true.

End CheckerVocabulary.

(** The keys are the decimal strings of 0, 1, ... in this order. *)
Definition numbered {V : Type} (d : PyDict.dict V) : Prop :=
  PyDict.keys d = map of_nat (seq 0 (length d)).

Section StoreVocabulary.

Import Translator.

(** Two stores with the same objects below [n]. *)
Definition agree_below (n : loc) (s s' : store) : Prop :=
  forall l, (l < n)%nat -> s' l = s l.

(** A step that only allocates: run on [x] from the list [its], the store
    [s] and the first unused reference [n], it appends the next references
    to the list, makes them the objects [out x s], and leaves the objects
    below [n] as they are. *)
Definition allocates {A : Type} (good : A -> loc -> Prop)
    (out : A -> store -> list CacheItem)
    (F : list loc * store * loc -> A -> list loc * store * loc) : Prop :=
  forall x its s n,
    good x n ->
    exists s',
      F (its, s, n) x
      = (its ++ seq n (length (out x s)), s', (n + length (out x s))%nat)
      /\ agree_below n s s'
      /\ map s' (seq n (length (out x s))) = out x s.

(** [good] survives allocation and [out] reads only what [good] protects. *)
Definition stable {A : Type} (good : A -> loc -> Prop)
    (out : A -> store -> list CacheItem) : Prop :=
  (forall x n m, good x n -> (n <= m)%nat -> good x m)
  /\ (forall x n s s1, good x n -> agree_below n s s1 -> out x s1 = out x s).

(** The object synthesized for one pair of lines of [parent]. *)
Definition synthesized (row : Z) (parent : CacheItem) (pair : pystr * pystr)
    : CacheItem :=
  set_row row (set_dst (strip (snd pair)) (set_src (strip (fst pair)) parent)).

(** [src.count("\n") > 0]. *)
Definition is_multiline (parent : CacheItem) : bool :=
  0 <? PyStr.count 10%N (get_src parent).

(** The source lines and the destination lines of [parent], zipped to the
    longer of the two, the shorter filled with the empty string. *)
Definition line_pairs (parent : CacheItem) : list (pystr * pystr) :=
  zip_longest [] (splitlines (get_src parent)) (splitlines (get_dst parent)).

(** The objects synthesized for [parent]: one per pair of lines when its
    source has a line feed, none otherwise. *)
Definition expansion (row : Z) (parent : CacheItem) : list CacheItem :=
  if is_multiline parent then map (synthesized row parent) (line_pairs parent)
  else [].

Definition kvjson_items (its : list loc) (s : store) : list loc :=
  filter (fun item => is_KVJSON (get_file_type (s item))) its.

(** The size of the group of [parent]: the number of KVJSON items of the
    list with its file path. *)
Definition group_size (its : list loc) (s : store) (parent : loc) : Z :=
  len (filter (fun item => PyStr.eqb (get_file_path (s item))
                             (get_file_path (s parent)))
         (kvjson_items its s)).

End StoreVocabulary.

Definition same_key {A : Type} (key : A -> pystr) (k : pystr) (x : A) : bool :=
  PyStr.eqb (key x) k.

(** The dictionary after the elements [l], grouped by [key]: its keys are
    distinct, each group holds the elements of its key in their order,
    every element has its key in the dictionary, and the groups together
    are [l] reordered. *)
Definition grouped {A : Type} (key : A -> pystr)
    (d : PyDict.dict (list A)) (l : list A) : Prop :=
  NoDup (PyDict.keys d)
  /\ (forall k g, In (k, g) d -> g = filter (same_key key k) l)
  /\ (forall x, In x l -> In (key x) (PyDict.keys d))
  /\ Permutation (concat (PyDict.values d)) l.

Section PlanningVocabularyMore.

Import CacheManager.

(** The item [x] could not join the chunk [c]: a limit would be passed, or
    its file is not the file of the last item of [c]. *)
Definition cannot_extend (line_limit0 token_threshold : Z)
    (c : list CacheItem) (x : CacheItem) : Prop :=
  line_limit0 < total_lines c + non_empty_lines (get_src x)
  \/ token_threshold < total_tokens c + get_token_count x
  \/ exists last, py_last c = Ok last
                  /\ get_file_path x <> get_file_path last.

(** The first item of [c'], if any, could not join [c]. *)
Definition closed_by (line_limit0 token_threshold : Z)
    (c c' : list CacheItem) : Prop :=
  match c' with
  | x :: _ => cannot_extend line_limit0 token_threshold c x
  | [] => True
  end.

(** Every chunk is closed by the chunk that follows it. *)
Definition greedy (line_limit0 token_threshold : Z)
    (cs : list (list CacheItem)) : Prop :=
  forall before c c' after,
    cs = before ++ c :: c' :: after ->
    closed_by line_limit0 token_threshold c c'.

(** What the loop of [generate_item_chunks] keeps besides [Inv]: no flushed
    chunk is empty, the flushed chunks are greedy and the last of them is
    closed by the current chunk, the current chunk is empty only before the
    first UNTRANSLATED item, and until the first flush [skip] counts every
    item skipped so far, while afterwards the first preceding chunk is
    empty. *)
Record Inv2 (line_limit0 token_threshold : Z) (pre : list CacheItem)
    (st : Plan) : Prop := mkInv2 {
  inv_nonempty : Forall (fun c => c <> []) (chunks st);
  inv_greedy : greedy line_limit0 token_threshold (chunks st);
  inv_closed : forall c, py_last (chunks st) = Ok c ->
                         closed_by line_limit0 token_threshold c (chunk st);
  inv_started : chunk st = [] -> chunks st = [];
  inv_first : chunks st = [] ->
              preceding_chunks st = []
              /\ skip st + len (chunk st) = len pre;
  inv_first_done : chunks st <> [] ->
                   exists rest, preceding_chunks st = [] :: rest
}.

End PlanningVocabularyMore.

(** The codes a line can get from [check_lines]. *)
Definition per_line_code (e : ResponseChecker.Error) : Prop :=
  In e [ ResponseChecker.NONE; ResponseChecker.LINE_ERROR_EMPTY_LINE;
         ResponseChecker.LINE_ERROR_DEGRADATION; ResponseChecker.LINE_ERROR_KANA;
         ResponseChecker.LINE_ERROR_HANGEUL; ResponseChecker.LINE_ERROR_SIMILARITY ].

(** The dictionary of the decoder, as the checker receives it: every value
    is a string. *)
Definition decoded (d : PyDict.dict pystr) : PyDict.dict (option pystr) :=
  map (fun kv => (fst kv, Some (snd kv))) d.

Section DecoderVocabulary.

Variable repair_loads : pystr -> json.

(** The translation a line contributes: the value of a dictionary of one
    entry, when it is a string. *)
Definition line_translation (line : pystr) : list pystr :=
  match repair_loads line with
  | JDict [(_, JStr v)] => [v]
  | _ => []
  end.

(** The glossary entry a line contributes: from a dictionary of three
    entries that has one of the keys src, dst and gender. *)
Definition line_glossary (line : pystr) : list (PyDict.dict pystr) :=
  match repair_loads line with
  | JDict json_data =>
      if (length json_data =? 3)%nat
         && existsb (fun v => PyDict.mem v json_data)
              [lit "src"; lit "dst"; lit "gender"]
      then
        [ [ (lit "src", ResponseDecoder.str_or_empty (PyDict.get json_data (lit "src")));
            (lit "dst", ResponseDecoder.str_or_empty (PyDict.get json_data (lit "dst")));
            (lit "info",
             ResponseDecoder.str_or_empty (PyDict.get json_data (lit "gender"))) ] ]
      else []
  | _ => []
  end.

(** The translations of the fallback: the string values of the whole
    response parsed as one dictionary. *)
Definition whole_translations (response : pystr) : list pystr :=
  match repair_loads response with
  | JDict json_data =>
      flat_map (fun kv => match snd kv with JStr v => [v] | _ => [] end) json_data
  | _ => []
  end.

End DecoderVocabulary.


Section FilterVocabulary.

Import Translator.

Variable RuleFilter_filter : pystr -> bool -> bool.
Variable LanguageFilter_filter : pystr -> Language -> bool.

(** The object at [l] satisfies the predicate of the rule filter, or of the
    language filter. *)
Definition rule_matches (s : store) (l : loc) : bool :=
  RuleFilter_filter (get_src (s l)) (get_skip_internal_filter (s l)).

Definition language_matches (config : Config) (s : store) (l : loc) : bool :=
  LanguageFilter_filter (get_src (s l)) (source_language config).

(** The reference [l] is an entry of the list [its]. *)
Definition listed (its : list loc) (l : loc) : bool := existsb (Nat.eqb l) its.

End FilterVocabulary.

Section PreprocessVocabulary.

Import Translator.

(** The source of the object at [l] is one of the stripped non-empty lines
    of [parent], a multi-line KVJSON item of the list with the same file
    path. *)
Definition sub_line_of (its : list loc) (s : store) (l parent : loc) : Prop :=
  In parent its
  /\ is_KVJSON (get_file_type (s parent)) = true
  /\ get_file_path (s parent) = get_file_path (s l)
  /\ is_multiline (s parent) = true
  /\ In (get_src (s l)) (sub_lines (get_src (s parent))).

(** What the pre-processing looks for: with the optimizer on, a KVJSON item
    of the list that repeats a line of a multi-line item of its file. *)
Definition redundant (config : Config) (its : list loc) (s : store) (l : loc)
    : Prop :=
  mtool_optimizer_enable config = true
  /\ In l its
  /\ is_KVJSON (get_file_type (s l)) = true
  /\ exists parent, sub_line_of its s l parent.

(** The group [g] lists [l], and the source at [l] is in the target set of
    the group. *)
Definition marked_in (s : store) (l : loc) (g : list loc) : bool :=
  listed g l && existsb (PyStr.eqb (get_src (s l))) (group_target s g).

End PreprocessVocabulary.

(* ================================================================== *)
(** * Inputs of the worked examples *)

Definition example_item (src file_path : string) (status : TranslationStatus)
    (token_count : Z) : CacheItem :=
  mkCacheItem (lit src) [] status (lit file_path) KVJSON token_count 0 false 0 [].

(** An item of nine non-empty lines and a hundred tokens. *)
Definition long_item : CacheItem :=
  mkCacheItem
    [97; 10; 97; 10; 97; 10; 97; 10; 97; 10; 97; 10; 97; 10; 97; 10; 97]%N
    [] UNTRANSLATED (lit "f1") KVJSON 100 0 false 0 [].

(** An item of 2^49 lines, each the letter [a], and an item of one line. *)
Definition many_lines_item : CacheItem :=
  mkCacheItem (List.concat (py_repeat [97; 10]%N (2 ^ 49))) [] UNTRANSLATED
    (lit "f1") KVJSON 1 0 false 0 [].

Definition one_line_item : CacheItem :=
  mkCacheItem [97]%N [] UNTRANSLATED (lit "f1") KVJSON 1 0 false 0 [].

(** Two items of ten tokens under a budget of ten: the second chunk has the
    first item, which ends a sentence, as its preceding context. *)
Definition planned_items : list CacheItem :=
  [ example_item "Hello." "f1" UNTRANSLATED 10;
    example_item "World" "f1" UNTRANSLATED 10 ].

Definition plain_item : CacheItem := example_item "" "f1" UNTRANSLATED 1.

Definition retried_item : CacheItem :=
  mkCacheItem [] [] UNTRANSLATED (lit "f1") KVJSON 1 2 false 0 [].

Definition konnichiwa : pystr := [12371; 12435; 12395; 12385; 12399]%N.
Definition nihao : pystr := [20320; 22909]%N.

(** A checker whose filters never match, with the collaborators above. *)
Definition example_check_line :=
  ResponseChecker.check_line (lit "<PLACEHOLDER>") (fun _ _ => false)
    (fun _ _ => false) (Degradation.search Degradation.ascii_lower) TextHelper.any_hiragana
    TextHelper.any_katakana TextHelper.any_hangeul
    TextHelper.check_similarity_by_jaccard.

Definition example_check :=
  ResponseChecker.check (lit "<PLACEHOLDER>") (fun _ _ => false)
    (fun _ _ => false) (Degradation.search Degradation.ascii_lower) TextHelper.any_hiragana
    TextHelper.any_katakana TextHelper.any_hangeul
    TextHelper.check_similarity_by_jaccard.

(** A parser that knows three strings, and answers the empty string for any
    other, as the repair parser does for text that holds no JSON. *)
Definition example_loads (s : pystr) : json :=
  if PyStr.eqb s (lit "{0:a}") then JDict [(lit "0", JStr (lit "a"))]
  else if PyStr.eqb s (lit "{0:b}") then JDict [(lit "0", JStr (lit "b"))]
  else if PyStr.eqb s (lit "{src:x,dst:y,gender:z}") then
    JDict [(lit "src", JStr (lit "x")); (lit "dst", JStr (lit "y"));
           (lit "gender", JStr (lit "z"))]
  else if PyStr.eqb s (lit "{k:a,m:b}") then
    JDict [(lit "k", JStr (lit "a")); (lit "m", JStr (lit "b"))]
  else JStr [].

Definition example_config (mtool : bool) (max_round : Z) : Translator.Config :=
  Translator.mkConfig JA ZH mtool max_round 384 3 (lit "output") false false.

Definition example_state (its : list nat) (heap : Translator.store) (next : nat)
    (extras : PyDict.dict pyval) : Translator.State :=
  Translator.mkState its heap next TRANSLATING extras extras true
    TaskStatus.TRANSLATING None [] [] 0.

Definition example_extras : PyDict.dict pyval :=
  [ (lit "start_time", VFloat 100%float); (lit "total_line", VInt 10);
    (lit "line", VInt 1); (lit "total_tokens", VInt 5);
    (lit "total_output_tokens", VInt 6); (lit "time", VInt 0) ].

Definition example_result : PyDict.dict pyval :=
  [ (lit "row_count", VInt 2); (lit "input_tokens", VInt 3);
    (lit "output_tokens", VInt 4) ].

(** A KVJSON entry of two source lines and three destination lines, and a
    one-line entry of the same file. *)
Definition example_heap : Translator.store :=
  fun l =>
    match l with
    | O => mkCacheItem (lit "a" ++ [10%N] ++ lit "b")
             (lit "x" ++ [10%N] ++ lit "y" ++ [10%N] ++ lit "z")
             TRANSLATED (lit "f1") KVJSON 2 0 false 7 []
    | _ => mkCacheItem (lit "c") (lit "w") UNTRANSLATED (lit "f1") KVJSON 1 0 false 8 []
    end.

(** Rounds in which no task brings a result: nothing changes. *)
Definition no_progress (current_round : Z) (config : Translator.Config)
    (st : Translator.State) : option exn * Translator.State := (None, st).

(** Rounds that plan their chunks, as line 223 does, and bring no result:
    they raise what the planner raises. *)
Definition plan_only (current_round : Z) (config : Translator.Config)
    (st : Translator.State) : option exn * Translator.State :=
  match CacheManager.generate_item_chunks
          (map (Translator.heap st) (Translator.items st))
          (Translator.token_threshold config)
          (Translator.preceding_lines_threshold config) with
  | Ok _ => (None, st)
  | Raise e => (Some e, st)
  end.

(** A KVJSON entry of two lines, and a one-line entry of the same file
    that repeats its second line. *)
Definition repeated_line_heap : Translator.store :=
  fun l =>
    match l with
    | O => mkCacheItem (lit "a" ++ [10%N] ++ lit "b") (lit "x" ++ [10%N] ++ lit "y")
             UNTRANSLATED (lit "f1") KVJSON 2 0 false 7 []
    | _ => mkCacheItem (lit "b") [] UNTRANSLATED (lit "f1") KVJSON 1 0 false 8 []
    end.

(** The usage a second task reports. *)
Definition second_result : PyDict.dict pyval :=
  [ (lit "row_count", VInt 1); (lit "input_tokens", VInt 7);
    (lit "output_tokens", VInt 2) ].

(** A parser that raises on one of the strings [example_loads] knows. *)
Definition failing_loads (s : pystr) : res json :=
  if PyStr.eqb s (lit "{0:b}") then Raise TypeError else Ok (example_loads s).

(** A configuration whose token threshold is beyond the binary64 range once
    divided by 3, though not once divided by 16. *)
Definition huge_config (max_round : Z) : Translator.Config :=
  Translator.mkConfig JA ZH false max_round (10 ^ 309) 3 (lit "output") false false.

Set Implicit Arguments.

(* ================================================================== *)
(** * Properties *)

(** ** Strings and lists *)

Lemma pystr_eqb_eq (a b : pystr) : PyStr.eqb a b = true <-> a = b.
Proof.
  revert b; induction a as [|x a IH]; intros [|y b]; simpl; split; intro H;
    try reflexivity; try discriminate.
  - apply andb_true_iff in H. destruct H as [Hx Hab].
    apply N.eqb_eq in Hx. apply IH in Hab. congruence.
  - injection H as -> ->. rewrite N.eqb_refl. simpl. now apply IH.
Qed.

Lemma pystr_eqb_neq (a b : pystr) : PyStr.eqb a b = false <-> a <> b.
Proof.
  split; intro H.
  - intro E. apply pystr_eqb_eq in E. congruence.
  - destruct (PyStr.eqb a b) eqn:E; [|reflexivity].
    apply pystr_eqb_eq in E. contradiction.
Qed.

Lemma status_eqb_eq (a b : TranslationStatus) : status_eqb a b = true <-> a = b.
Proof. destruct a, b; simpl; split; intro H; congruence. Qed.

Lemma py_last_snoc {A : Type} (xs : list A) (x : A) : py_last (xs ++ [x]) = Ok x.
Proof. unfold py_last. now rewrite rev_app_distr. Qed.

Lemma py_last_nonempty {A : Type} (xs : list A) :
  xs <> [] -> exists x, py_last xs = Ok x /\ In x xs.
Proof.
  intro H. destruct (exists_last H) as [ys [y ->]].
  exists y. split; [apply py_last_snoc | apply in_or_app; right; now left].
Qed.

Lemma len_app {A : Type} (xs ys : list A) : len (xs ++ ys) = len xs + len ys.
Proof. unfold len. rewrite length_app. lia. Qed.

Lemma len_nonneg {A : Type} (xs : list A) : 0 <= len xs.
Proof. unfold len. lia. Qed.

Lemma len_zero_nil {A : Type} (xs : list A) : len xs = 0 <-> xs = [].
Proof.
  unfold len. destruct xs; simpl; split; intro H; try reflexivity;
    try discriminate; lia.
Qed.

Lemma Subseq_nil_l {A : Type} (l : list A) : Subseq [] l.
Proof. induction l; constructor; assumption. Qed.

Lemma Subseq_refl {A : Type} (l : list A) : Subseq l l.
Proof. induction l; constructor; assumption. Qed.

Lemma Subseq_app {A : Type} (a b c d : list A) :
  Subseq a b -> Subseq c d -> Subseq (a ++ c) (b ++ d).
Proof. intros Hab Hcd. induction Hab; simpl; try constructor; assumption. Qed.

Lemma Subseq_prefix {A : Type} (a pre post : list A) :
  Subseq a pre -> Subseq a (pre ++ post).
Proof.
  intro H. rewrite <- (app_nil_r a). apply Subseq_app; [assumption|].
  apply Subseq_nil_l.
Qed.

Lemma firstn_succ_nth {A : Type} (l : list A) (i : nat) (x : A) :
  nth_error l i = Some x -> firstn (S i) l = firstn i l ++ [x].
Proof.
  revert i; induction l as [|y l IH]; intros [|i] H; simpl in *; try discriminate.
  - now injection H as ->.
  - f_equal. now apply IH.
Qed.

(** ** True division *)

Unset Implicit Arguments.

Lemma round_half_even_cases (num den : Z) :
  0 < den ->
  round_half_even num den = num / den
  \/ (round_half_even num den = num / den + 1 /\ den <= 2 * (num mod den)).
Proof.
  intro Hd. unfold round_half_even.
  destruct (2 * (num mod den) <? den) eqn:E1; [now left|].
  apply Z.ltb_ge in E1.
  destruct (den <? 2 * (num mod den)); [right; now split|].
  destruct (Z.even (num / den)); [now left|right; now split].
Qed.

(** Rounding a quotient scaled by [2^s] and dropping the [s] bits again
    gives the integer quotient, when the divisor is below [2^(s+1)]. *)
Lemma round_then_truncate (n d s : Z) :
  0 <= n -> 0 < d -> 0 <= s -> d < 2 ^ (s + 1) ->
  round_half_even (n * 2 ^ s) d / 2 ^ s = n / d.
Proof.
  intros Hn Hd Hs Hsmall.
  assert (HP : 0 < 2 ^ s) by (apply Z.pow_pos_nonneg; lia).
  replace (s + 1) with (Z.succ s) in Hsmall by lia.
  rewrite Z.pow_succ_r in Hsmall by exact Hs.
  set (P := 2 ^ s) in *.
  pose proof (Z.div_mod (n * P) d ltac:(lia)) as Hq.
  pose proof (Z.mod_pos_bound (n * P) d Hd) as Hr.
  pose proof (Z.div_mod n d ltac:(lia)) as Hj.
  pose proof (Z.mod_pos_bound n d Hd) as Ht.
  set (q := n * P / d) in *. set (r := (n * P) mod d) in *.
  set (j := n / d) in *. set (t := n mod d) in *.
  assert (Hlow : j * P <= q) by nia.
  assert (Hhigh : q < (j + 1) * P) by nia.
  symmetry. apply Z.div_unique with (r := round_half_even (n * P) d - j * P).
  - left. destruct (round_half_even_cases (n * P) d Hd) as [E|[E Hup]];
      fold q r in E; rewrite E.
    + lia.
    + fold r in Hup. split; [lia|]. nia.
  - lia.
Qed.

Lemma binary64_exponent_small (n d : Z) :
  0 < n < 2 ^ 53 -> 0 < d < 2 ^ 53 ->
  let e := binary64_exponent n d in
  e <= 0 /\ d < 2 ^ (- e + 1).
Proof.
  intros Hn Hd. unfold binary64_exponent.
  assert (Hln : 0 <= Z.log2 n <= 52).
  { split; [apply Z.log2_nonneg|]. apply Z.lt_succ_r, Z.log2_lt_pow2; lia. }
  assert (Hld : 0 <= Z.log2 d <= 52).
  { split; [apply Z.log2_nonneg|]. apply Z.lt_succ_r, Z.log2_lt_pow2; lia. }
  pose proof (Z.log2_spec d ltac:(lia)) as [_ Hspec].
  set (k := Z.log2 n - Z.log2 d).
  set (lg := if d * 2 ^ Z.max 0 k <=? n * 2 ^ Z.max 0 (- k) then k else k - 1).
  assert (Hlg : k - 1 <= lg <= k) by (subst lg; destruct (_ <=? _); lia).
  cbv zeta. replace (Z.max (lg - 52) (-1074)) with (lg - 52) by lia.
  split; [lia|].
  apply Z.lt_le_trans with (2 ^ Z.succ (Z.log2 d)); [exact Hspec|].
  apply Z.pow_le_mono_r; lia.
Qed.

(** Below 2^53 the rounding is not seen: [int(a / b)] is the integer
    quotient, truncated toward zero. *)
Lemma truediv_small (a : Z) (b : positive) :
  Z.abs a < 2 ^ 53 -> Z.pos b < 2 ^ 53 ->
  exists x, truediv a b = Ok x /\ int_of_float x = a ÷ Z.pos b.
Proof.
  intros Ha Hb. unfold truediv.
  destruct (Z.abs a =? 0) eqn:E0.
  - apply Z.eqb_eq in E0. assert (a = 0) by lia. subst a.
    eexists. split; [reflexivity|]. reflexivity.
  - apply Z.eqb_neq in E0.
    destruct (binary64_exponent_small (Z.abs a) (Z.pos b) ltac:(lia) ltac:(lia))
      as [He Hd].
    set (e := binary64_exponent (Z.abs a) (Z.pos b)) in *.
    replace (Z.max 0 e) with 0 by lia. replace (Z.max 0 (- e)) with (- e) by lia.
    rewrite Z.pow_0_r, !Z.mul_1_r.
    set (s := - e) in *.
    assert (HP : 0 < 2 ^ s) by (apply Z.pow_pos_nonneg; lia).
    pose proof (round_then_truncate (Z.abs a) (Z.pos b) s ltac:(lia) ltac:(lia)
                  ltac:(lia) Hd) as Hround.
    set (m := round_half_even (Z.abs a * 2 ^ s) (Z.pos b)) in *.
    assert (Hm : 0 <= m <= Z.abs a * 2 ^ s + 1).
    { destruct (round_half_even_cases (Z.abs a * 2 ^ s) (Z.pos b) ltac:(lia))
        as [E|[E _]]; fold m in E; rewrite E;
        pose proof (Z.div_pos (Z.abs a * 2 ^ s) (Z.pos b) ltac:(nia) ltac:(lia));
        pose proof (Z.div_le_upper_bound (Z.abs a * 2 ^ s) (Z.pos b)
                      (Z.abs a * 2 ^ s) ltac:(lia) ltac:(nia)); lia. }
    assert (Hfin : (2 ^ 1024 * 2 ^ s <=? m) = false).
    { apply Z.leb_gt. assert (2 ^ 53 < 2 ^ 1024) by (apply Z.pow_lt_mono_r; lia).
      nia. }
    rewrite Hfin. eexists. split; [reflexivity|].
    unfold int_of_float. cbn [significand exponent]. fold s.
    replace (Z.max 0 e) with 0 by lia. replace (Z.max 0 s) with s by lia.
    rewrite ?Z.pow_0_r, ?Z.mul_1_r.
    destruct a as [|p|p]; [now contradiction E0| |]; cbn [Z.sgn Z.abs] in *.
    + rewrite Z.mul_1_l, !Z.quot_div_nonneg by lia. exact Hround.
    + replace (-1 * m) with (- m) by lia. change (Z.neg p) with (- Z.pos p).
      rewrite !Z.quot_opp_l, !Z.quot_div_nonneg by lia. now rewrite Hround.
Qed.

Lemma truediv_raises (a : Z) (b : positive) (e : exn) :
  truediv a b = Raise e -> e = OverflowError.
Proof.
  unfold truediv. destruct (_ <=? _); intro H; [|discriminate H].
  now injection H as <-.
Qed.

Set Implicit Arguments.

(** Line 161 below 2^53: the limit of the spec. *)
Lemma line_limit_small (token_threshold : Z) :
  Z.abs token_threshold < 2 ^ 53 ->
  CacheManager.line_limit token_threshold = Ok (Z.max 8 (token_threshold / 16)).
Proof.
  intro H. unfold CacheManager.line_limit.
  destruct (truediv_small token_threshold 16 H ltac:(reflexivity)) as [x [E Hx]].
  rewrite E. cbn [bind]. rewrite Hx. f_equal.
  Z.to_euclidean_division_equations. lia.
Qed.

(** Line 161 raises nothing but [OverflowError], and only from 2^53 on;
    [generate_item_chunks] then raises it too. *)
Lemma line_limit_raises (token_threshold : Z) (e : exn) :
  CacheManager.line_limit token_threshold = Raise e ->
  e = OverflowError
  /\ 2 ^ 53 <= Z.abs token_threshold
  /\ forall items preceding_lines_threshold,
       CacheManager.generate_item_chunks items token_threshold
         preceding_lines_threshold = Raise OverflowError.
Proof.
  intro H.
  assert (He : e = OverflowError).
  { unfold CacheManager.line_limit in H.
    destruct (truediv token_threshold 16) as [x|e'] eqn:E; cbn [bind] in H;
      [discriminate H|]. injection H as <-. exact (truediv_raises _ _ _ E). }
  subst e. split; [reflexivity|]. split.
  - destruct (Z.lt_ge_cases (Z.abs token_threshold) (2 ^ 53)) as [Hs|Hs];
      [|exact Hs].
    rewrite (@line_limit_small _ Hs) in H. discriminate H.
  - intros items thr. unfold CacheManager.generate_item_chunks.
    rewrite H. reflexivity.
Qed.

Lemma generate_item_chunks_ok (token_threshold line_limit0 : Z) :
  CacheManager.line_limit token_threshold = Ok line_limit0 ->
  forall items preceding_lines_threshold,
    CacheManager.generate_item_chunks items token_threshold
      preceding_lines_threshold
    = CacheManager.generate_item_chunks_with items line_limit0 token_threshold
        preceding_lines_threshold.
Proof.
  intros H items thr. unfold CacheManager.generate_item_chunks.
  rewrite H. reflexivity.
Qed.

(** ** Chunk planning *)

Section ChunkPlanning.

Import CacheManager.

Lemma total_lines_snoc (c : list CacheItem) (item : CacheItem) :
  total_lines (c ++ [item]) = total_lines c + non_empty_lines (get_src item).
Proof.
  unfold total_lines. induction c as [|x c IH]; simpl in *; [lia|].
  rewrite IH. lia.
Qed.

Lemma total_tokens_snoc (c : list CacheItem) (item : CacheItem) :
  total_tokens (c ++ [item]) = total_tokens c + get_token_count item.
Proof.
  unfold total_tokens. induction c as [|x c IH]; simpl in *; [lia|].
  rewrite IH. lia.
Qed.

(** The backward walk never fails inside the list, adds only admissible
    items, at most up to the threshold, and collects them in reverse
    reading order. *)
Lemma preceding_loop_spec (items c : list CacheItem) (thr : Z) (last : CacheItem) :
  py_last c = Ok last -> same_file c -> In last c ->
  forall (k : nat) (result : list CacheItem),
    (k <= length items)%nat ->
    exists extra,
      preceding_loop items c thr k result = Ok (result ++ extra)
      /\ len (result ++ extra) <= Z.max (len result) thr
      /\ Forall (preceding_item_ok c) extra
      /\ Subseq (rev extra) (firstn k items).
Proof.
  intros Hlast Hsame Hin. induction k as [|i IH]; intros result Hk.
  - exists []. simpl. rewrite app_nil_r. repeat split; try constructor. lia.
  - assert (Hi : (i <= length items)%nat) by lia.
    destruct (nth_error items i) as [item|] eqn:Hnth.
    2:{ apply nth_error_None in Hnth. lia. }
    assert (Hskip : forall r, (exists extra,
              preceding_loop items c thr i r = Ok (r ++ extra)
              /\ len (r ++ extra) <= Z.max (len r) thr
              /\ Forall (preceding_item_ok c) extra
              /\ Subseq (rev extra) (firstn i items)) ->
            exists extra,
              preceding_loop items c thr i r = Ok (r ++ extra)
              /\ len (r ++ extra) <= Z.max (len r) thr
              /\ Forall (preceding_item_ok c) extra
              /\ Subseq (rev extra) (firstn (S i) items)).
    { intros r [extra (H1 & H2 & H3 & H4)]. exists extra. repeat split; auto.
      rewrite (firstn_succ_nth _ _ Hnth). now apply Subseq_prefix. }
    assert (Hstop : exists extra,
              Ok result = Ok (result ++ extra)
              /\ len (result ++ extra) <= Z.max (len result) thr
              /\ Forall (preceding_item_ok c) extra
              /\ Subseq (rev extra) (firstn (S i) items)).
    { exists []. rewrite app_nil_r. repeat split; try constructor; try lia.
      apply Subseq_nil_l. }
    cbn [preceding_loop]. unfold py_index. rewrite Hnth. cbn [bind].
    destruct (status_eqb (get_status item) EXCLUDED) eqn:Hst.
    { apply Hskip, IH, Hi. }
    destruct (PyStr.eqb (strip (get_src item)) []) eqn:Hsrc.
    { apply Hskip, IH, Hi. }
    destruct (thr <=? len result) eqn:Hthr; [exact Hstop|].
    rewrite Hlast. cbn [bind].
    destruct (PyStr.eqb (get_file_path item) (get_file_path last)) eqn:Hfp;
      cbn [negb]; [|exact Hstop].
    destruct (endswith_any END_LINE_PUNCTUATION (strip (get_src item))) eqn:Hend;
      [|exact Hstop].
    destruct (IH (result ++ [item]) Hi) as [extra (H1 & H2 & H3 & H4)].
    exists (item :: extra). apply Z.leb_gt in Hthr.
    rewrite <- app_assoc in H1, H2. cbn [app] in H1, H2.
    split; [exact H1|]. split.
    { unfold len in *. rewrite !length_app in *. cbn [length] in *. lia. }
    split.
    { constructor; [|exact H3]. unfold preceding_item_ok. repeat split.
      - intro E. rewrite E in Hst. discriminate.
      - now apply pystr_eqb_neq.
      - intros x Hx. apply pystr_eqb_eq in Hfp. rewrite Hfp. now apply Hsame.
      - exact Hend. }
    cbn [rev]. rewrite (firstn_succ_nth _ _ Hnth).
    apply Subseq_app; [exact H4|apply Subseq_refl].
Qed.

Lemma generate_preceding_chunks_spec (items c : list CacheItem)
    (start skip thr : Z) :
  c <> [] -> same_file c -> 0 <= skip -> start <= len items ->
  exists pc,
    generate_preceding_chunks items c start skip thr = Ok pc
    /\ preceding_ok items thr c pc.
Proof.
  intros Hne Hsame Hskip Hstart.
  destruct (py_last_nonempty Hne) as [last [Hlast Hin]].
  assert (Hk : (Z.to_nat (start - skip - len c - 1 + 1) <= length items)%nat).
  { pose proof (len_nonneg c). unfold len in *. lia. }
  destruct (preceding_loop_spec items thr Hlast Hsame Hin [] Hk)
    as [extra (H1 & H2 & H3 & H4)].
  simpl in H1, H2. exists (rev extra).
  unfold generate_preceding_chunks. rewrite H1. simpl. split; [reflexivity|].
  unfold preceding_ok. repeat split.
  - unfold len in *. rewrite length_rev. simpl in H2. exact H2.
  - rewrite <- (firstn_skipn (Z.to_nat (start - skip - len c - 1 + 1)) items).
    now apply Subseq_prefix.
  - apply Forall_rev. exact H3.
Qed.

Lemma untranslated_snoc (pre : list CacheItem) (item : CacheItem) :
  untranslated (pre ++ [item]) =
  untranslated pre ++
  (if status_eqb (get_status item) UNTRANSLATED then [item] else []).
Proof. unfold untranslated. rewrite filter_app. reflexivity. Qed.

Lemma same_file_snoc (c : list CacheItem) (item last : CacheItem) :
  same_file c -> In last c -> get_file_path item = get_file_path last ->
  same_file (c ++ [item]).
Proof.
  intros Hs Hl He a b Ha Hb.
  apply in_app_or in Ha. apply in_app_or in Hb.
  destruct Ha as [Ha|[<-|[]]]; destruct Hb as [Hb|[<-|[]]]; auto.
  - rewrite He. now apply Hs.
  - rewrite He. now apply Hs.
Qed.

Lemma chunk_is_full_spec (st : Plan) (item : CacheItem) (ll tt cl ct : Z) :
  chunk st <> [] ->
  exists full,
    chunk_is_full st item ll tt cl ct = Ok full
    /\ (full = false ->
        line_length st + cl <= ll
        /\ token_length st + ct <= tt
        /\ exists last, In last (chunk st)
                        /\ get_file_path item = get_file_path last).
Proof.
  intro Hne. destruct (py_last_nonempty Hne) as [last [Hlast Hin]].
  unfold chunk_is_full.
  destruct (ll <? line_length st + cl) eqn:H1.
  { exists true. split; [reflexivity|discriminate]. }
  destruct (tt <? token_length st + ct) eqn:H2.
  { exists true. split; [reflexivity|discriminate]. }
  rewrite Hlast. cbn [bind]. eexists. split; [reflexivity|].
  intro Hf. apply negb_false_iff, pystr_eqb_eq in Hf.
  apply Z.ltb_ge in H1. apply Z.ltb_ge in H2. eauto.
Qed.

Lemma chunk_step_inv (items : list CacheItem) (ll tt thr : Z)
    (pre : list CacheItem) (item : CacheItem) (st : Plan) :
  len pre <= len items ->
  Inv items ll tt thr pre st ->
  exists st',
    chunk_step items ll tt thr (len pre) item st = Ok st'
    /\ Inv items ll tt thr (pre ++ [item]) st'.
Proof.
  intros Hpre [Hcat Hskip Hl Ht Hbs Hb Hf Hfs Hp]. unfold chunk_step.
  destruct (status_eqb (get_status item) UNTRANSLATED) eqn:Hst; cbn [negb].
  2:{ eexists. split; [reflexivity|].
      constructor; cbn [chunks chunk skip line_length token_length preceding_chunks];
        auto; try lia.
      rewrite untranslated_snoc, Hst, app_nil_r. exact Hcat. }
  destruct (len (chunk st) =? 0) eqn:Hlen.
  { apply Z.eqb_eq, len_zero_nil in Hlen. cbn [bind]. eexists.
    split; [reflexivity|]. rewrite Hlen in *.
    constructor; cbn [chunks chunk skip line_length token_length preceding_chunks];
      auto.
    - rewrite untranslated_snoc, Hst, <- Hcat, <- app_assoc. reflexivity.
    - rewrite Hl. rewrite total_lines_snoc. reflexivity.
    - rewrite Ht. rewrite total_tokens_snoc. reflexivity.
    - intro H. unfold len in H. simpl in H. lia.
    - intros a b [<-|[]] [<-|[]]. reflexivity. }
  apply Z.eqb_neq in Hlen.
  assert (Hne : chunk st <> []).
  { intro E. apply Hlen. now apply len_zero_nil. }
  destruct (chunk_is_full_spec st item ll tt (non_empty_lines (get_src item))
              (get_token_count item) Hne) as [full [Hfull Hnot]].
  rewrite Hfull. cbn [bind]. destruct full.
  - destruct (@generate_preceding_chunks_spec items (chunk st) (len pre) (skip st)
                thr Hne Hf Hskip Hpre)
      as [pc [Hpc Hok]].
    rewrite Hpc. cbn [bind]. eexists. split; [reflexivity|].
    constructor; cbn [chunks chunk skip line_length token_length preceding_chunks];
      try lia.
    + rewrite untranslated_snoc, Hst, <- Hcat, concat_app. simpl.
      now rewrite app_nil_r.
    + unfold total_lines. simpl. lia.
    + unfold total_tokens. simpl. lia.
    + apply Forall_app. split; [exact Hbs|]. constructor; [exact Hb|constructor].
    + intro H. unfold len in H. simpl in H. lia.
    + intros a b [<-|[]] [<-|[]]. reflexivity.
    + apply Forall_app. split; [exact Hfs|]. constructor; [exact Hf|constructor].
    + apply Forall2_app; [exact Hp|]. constructor; [exact Hok|constructor].
  - destruct (Hnot eq_refl) as (H1 & H2 & last & Hin & Hfp).
    eexists. split; [reflexivity|].
    constructor; cbn [chunks chunk skip line_length token_length preceding_chunks];
      auto.
    + rewrite untranslated_snoc, Hst, <- Hcat. now rewrite app_assoc.
    + rewrite total_lines_snoc. lia.
    + rewrite total_tokens_snoc. lia.
    + intros _. rewrite total_lines_snoc, total_tokens_snoc. lia.
    + eapply same_file_snoc; eauto.
Qed.

Lemma chunk_loop_inv (items : list CacheItem) (ll tt thr : Z) :
  forall (rest pre : list CacheItem) (st : Plan),
    items = pre ++ rest ->
    Inv items ll tt thr pre st ->
    exists st',
      chunk_loop items ll tt thr (len pre) rest st = Ok st'
      /\ Inv items ll tt thr items st'.
Proof.
  induction rest as [|item rest IH]; intros pre st Hitems Hinv.
  - rewrite app_nil_r in Hitems. subst pre. exists st. split; [reflexivity|exact Hinv].
  - assert (Hle : len pre <= len items).
    { rewrite Hitems, len_app. pose proof (len_nonneg (item :: rest)). lia. }
    destruct (chunk_step_inv item Hle Hinv) as [st1 [Hstep Hinv1]].
    cbn [chunk_loop]. rewrite Hstep. cbn [bind].
    replace (len pre + 1) with (len (pre ++ [item]))
      by (rewrite len_app; reflexivity).
    apply IH; [|exact Hinv1]. rewrite <- app_assoc. exact Hitems.
Qed.

(** [generate_item_chunks] returns, and what it returns. *)
Lemma generate_item_chunks_spec (items : list CacheItem) (ll tt thr : Z) :
  exists cs pcs,
    generate_item_chunks_with items ll tt thr = Ok (cs, pcs)
    /\ concat cs = untranslated items
    /\ Forall (within_bounds ll tt) cs
    /\ Forall same_file cs
    /\ Forall2 (preceding_ok items thr) cs pcs.
Proof.
  assert (H0 : Inv items ll tt thr [] (mkPlan 0 0 0 [] [] [])).
  { constructor; simpl; auto; try lia; try reflexivity.
    - intro H. unfold len in H. simpl in H. lia.
    - intros a b []. }
  destruct (@chunk_loop_inv items ll tt thr items [] _ eq_refl H0)
    as [st [Hloop Hinv]].
  unfold generate_item_chunks_with. change (len (@nil CacheItem)) with 0 in Hloop.
  rewrite Hloop. cbn [bind].
  destruct Hinv as [Hcat Hskip Hl Ht Hbs Hb Hf Hfs Hp].
  destruct (0 <? len (chunk st)) eqn:Hlen.
  - apply Z.ltb_lt in Hlen.
    assert (Hne : chunk st <> []).
    { intro E. rewrite E in Hlen. unfold len in Hlen. simpl in Hlen. lia. }
    destruct (@generate_preceding_chunks_spec items (chunk st) (len items)
                (skip st) thr Hne Hf Hskip (Z.le_refl (len items))) as [pc [Hpc Hok]].
    rewrite Hpc. cbn [bind]. do 2 eexists. split; [reflexivity|].
    repeat split.
    + rewrite concat_app. simpl. rewrite app_nil_r. exact Hcat.
    + apply Forall_app. split; [exact Hbs|]. constructor; [exact Hb|constructor].
    + apply Forall_app. split; [exact Hfs|]. constructor; [exact Hf|constructor].
    + apply Forall2_app; [exact Hp|]. constructor; [exact Hok|constructor].
  - apply Z.ltb_ge in Hlen. pose proof (len_nonneg (chunk st)).
    assert (E : chunk st = []) by (apply len_zero_nil; lia).
    do 2 eexists. split; [reflexivity|]. rewrite E, app_nil_r in Hcat.
    repeat split; assumption.
Qed.

End ChunkPlanning.

Lemma startswith_spec (p s : pystr) :
  startswith p s = true <-> exists t, s = p ++ t.
Proof.
  revert s; induction p as [|x p IH]; intros s; simpl.
  - split; [intros _; now exists s | reflexivity].
  - destruct s as [|y s]; split; intro H; try discriminate.
    + destruct H as [t Ht]. discriminate.
    + apply andb_true_iff in H. destruct H as [Hx Hp].
      apply N.eqb_eq in Hx. apply IH in Hp. destruct Hp as [t ->].
      exists t. now subst.
    + destruct H as [t Ht]. injection Ht as -> ->.
      rewrite N.eqb_refl. simpl. apply IH. now exists t.
Qed.

Lemma endswith_spec (suf s : pystr) :
  endswith suf s = true <-> exists body, s = body ++ suf.
Proof.
  unfold endswith. rewrite startswith_spec. split; intros [t Ht].
  - exists (rev t). apply (f_equal (@rev _)) in Ht.
    rewrite rev_involutive, rev_app_distr, rev_involutive in Ht. exact Ht.
  - exists (rev t). subst s. now rewrite rev_app_distr.
Qed.

Lemma endswith_any_spec (sufs : list pystr) (s : pystr) :
  endswith_any sufs s = true <->
  exists suf body, In suf sufs /\ s = body ++ suf.
Proof.
  unfold endswith_any. rewrite existsb_exists. split.
  - intros [suf [Hin H]]. apply endswith_spec in H. destruct H as [body ->].
    now exists suf, body.
  - intros [suf [body [Hin ->]]]. exists suf. split; [exact Hin|].
    apply endswith_spec. now exists body.
Qed.

Lemma Forall2_nth_error_pair {A B : Type} (R : A -> B -> Prop)
    (l1 : list A) (l2 : list B) :
  Forall2 R l1 l2 ->
  forall k a b, nth_error l1 k = Some a -> nth_error l2 k = Some b -> R a b.
Proof.
  induction 1 as [|x y l1 l2 Hxy _ IH]; intros [|k] a b Ha Hb; simpl in *;
    try discriminate.
  - now injection Ha as <-; injection Hb as <-.
  - eapply IH; eassumption.
Qed.

(** The line count of a text of [n] lines. *)
Lemma non_empty_lines_repeat (n : nat) :
  CacheManager.non_empty_lines (List.concat (repeat [97; 10]%N n)) = Z.of_nat n.
Proof.
  unfold CacheManager.non_empty_lines, splitlines.
  induction n as [|n IH]; [reflexivity|].
  cbn [repeat List.concat app].
  set (rest := List.concat (repeat [97; 10]%N n)) in *.
  change (splitlines_from [] (97 :: 10 :: rest)%N)
    with ([97]%N :: splitlines_from [] rest).
  set (lines := splitlines_from [] rest) in *.
  set (f := fun line : pystr => negb (PyStr.eqb (strip line) [])) in *.
  change (filter f ([97]%N :: lines)) with ([97]%N :: filter f lines).
  unfold len in *. cbn [Datatypes.length]. rewrite !Nat2Z.inj_succ, IH.
  reflexivity.
Qed.

(** Two UNTRANSLATED items of one file that fit the limits together make
    one chunk, whatever their size. *)
Lemma generate_item_chunks_with_pair (a b : CacheItem) (ll tt p : Z) :
  get_status a = UNTRANSLATED -> get_status b = UNTRANSLATED ->
  get_file_path b = get_file_path a ->
  CacheManager.non_empty_lines (get_src a)
    + CacheManager.non_empty_lines (get_src b) <= ll ->
  get_token_count a + get_token_count b <= tt ->
  CacheManager.generate_item_chunks_with [a; b] ll tt p = Ok ([[a; b]], [[]]).
Proof.
  intros Ha Hb Hf Hl Ht.
  unfold CacheManager.generate_item_chunks_with.
  cbn [CacheManager.chunk_loop].
  unfold CacheManager.chunk_step at 1. rewrite Ha.
  cbn [status_eqb negb CacheManager.chunk len Datatypes.length Z.of_nat Z.eqb
       bind CacheManager.skip CacheManager.line_length
       CacheManager.token_length CacheManager.chunks
       CacheManager.preceding_chunks app Z.add].
  unfold CacheManager.chunk_step. rewrite Hb.
  cbn [status_eqb negb CacheManager.chunk len Datatypes.length Z.of_nat
       Pos.of_succ_nat Z.eqb bind CacheManager.skip CacheManager.line_length
       CacheManager.token_length CacheManager.chunks
       CacheManager.preceding_chunks app].
  unfold CacheManager.chunk_is_full.
  cbn [CacheManager.chunk CacheManager.line_length CacheManager.token_length].
  destruct (Z.ltb_spec ll (CacheManager.non_empty_lines (get_src a)
                            + CacheManager.non_empty_lines (get_src b)));
    [lia|].
  destruct (Z.ltb_spec tt (get_token_count a + get_token_count b)); [lia|].
  cbn [py_last rev app bind]. rewrite Hf.
  assert (E : PyStr.eqb (get_file_path a) (get_file_path a) = true)
    by now apply pystr_eqb_eq.
  rewrite E.
  cbn [negb bind CacheManager.skip CacheManager.line_length
       CacheManager.token_length CacheManager.chunk CacheManager.chunks
       CacheManager.preceding_chunks app Datatypes.length Z.of_nat
       Pos.of_succ_nat Pos.succ Z.ltb Z.compare].
  reflexivity.
Qed.

(** ** Chunk planning: the stated properties *)

(** C2 (chunk totality).  For every item list and every pair of thresholds:
    when line 161 returns, [generate_item_chunks] returns, and the
    concatenation of the chunks it returns is exactly the subsequence of the
    items whose status is UNTRANSLATED, in the original order; line 161
    raises nothing but [OverflowError], only for a token threshold of 2^53
    or more in absolute value, and [generate_item_chunks] then raises it
    too and returns no chunk. *)
Theorem generate_item_chunks_totality
    (items : list CacheItem) (token_threshold preceding_lines_threshold : Z) :
  match CacheManager.line_limit token_threshold with
  | Ok _ =>
      exists chunks preceding_chunks,
        CacheManager.generate_item_chunks items token_threshold
          preceding_lines_threshold = Ok (chunks, preceding_chunks)
        /\ concat chunks =
           filter (fun item => status_eqb (get_status item) UNTRANSLATED) items
  | Raise e =>
      e = OverflowError
      /\ 2 ^ 53 <= Z.abs token_threshold
      /\ CacheManager.generate_item_chunks items token_threshold
           preceding_lines_threshold = Raise OverflowError
  end.
Proof.
  destruct (CacheManager.line_limit token_threshold) as [ll|e] eqn:E.
  - destruct (generate_item_chunks_spec items ll token_threshold
                preceding_lines_threshold) as (cs & pcs & Hrun & Hcat & _).
    exists cs, pcs. rewrite (@generate_item_chunks_ok _ _ E). split; [exact Hrun | exact Hcat].
  - destruct (@line_limit_raises _ _ E) as (He & Hbig & Hraise). auto.
Qed.

(** C3 (chunk bounds).  With [line_limit] the value of line 161, which is
    [max(8, floor(token_threshold / 16))] for every token threshold below
    2^53 in absolute value, every returned chunk of more than one item has
    a cumulative non-empty-line count of at most [line_limit] and a
    cumulative token count of at most [token_threshold]; and a chunk of
    exactly one item can exceed both bounds.  (From 2^53 on the quotient of
    line 161 is rounded to binary64, or raises [OverflowError].) *)
Theorem generate_item_chunks_bounds :
  (forall (items : list CacheItem) (token_threshold preceding_lines_threshold : Z),
     match CacheManager.line_limit token_threshold with
     | Ok line_limit0 =>
         (Z.abs token_threshold < 2 ^ 53 ->
          line_limit0 = Z.max 8 (token_threshold / 16))
         /\ exists chunks preceding_chunks,
              CacheManager.generate_item_chunks items token_threshold
                preceding_lines_threshold = Ok (chunks, preceding_chunks)
              /\ forall c, In c chunks -> 1 < len c ->
                   total_lines c <= line_limit0
                   /\ total_tokens c <= token_threshold
     | Raise e =>
         e = OverflowError
         /\ 2 ^ 53 <= Z.abs token_threshold
         /\ CacheManager.generate_item_chunks items token_threshold
              preceding_lines_threshold = Raise OverflowError
     end)
  /\ (exists (items : list CacheItem) (token_threshold preceding_lines_threshold : Z)
        (c : list CacheItem),
        CacheManager.generate_item_chunks items token_threshold
          preceding_lines_threshold = Ok ([c], [[]])
        /\ len c = 1
        /\ Z.max 8 (token_threshold / 16) < total_lines c
        /\ token_threshold < total_tokens c).
Proof.
  split.
  - intros items tt thr.
    destruct (CacheManager.line_limit tt) as [ll|e] eqn:E.
    + split.
      { intro Hs. rewrite (@line_limit_small _ Hs) in E. now injection E as <-. }
      destruct (generate_item_chunks_spec items ll tt thr)
        as (cs & pcs & Hrun & _ & Hb & _).
      exists cs, pcs. rewrite (@generate_item_chunks_ok _ _ E). split; [exact Hrun|].
      intros c Hin Hlen. rewrite Forall_forall in Hb. exact (Hb c Hin Hlen).
    + destruct (@line_limit_raises _ _ E) as (He & Hbig & Hraise). auto.
  - exists [long_item], 10, 3, [long_item]. repeat split.
Qed.

(** C4 (preceding alignment).  When line 161 returns,
    [generate_item_chunks] returns as many preceding chunks as chunks; each
    preceding chunk has at most [max(0, preceding_lines_threshold)] items,
    in the order of the item list; and each of its items is not EXCLUDED,
    has a non-empty stripped source, has the file path of every item of the
    corresponding chunk, and has a stripped source that ends with one of the
    marks of [END_LINE_PUNCTUATION]. *)
Theorem generate_item_chunks_preceding
    (items : list CacheItem) (token_threshold preceding_lines_threshold : Z) :
  match CacheManager.line_limit token_threshold with
  | Ok _ =>
      exists chunks preceding_chunks,
        CacheManager.generate_item_chunks items token_threshold
          preceding_lines_threshold = Ok (chunks, preceding_chunks)
        /\ length preceding_chunks = length chunks
        /\ forall k c pc,
             nth_error chunks k = Some c ->
             nth_error preceding_chunks k = Some pc ->
             len pc <= Z.max 0 preceding_lines_threshold
             /\ Subseq pc items
             /\ forall item, In item pc ->
                  get_status item <> EXCLUDED
                  /\ strip (get_src item) <> []
                  /\ (forall x, In x c -> get_file_path item = get_file_path x)
                  /\ exists mark body,
                       In mark [ [46]; [12290]; [63]; [65311]; [33]; [65281];
                                 [8230]; [39]; [34]; [8217]; [8221]; [12301];
                                 [12303] ]%N
                       /\ strip (get_src item) = body ++ mark
  | Raise e =>
      e = OverflowError
      /\ 2 ^ 53 <= Z.abs token_threshold
      /\ CacheManager.generate_item_chunks items token_threshold
           preceding_lines_threshold = Raise OverflowError
  end.
Proof.
  destruct (CacheManager.line_limit token_threshold) as [ll|e] eqn:E.
  2:{ destruct (@line_limit_raises _ _ E) as (He & Hbig & Hraise). auto. }
  destruct (generate_item_chunks_spec items ll token_threshold
              preceding_lines_threshold) as (cs & pcs & Hrun & _ & _ & _ & Hp).
  exists cs, pcs. rewrite (@generate_item_chunks_ok _ _ E). split; [exact Hrun|]. split.
  { symmetry. eapply Forall2_length. exact Hp. }
  intros k c pc Hc Hpc.
  destruct (Forall2_nth_error_pair Hp k Hc Hpc) as (Hlen & Hsub & Hall).
  split; [exact Hlen|]. split; [exact Hsub|].
  intros item Hin. rewrite Forall_forall in Hall.
  destruct (Hall item Hin) as (H1 & H2 & H3 & H4).
  repeat split; try assumption.
  apply endswith_any_spec in H4. exact H4.
Qed.

(** ** Translator: the filters *)

Section FilterFrame.

Import Translator.

Lemma same_but_status_refl (a : CacheItem) : same_but_status a a.
Proof. unfold same_but_status. repeat split. Qed.

Lemma same_but_status_set (v : TranslationStatus) (a : CacheItem) :
  same_but_status (set_status v a) a.
Proof. unfold same_but_status. repeat split. Qed.

Lemma set_status_twice (v : TranslationStatus) (a : CacheItem) :
  set_status v (set_status v a) = set_status v a.
Proof. reflexivity. Qed.

Lemma existsb_eqb_In (l : loc) (ls : list loc) :
  existsb (Nat.eqb l) ls = true <-> In l ls.
Proof.
  rewrite existsb_exists. split.
  - intros [x [Hin Hx]]. apply Nat.eqb_eq in Hx. now subst.
  - intro H. exists l. split; [exact H | apply Nat.eqb_refl].
Qed.

(** Marking a list of references: the marked objects get the status
    EXCLUDED, every other object is the same object as before. *)
Lemma exclude_all_spec (target : list loc) :
  forall (s : store) (l : loc),
    exclude_all target s l =
    if existsb (Nat.eqb l) target then set_status EXCLUDED (s l) else s l.
Proof.
  unfold exclude_all.
  induction target as [|t ts IH]; intros s l; [reflexivity|].
  cbn [fold_left existsb]. rewrite IH. unfold update.
  destruct (Nat.eqb l t) eqn:Hlt; cbn [orb].
  - apply Nat.eqb_eq in Hlt. subst t.
    destruct (existsb (Nat.eqb l) ts); reflexivity.
  - reflexivity.
Qed.

Lemma marked_by_filter (p : loc -> bool) (its : list loc) (l : loc) :
  existsb (Nat.eqb l) (filter p its) = existsb (Nat.eqb l) its && p l.
Proof.
  induction its as [|x its IH]; [reflexivity|]. cbn [filter existsb].
  destruct (p x) eqn:Hpx; cbn [existsb]; rewrite IH;
    destruct (Nat.eqb l x) eqn:Hlx; cbn [orb andb]; try reflexivity.
  - apply Nat.eqb_eq in Hlx. subst x. now rewrite Hpx.
  - apply Nat.eqb_eq in Hlx. subst x. rewrite Hpx.
    now rewrite andb_false_r.
Qed.

(** What a filter pass does to the object at [l], for a predicate [p] on
    the objects as they were. *)
Lemma filter_pass_spec (p : loc -> bool) (its : list loc) (s : store) (l : loc) :
  exclude_all (filter p its) s l =
  if existsb (Nat.eqb l) its && p l then set_status EXCLUDED (s l) else s l.
Proof. rewrite exclude_all_spec, marked_by_filter. reflexivity. Qed.

End FilterFrame.

(** C10 (frame of the filters).  [rule_filter] and [language_filter] set
    the status of every listed item whose source satisfies the filter
    predicate to EXCLUDED, whatever its status was (TRANSLATED included);
    of any object they change no attribute other than the status; and an
    object whose source does not satisfy the predicate is the same
    afterwards. *)
Theorem filters_exclude_and_frame
    (RuleFilter_filter : pystr -> bool -> bool)
    (LanguageFilter_filter : pystr -> Language -> bool)
    (config : Translator.Config) (its : list Translator.loc)
    (s : Translator.store) (l : Translator.loc) :
  let s1 := fst (Translator.rule_filter RuleFilter_filter its s) in
  let s2 := fst (Translator.language_filter LanguageFilter_filter config its s) in
  let rule := RuleFilter_filter (get_src (s l)) (get_skip_internal_filter (s l)) in
  let language :=
    LanguageFilter_filter (get_src (s l)) (Translator.source_language config) in
  (In l its -> rule = true -> get_status (s1 l) = EXCLUDED)
  /\ (rule = false -> s1 l = s l)
  /\ same_but_status (s1 l) (s l)
  /\ (In l its -> language = true -> get_status (s2 l) = EXCLUDED)
  /\ (language = false -> s2 l = s l)
  /\ same_but_status (s2 l) (s l).
Proof.
  intros s1 s2 rule language.
  assert (H1 : s1 l = if existsb (Nat.eqb l) its && rule
                      then set_status EXCLUDED (s l) else s l).
  { subst s1. unfold Translator.rule_filter.
    destruct (len its =? 0) eqn:Hlen; cbn [fst].
    - apply Z.eqb_eq, len_zero_nil in Hlen. subst its. reflexivity.
    - apply (filter_pass_spec
               (fun v => RuleFilter_filter (get_src (s v))
                           (get_skip_internal_filter (s v)))). }
  assert (H2 : s2 l = if existsb (Nat.eqb l) its && language
                      then set_status EXCLUDED (s l) else s l).
  { subst s2. unfold Translator.language_filter.
    destruct (len its =? 0) eqn:Hlen; cbn [fst].
    - apply Z.eqb_eq, len_zero_nil in Hlen. subst its. reflexivity.
    - apply (filter_pass_spec
               (fun v => LanguageFilter_filter (get_src (s v))
                           (Translator.source_language config))). }
  assert (Hframe : forall b : bool,
            same_but_status (if b then set_status EXCLUDED (s l) else s l) (s l)).
  { intros []; [apply same_but_status_set | apply same_but_status_refl]. }
  rewrite H1, H2. split; [|split; [|split; [|split; [|split]]]].
  - intros Hin Hr. apply existsb_eqb_In in Hin. now rewrite Hin, Hr.
  - intros Hr. rewrite Hr, andb_false_r. reflexivity.
  - apply Hframe.
  - intros Hin Hr. apply existsb_eqb_In in Hin. now rewrite Hin, Hr.
  - intros Hr. rewrite Hr, andb_false_r. reflexivity.
  - apply Hframe.
Qed.

(** ** Translator: the completion callback *)

Lemma get_default_some {V : Type} (d : PyDict.dict V) (k : pystr) (v default : V) :
  PyDict.get d k = Some v -> PyDict.get_default d k default = v.
Proof. intro H. unfold PyDict.get_default. now rewrite H. Qed.

(** C9 (extras monotonicity).  One call of [task_done_callback] whose future
    yields a non-empty dictionary with non-negative integers [row_count],
    [input_tokens] and [output_tokens], on [extras] whose three counters are
    integers (or absent, read as 0) and whose [start_time] is a float as
    [translation_start_target] leaves it, increases [line] by exactly
    [row_count], [total_tokens] by exactly [input_tokens + output_tokens] and
    [total_output_tokens] by exactly [output_tokens], so none of them
    decreases, and leaves [start_time] and [total_line] as they were. *)
Theorem task_done_callback_extras
    (config : Translator.Config) (now : float)
    (result : PyDict.dict pyval) (st : Translator.State)
    (row_count input_tokens output_tokens : Z)
    (line total_tokens total_output_tokens : Z) (start_time : float) :
  result <> [] ->
  PyDict.get result (lit "row_count") = Some (VInt row_count) ->
  PyDict.get result (lit "input_tokens") = Some (VInt input_tokens) ->
  PyDict.get result (lit "output_tokens") = Some (VInt output_tokens) ->
  0 <= row_count -> 0 <= input_tokens -> 0 <= output_tokens ->
  PyDict.get_default (Translator.extras st) (lit "line") (VInt 0) = VInt line ->
  PyDict.get_default (Translator.extras st) (lit "total_tokens") (VInt 0)
    = VInt total_tokens ->
  PyDict.get_default (Translator.extras st) (lit "total_output_tokens") (VInt 0)
    = VInt total_output_tokens ->
  PyDict.get (Translator.extras st) (lit "start_time") = Some (VFloat start_time) ->
  let st' :=
    Translator.task_done_callback config now (Translator.FutureDict result) st in
  PyDict.get (Translator.extras st') (lit "line") = Some (VInt (line + row_count))
  /\ line <= line + row_count
  /\ PyDict.get (Translator.extras st') (lit "total_tokens")
     = Some (VInt (total_tokens + input_tokens + output_tokens))
  /\ total_tokens <= total_tokens + input_tokens + output_tokens
  /\ PyDict.get (Translator.extras st') (lit "total_output_tokens")
     = Some (VInt (total_output_tokens + output_tokens))
  /\ total_output_tokens <= total_output_tokens + output_tokens
  /\ PyDict.get (Translator.extras st') (lit "start_time")
     = PyDict.get (Translator.extras st) (lit "start_time")
  /\ PyDict.get_default (Translator.extras st') (lit "total_line") (VInt 0)
     = PyDict.get_default (Translator.extras st) (lit "total_line") (VInt 0).
Proof.
  intros Hne Hr Hi Ho Hr0 Hi0 Ho0 Hline Htok Hout Hstart st'.
  assert (Hlen : (len result =? 0) = false).
  { apply Z.eqb_neq. intro E. apply Hne. now apply len_zero_nil. }
  subst st'. unfold Translator.task_done_callback, Translator.new_extras.
  rewrite Hlen, Hline, Htok, Hout.
  rewrite !(@get_default_some _ _ _ _ (VInt 0) Hr),
    !(@get_default_some _ _ _ _ (VInt 0) Hi),
    !(@get_default_some _ _ _ _ (VInt 0) Ho),
    !(@get_default_some _ _ _ _ (VInt 0) Hstart).
  cbn [py_add py_sub bind Translator.extras].
  repeat split; try lia; rewrite ?Hstart; reflexivity.
Qed.

(** ** ResponseChecker *)

Section CheckerProperties.

Import ResponseChecker.

Variable PLACEHOLDER : pystr.
Variable RuleFilter_filter : pystr -> bool -> bool.
Variable LanguageFilter_filter : pystr -> Language -> bool.
Variable RE_DEGRADATION_search : pystr -> bool.
Variable any_hiragana any_katakana any_hangeul : pystr -> bool.
Variable check_similarity_by_jaccard : pystr -> pystr -> float.

Local Abbreviation reaches_similarity_rule' :=
  (reaches_similarity_rule PLACEHOLDER RuleFilter_filter LanguageFilter_filter
     RE_DEGRADATION_search any_hiragana any_katakana any_hangeul).

Local Abbreviation similarity_gate' :=
  (similarity_gate any_hiragana any_katakana any_hangeul).

Local Abbreviation check_line' :=
  (check_line PLACEHOLDER RuleFilter_filter LanguageFilter_filter
     RE_DEGRADATION_search any_hiragana any_katakana any_hangeul
     check_similarity_by_jaccard).

(** [0.80 == True] is false, so the similarity score never counts. *)
Lemma chain_comparison_false (x : float) :
  PrimFloat.ltb 0.80 x && float_eq_bool 0.80 true = false.
Proof.
  replace (float_eq_bool 0.80 true) with false by reflexivity.
  apply andb_false_r.
Qed.

Lemma contained_or_similar_spec (src dst : pystr) :
  contained_or_similar check_similarity_by_jaccard src dst
  = contains src dst || contains dst src.
Proof.
  unfold contained_or_similar. rewrite chain_comparison_false.
  apply orb_false_r.
Qed.

(** What the code answers for a line that reaches the rule. *)
Lemma check_line_similarity_rule (self : Checker) (src0 dst0 : pystr)
    (item : CacheItem) (source_language0 : Language) :
  reaches_similarity_rule' (strip src0) (strip dst0) item source_language0 ->
  check_line' self src0 (Some dst0) item source_language0 =
  Ok (if (contains (strip src0) (strip dst0) || contains (strip dst0) (strip src0))
         && similarity_gate' self (strip dst0)
      then LINE_ERROR_SIMILARITY else NONE).
Proof.
  intros (Hs & Hd & Hp & Hr & Hl & Hg & Hk & Hh).
  unfold check_line, strip_value. cbn [bind].
  apply pystr_eqb_neq in Hd. rewrite Hd, andb_false_r.
  rewrite Hp, Hr, Hl, Hg, Hk, Hh, contained_or_similar_spec.
  unfold similarity_gate.
  destruct (contains (strip src0) (strip dst0) || contains (strip dst0) (strip src0));
    cbn [andb]; [|reflexivity].
  destruct (is_JA (source_language self) && is_ZH (target_language self)).
  { destruct (any_hiragana (strip dst0) || any_katakana (strip dst0)); reflexivity. }
  destruct (is_KO (source_language self) && is_ZH (target_language self)).
  { destruct (any_hangeul (strip dst0)); reflexivity. }
  reflexivity.
Qed.

(** C1 (containment or similarity), where the code departs from it.  For a
    line that reaches the rule, whose stripped source and destination do not
    contain one another, the code answers NONE even when their Jaccard
    similarity exceeds 0.80 and no language gate applies: the chain
    [x > 0.80 == True] compares 0.80 with [True]. *)
Theorem check_line_ignores_similarity (self : Checker) (src0 dst0 : pystr)
    (item : CacheItem) (source_language0 : Language) :
  reaches_similarity_rule' (strip src0) (strip dst0) item source_language0 ->
  contains (strip src0) (strip dst0) = false ->
  contains (strip dst0) (strip src0) = false ->
  PrimFloat.ltb 0.80 (check_similarity_by_jaccard (strip src0) (strip dst0)) = true ->
  similarity_gate' self (strip dst0) = true ->
  check_line' self src0 (Some dst0) item source_language0 = Ok NONE.
Proof.
  intros Hreach H1 H2 _ _.
  rewrite (@check_line_similarity_rule self src0 dst0 item source_language0 Hreach),
    H1, H2. reflexivity.
Qed.

Local Abbreviation check' :=
  (check PLACEHOLDER RuleFilter_filter LanguageFilter_filter
     RE_DEGRADATION_search any_hiragana any_katakana any_hangeul
     check_similarity_by_jaccard).

Local Abbreviation check_lines' :=
  (check_lines PLACEHOLDER RuleFilter_filter LanguageFilter_filter
     RE_DEGRADATION_search any_hiragana any_katakana any_hangeul
     check_similarity_by_jaccard).

Lemma forallb_empty_or_none (vs : list (option pystr)) :
  forallb empty_or_none vs = true <->
  Forall (fun v => v = Some [] \/ v = None) vs.
Proof.
  rewrite forallb_forall, Forall_forall. split; intros H v Hin.
  - specialize (H v Hin). destruct v as [s|]; [left|now right].
    simpl in H. apply pystr_eqb_eq in H. now subst.
  - destruct (H v Hin) as [->| ->]; reflexivity.
Qed.

Lemma single_item_retried_spec (self : Checker) :
  exists b, single_item_retried self = Ok b
            /\ (b = true <->
                exists item, items self = [item] /\ 2 <= get_retry_count item).
Proof.
  unfold single_item_retried, RETRY_COUNT_THRESHOLD.
  destruct (items self) as [|item [|item' rest]] eqn:Hitems.
  - exists false. split; [reflexivity|]. split; [discriminate|].
    intros [x [Hx _]]. discriminate.
  - eexists. split; [reflexivity|]. rewrite Z.leb_le. split.
    + intro H. now exists item.
    + intros [x [Hx Hr]]. now injection Hx as ->.
  - exists false. split.
    + replace (len (item :: item' :: rest) =? 1) with false; [reflexivity|].
      symmetry. apply Z.eqb_neq. unfold len. simpl. lia.
    + split; [discriminate|]. intros [x [Hx _]]. discriminate.
Qed.

(** C5 (order of the batch rules).  [check] answers FAIL_DATA for every
    source line when [dst_dict] is empty or holds only empty strings and
    nulls; otherwise NONE for every source line when the checker holds
    exactly one item and its retry count is at least 2, whatever [dst_dict]
    holds; otherwise FAIL_LINE_COUNT for every source line when the two
    dictionaries differ in length; and only otherwise does it evaluate the
    per-line checks, of which it returns the codes when one of them is not
    NONE. *)
Theorem check_batch_rules (self : Checker) (src_dict : PyDict.dict pystr)
    (dst_dict : PyDict.dict (option pystr)) (item_dict : PyDict.dict CacheItem)
    (source_language0 : Language) :
  let data_failed :=
    dst_dict = []
    \/ Forall (fun v => v = Some [] \/ v = None) (PyDict.values dst_dict) in
  let retried :=
    exists item, items self = [item] /\ 2 <= get_retry_count item in
  let result := check' self src_dict dst_dict item_dict source_language0 in
  (data_failed -> result = Ok (repeat FAIL_DATA (length src_dict)))
  /\ (~ data_failed -> retried -> result = Ok (repeat NONE (length src_dict)))
  /\ (~ data_failed -> ~ retried -> length src_dict <> length dst_dict ->
      result = Ok (repeat FAIL_LINE_COUNT (length src_dict)))
  /\ (~ data_failed -> ~ retried -> length src_dict = length dst_dict ->
      result =
      (error <- check_lines' self src_dict dst_dict item_dict source_language0 ;;
       if existsb (fun v => negb (is_NONE v)) error then Ok error
       else Ok (repeat NONE (length src_dict)))).
Proof.
  intros data_failed retried result.
  assert (Hrep : forall e : Error,
            py_repeat e (len src_dict) = repeat e (length src_dict)).
  { intro e. unfold py_repeat, len. now rewrite Nat2Z.id. }
  assert (Hdata : (len dst_dict =? 0)
                  || forallb empty_or_none (PyDict.values dst_dict) = true
                  <-> data_failed).
  { unfold data_failed. rewrite orb_true_iff, Z.eqb_eq, len_zero_nil,
      forallb_empty_or_none. reflexivity. }
  destruct (single_item_retried_spec self) as [b [Hb Hretried]].
  fold retried in Hretried.
  subst result. unfold check. rewrite !Hrep.
  destruct ((len dst_dict =? 0)
            || forallb empty_or_none (PyDict.values dst_dict)) eqn:Hd.
  { assert (data_failed) by now apply Hdata.
    repeat split; try reflexivity; intros; contradiction. }
  assert (Hnd : ~ data_failed).
  { intro H. apply Hdata in H. discriminate. }
  rewrite Hb. cbn [bind]. destruct b.
  { assert (retried) by now apply Hretried.
    repeat split; try reflexivity; intros; contradiction. }
  assert (Hnr : ~ retried).
  { intro H. apply Hretried in H. discriminate. }
  destruct (len src_dict =? len dst_dict) eqn:Hlen; cbn [negb].
  - apply Z.eqb_eq in Hlen. unfold len in Hlen. apply Nat2Z.inj in Hlen.
    repeat split; try reflexivity; intros; contradiction.
  - apply Z.eqb_neq in Hlen.
    assert (length src_dict <> length dst_dict).
    { intro E. apply Hlen. unfold len. now rewrite E. }
    repeat split; try reflexivity; intros; contradiction.
Qed.

End CheckerProperties.

(** ** ResponseDecoder *)

Lemma lit_inj (a b : string) : lit a = lit b -> a = b.
Proof.
  unfold lit. intro H.
  rewrite <- (string_of_list_ascii_of_string a),
          <- (string_of_list_ascii_of_string b).
  f_equal. revert H.
  generalize (list_ascii_of_string a) (list_ascii_of_string b).
  induction l as [|x l IH]; intros [|y l'] H; simpl in H; try discriminate;
    [reflexivity|].
  injection H as Hxy Hl. f_equal; [|now apply IH].
  rewrite <- (ascii_N_embedding x), <- (ascii_N_embedding y). now rewrite Hxy.
Qed.

(** The decimal string of a number determines the number. *)
Lemma of_nat_inj (n m : nat) : of_nat n = of_nat m -> n = m.
Proof.
  unfold of_nat. intro H. apply lit_inj in H.
  assert (Hu : Nat.to_uint n = Nat.to_uint m).
  { apply (f_equal NilEmpty.uint_of_string) in H.
    rewrite !NilEmpty.usu in H. now injection H. }
  rewrite <- (DecimalNat.Unsigned.of_to n), <- (DecimalNat.Unsigned.of_to m).
  now rewrite Hu.
Qed.

Section DictFacts.

Variable V : Type.

Lemma set_fresh (d : PyDict.dict V) (k : pystr) (v : V) :
  ~ In k (PyDict.keys d) -> PyDict.set d k v = d ++ [(k, v)].
Proof.
  induction d as [|[k' v'] d IH]; intro H; [reflexivity|].
  cbn [PyDict.set]. simpl in H.
  destruct (PyStr.eqb k' k) eqn:E.
  - apply pystr_eqb_eq in E. exfalso. apply H. now left.
  - cbn [app]. f_equal. apply IH. intro Hin. apply H. now right.
Qed.

Lemma numbered_next_fresh (d : PyDict.dict V) :
  numbered d -> ~ In (of_nat (length d)) (PyDict.keys d).
Proof.
  intros Hn Hin. rewrite Hn in Hin. apply in_map_iff in Hin.
  destruct Hin as [m [Hm Hin]]. apply of_nat_inj in Hm. subst m.
  apply in_seq in Hin. lia.
Qed.

Lemma numbered_set (d : PyDict.dict V) (v : V) :
  numbered d -> numbered (PyDict.set d (of_nat (length d)) v).
Proof.
  intro Hn. rewrite (@set_fresh d (of_nat (length d)) v (numbered_next_fresh Hn)).
  unfold numbered, PyDict.keys in *.
  rewrite map_app, length_app, Hn. cbn [map length fst].
  rewrite Nat.add_1_r, seq_S, map_app. reflexivity.
Qed.

End DictFacts.

Section DecoderProperties.

Import ResponseDecoder.

Variable repair_loads : pystr -> json.




End DecoderProperties.


(** ** Translator: the MTool post-processing *)

Lemma flat_map_ext_In {A B : Type} (f g : A -> list B) (l : list A) :
  (forall a, In a l -> f a = g a) -> flat_map f l = flat_map g l.
Proof.
  induction l as [|x l IH]; intro H; [reflexivity|]. cbn [flat_map].
  rewrite (H x (or_introl eq_refl)), IH; [reflexivity|].
  intros a Ha. apply H. now right.
Qed.

Unset Implicit Arguments.

Section Allocation.

Import Translator.

Lemma agree_below_refl (n : loc) (s : store) : agree_below n s s.
Proof. intros l _. reflexivity. Qed.

Lemma agree_below_trans (n m : loc) (s s1 s2 : store) :
  (n <= m)%nat -> agree_below n s s1 -> agree_below m s1 s2 -> agree_below n s s2.
Proof. intros Hnm H1 H2 l Hl. rewrite H2 by lia. now apply H1. Qed.

Lemma allocates_fold {A : Type} (good : A -> loc -> Prop)
    (out : A -> store -> list CacheItem)
    (F : list loc * store * loc -> A -> list loc * store * loc) :
  allocates good out F -> stable good out ->
  allocates (fun xs n => Forall (fun x => good x n) xs)
    (fun xs s => flat_map (fun x => out x s) xs)
    (fun acc xs => fold_left F xs acc).
Proof.
  intros Halloc [Hmono Hread] xs.
  induction xs as [|x xs IH]; intros its s n Hgood.
  - exists s. cbn [fold_left flat_map length seq map]. rewrite app_nil_r, Nat.add_0_r.
    split; [reflexivity|]. split; [apply agree_below_refl|reflexivity].
  - inversion Hgood as [|? ? Hx Hxs]; subst.
    destruct (Halloc x its s n Hx) as [s1 (E1 & A1 & M1)].
    set (m1 := length (out x s)) in *.
    assert (Hxs1 : Forall (fun y => good y (n + m1)%nat) xs).
    { eapply Forall_impl; [|exact Hxs]. intros y Hy.
      apply (Hmono y n); [exact Hy|lia]. }
    destruct (IH (its ++ seq n m1) s1 (n + m1)%nat Hxs1) as [s2 (E2 & A2 & M2)].
    assert (Hout : flat_map (fun y => out y s1) xs = flat_map (fun y => out y s) xs).
    { apply flat_map_ext_In. intros y Hy. rewrite Forall_forall in Hxs.
      apply (Hread y n); [now apply Hxs|exact A1]. }
    cbv beta in E2, M2. rewrite Hout in E2, M2.
    set (m2 := length (flat_map (fun y => out y s) xs)) in *.
    exists s2. cbn [fold_left flat_map]. rewrite E1, E2, length_app.
    fold m1 m2. rewrite seq_app, <- app_assoc, Nat.add_assoc.
    split; [reflexivity|]. split.
    + apply agree_below_trans with (m := (n + m1)%nat) (s1 := s1);
        [lia|exact A1|exact A2].
    + rewrite map_app, M2. f_equal. rewrite <- M1.
      apply map_ext_in. intros l Hl. apply in_seq in Hl. apply A2. lia.
Qed.

End Allocation.

Section Postprocess.

Import Translator.

Lemma flat_map_singleton {A B : Type} (f : A -> B) (l : list A) :
  flat_map (fun x => [f x]) l = map f l.
Proof. induction l as [|x l IH]; [reflexivity|]. cbn. now rewrite IH. Qed.

Lemma stable_reference {A : Type} (item : loc) (out : A -> CacheItem -> list CacheItem) :
  stable (fun (_ : A) n => (item < n)%nat) (fun x s => out x (s item)).
Proof.
  split.
  - intros _ n m H Hnm. lia.
  - intros x n s s1 H Hs. now rewrite (Hs item H).
Qed.

Lemma stable_self (out : CacheItem -> list CacheItem) :
  stable (fun item n => (item < n)%nat) (fun item s => out (s item)).
Proof.
  split.
  - intros item n m H Hnm. lia.
  - intros item n s s1 H Hs. now rewrite (Hs item H).
Qed.

Lemma append_line_allocates (row : Z) (item : loc) :
  allocates (fun _ n => (item < n)%nat)
    (fun pair s => [synthesized row (s item) pair])
    (append_line row item).
Proof.
  intros pair its s n Hitem. unfold append_line. eexists.
  cbn [length seq]. rewrite Nat.add_1_r. split; [reflexivity|]. split.
  - intros l Hl. unfold update.
    destruct (Nat.eqb l n) eqn:E; [|reflexivity].
    apply Nat.eqb_eq in E. lia.
  - cbn [map]. unfold update. rewrite Nat.eqb_refl. reflexivity.
Qed.

Lemma expand_item_allocates (row : Z) :
  allocates (fun item n => (item < n)%nat)
    (fun item s => expansion row (s item))
    (expand_item row).
Proof.
  intros item its s n Hitem. unfold expand_item, expansion.
  fold (is_multiline (s item)). fold (line_pairs (s item)).
  destruct (is_multiline (s item)).
  - destruct (allocates_fold _ _ _ (append_line_allocates row item)
                (stable_reference item
                   (fun pair parent => [synthesized row parent pair]))
                (line_pairs (s item)) its s n) as [s' (E & A & M)].
    { apply Forall_forall. intros _ _. exact Hitem. }
    cbv beta in E, M. rewrite flat_map_singleton in E, M.
    exists s'. repeat split; assumption.
  - exists s. cbn [length seq map]. rewrite app_nil_r, Nat.add_0_r.
    split; [reflexivity|]. split; [apply agree_below_refl|reflexivity].
Qed.

Lemma stable_references {A : Type} (refs : A -> list loc)
    (out : A -> loc -> CacheItem -> list CacheItem) :
  stable (fun x n => Forall (fun item => (item < n)%nat) (refs x))
    (fun x s => flat_map (fun item => out x item (s item)) (refs x)).
Proof.
  split.
  - intros x n m H Hnm. eapply Forall_impl; [|exact H]. intros; simpl in *; lia.
  - intros x n s s1 H Hs. apply flat_map_ext_In. intros item Hin.
    rewrite Forall_forall in H. now rewrite (Hs item (H item Hin)).
Qed.

(** The loop over the groups: each item of each group is expanded, with
    the size of its group as the row. *)
Lemma expand_groups_allocates :
  allocates
    (fun groups n => Forall (fun g => Forall (fun item => (item < n)%nat) g) groups)
    (fun groups s =>
       flat_map (fun g => flat_map (fun item => expansion (len g) (s item)) g) groups)
    (fun acc groups =>
       fold_left (fun acc g => fold_left (expand_item (len g)) g acc) groups acc).
Proof.
  apply (allocates_fold
           (fun g n => Forall (fun item => (item < n)%nat) g)
           (fun g s => flat_map (fun item => expansion (len g) (s item)) g)).
  - intros g its s n Hg.
    exact (allocates_fold _ _ _ (expand_item_allocates (len g))
             (stable_self (expansion (len g)))
             g its s n Hg).
  - exact (stable_references (fun g => g) (fun g _ parent => expansion (len g) parent)).
Qed.

End Postprocess.

(** Grouping by a key, as [d.setdefault(key, []).append(x)] does it. *)
Section Grouping.

Variable A : Type.
Variable key : A -> pystr.

Lemma setdefault_append_cases (d : PyDict.dict (list A)) (k : pystr) (x : A) :
  (exists d1 g d2,
     d = d1 ++ (k, g) :: d2 /\ ~ In k (PyDict.keys d1)
     /\ PyDict.setdefault_append d k x = d1 ++ (k, g ++ [x]) :: d2)
  \/ (~ In k (PyDict.keys d) /\ PyDict.setdefault_append d k x = d ++ [(k, [x])]).
Proof.
  induction d as [|[k' g'] d IH]; cbn [PyDict.setdefault_append].
  - right. split; [intros []|reflexivity].
  - destruct (PyStr.eqb k' k) eqn:E.
    + apply pystr_eqb_eq in E. subst k'. left. exists [], g', d.
      repeat split. intros [].
    + apply pystr_eqb_neq in E. destruct IH as [(d1 & g & d2 & H1 & H2 & H3)|[H1 H2]].
      * left. exists ((k', g') :: d1), g, d2. subst d. rewrite H3.
        repeat split. intros [H|H]; [now apply E|now apply H2].
      * right. rewrite H2. split; [|reflexivity].
        intros [H|H]; [now apply E|now apply H1].
Qed.

Lemma filter_none (p : A -> bool) (l : list A) :
  (forall x, In x l -> p x = false) -> filter p l = [].
Proof.
  induction l as [|x l IH]; intro H; [reflexivity|]. cbn [filter].
  rewrite (H x (or_introl eq_refl)). apply IH. intros y Hy. apply H. now right.
Qed.

Lemma filter_snoc (p : A -> bool) (l : list A) (x : A) :
  filter p (l ++ [x]) = filter p l ++ (if p x then [x] else []).
Proof. rewrite filter_app. reflexivity. Qed.

Lemma grouped_step (d : PyDict.dict (list A)) (l : list A) (x : A) :
  grouped key d l -> grouped key (PyDict.setdefault_append d (key x) x) (l ++ [x]).
Proof.
  intros (Hnd & Hg & Hk & Hp).
  destruct (setdefault_append_cases d (key x) x)
    as [(d1 & g & d2 & Hd & Hfresh & ->)|[Hfresh ->]].
  - subst d. unfold grouped, PyDict.keys, PyDict.values in *.
    rewrite !map_app in *. cbn [map fst snd] in *.
    repeat split.
    + exact Hnd.
    + intros k' g' Hin. rewrite filter_snoc.
      apply in_app_or in Hin. destruct Hin as [Hin|[Hin|Hin]].
      * assert (Hne : same_key key k' x = false).
        { apply pystr_eqb_neq. intro E. apply Hfresh. rewrite E.
          apply (in_map fst) in Hin. exact Hin. }
        rewrite Hne, app_nil_r. apply Hg. apply in_or_app. now left.
      * injection Hin as <- <-. unfold same_key at 2. rewrite (proj2 (pystr_eqb_eq _ _) eq_refl).
        f_equal. apply Hg. apply in_or_app. right. now left.
      * assert (Hne : same_key key k' x = false).
        { apply pystr_eqb_neq. intro E. apply NoDup_remove_2 in Hnd.
          apply Hnd. apply in_or_app. right. rewrite E.
          apply (in_map fst) in Hin. exact Hin. }
        rewrite Hne, app_nil_r. apply Hg. apply in_or_app. right. now right.
    + intros y Hy. apply in_app_or in Hy. destruct Hy as [Hy|[<-|[]]].
      * now apply Hk.
      * apply in_or_app. right. now left.
    + rewrite concat_app in *. cbn [concat] in *.
      rewrite <- !app_assoc. rewrite app_assoc.
      apply Permutation_trans
        with ((concat (map snd d1) ++ g ++ concat (map snd d2)) ++ [x]).
      * rewrite <- !app_assoc. apply Permutation_app_head, Permutation_app_head.
        apply Permutation_app_comm.
      * now apply Permutation_app_tail.
  - unfold grouped, PyDict.keys, PyDict.values in *. rewrite !map_app.
    cbn [map fst snd]. repeat split.
    + apply (Permutation_NoDup (Permutation_cons_append _ _)).
      constructor; assumption.
    + intros k' g' Hin. rewrite filter_snoc.
      apply in_app_or in Hin. destruct Hin as [Hin|[Hin|[]]].
      * assert (Hne : same_key key k' x = false).
        { apply pystr_eqb_neq. intro E. apply Hfresh. rewrite E.
          apply (in_map fst) in Hin. exact Hin. }
        rewrite Hne, app_nil_r. now apply Hg.
      * injection Hin as <- <-. unfold same_key at 2.
        rewrite (proj2 (pystr_eqb_eq _ _) eq_refl).
        rewrite filter_none; [reflexivity|].
        intros y Hy. apply pystr_eqb_neq. intro E. apply Hfresh.
        rewrite <- E. now apply Hk.
    + intros y Hy. apply in_or_app. apply in_app_or in Hy.
      destruct Hy as [Hy|[<-|[]]]; [left; now apply Hk|right; now left].
    + rewrite concat_app. cbn [concat]. rewrite app_nil_r.
      now apply Permutation_app_tail.
Qed.

Lemma grouped_fold (l : list A) :
  forall (d : PyDict.dict (list A)) (l0 : list A),
    grouped key d l0 ->
    grouped key (fold_left (fun d x => PyDict.setdefault_append d (key x) x) l d)
      (l0 ++ l).
Proof.
  induction l as [|x l IH]; intros d l0 H.
  - now rewrite app_nil_r.
  - cbn [fold_left]. replace (l0 ++ x :: l) with ((l0 ++ [x]) ++ l)
      by now rewrite <- app_assoc.
    apply IH. now apply grouped_step.
Qed.

Lemma grouped_nil : grouped key [] [].
Proof.
  repeat split; try constructor.
  - intros k g [].
  - intros x [].
Qed.

End Grouping.

Section PostprocessGroups.

Import Translator.

Lemma groups_spec (its : list loc) (s : store) :
  let groups := PyDict.values (group_by_file_path (kvjson_items its s) s) in
  Permutation (concat groups) (kvjson_items its s)
  /\ forall g item, In g groups -> In item g -> len g = group_size its s item.
Proof.
  intro groups.
  pose proof (grouped_fold loc (fun item => get_file_path (s item))
                (kvjson_items its s) [] [] (grouped_nil _ _))
    as (_ & Hg & _ & Hp).
  cbn [app] in Hg, Hp. fold (group_by_file_path (kvjson_items its s) s) in Hg, Hp.
  split; [exact Hp|].
  intros g item Hin Hitem. subst groups. unfold PyDict.values in Hin.
  apply in_map_iff in Hin. destruct Hin as [[k g'] [E Hin]]. cbn [snd] in E.
  subst g'. pose proof (Hg k g Hin) as Hfilter.
  assert (Hk : get_file_path (s item) = k).
  { rewrite Hfilter in Hitem. apply filter_In in Hitem.
    destruct Hitem as [_ Hitem]. now apply pystr_eqb_eq in Hitem. }
  unfold group_size. rewrite Hk. rewrite Hfilter at 1. reflexivity.
Qed.

Lemma flat_map_concat {A B : Type} (h : A -> list B) (ls : list (list A)) :
  flat_map h (concat ls) = flat_map (flat_map h) ls.
Proof.
  induction ls as [|l ls IH]; [reflexivity|].
  cbn [concat flat_map]. now rewrite flat_map_app, IH.
Qed.

Lemma flat_map_filter_if {A B : Type} (p q : A -> bool) (e : A -> list B)
    (l : list A) :
  flat_map (fun x => if q x then e x else []) (filter p l)
  = flat_map e (filter (fun x => p x && q x) l).
Proof.
  induction l as [|x l IH]; [reflexivity|]. cbn [filter].
  destruct (p x); cbn [andb flat_map]; [|exact IH].
  destruct (q x); cbn [flat_map app]; now rewrite IH.
Qed.

End PostprocessGroups.

(** What the post-processing does when it runs: it appends fresh
    references, the expansions of the KVJSON items (by group, so in an order
    of its own), and leaves the objects that existed before as they are. *)
Lemma mtool_optimizer_postprocess_spec
    (config : Translator.Config) (its : list Translator.loc)
    (s : Translator.store) (n : Translator.loc) :
  Translator.mtool_optimizer_enable config = true ->
  its <> [] ->
  Forall (fun item => (item < n)%nat) its ->
  exists new s',
    Translator.mtool_optimizer_postprocess config its s n
    = (its ++ new, s', (n + length new)%nat)
    /\ new = seq n (length new)
    /\ agree_below n s s'
    /\ Permutation (map s' new)
         (flat_map (fun parent => expansion (group_size its s parent) (s parent))
            (kvjson_items its s)).
Proof.
  intros Henable Hne Hfresh.
  unfold Translator.mtool_optimizer_postprocess.
  assert (Hlen : (len its =? 0) = false).
  { apply Z.eqb_neq. intro E. apply Hne. now apply len_zero_nil. }
  rewrite Hlen, Henable. cbn [negb orb].
  fold (kvjson_items its s).
  destruct (groups_spec its s) as [Hperm Hsize].
  set (groups := PyDict.values
                   (Translator.group_by_file_path (kvjson_items its s) s)) in *.
  assert (Hgood : Forall (fun g => Forall (fun item => (item < n)%nat) g) groups).
  { apply Forall_forall. intros g Hg. apply Forall_forall. intros item Hitem.
    rewrite Forall_forall in Hfresh. apply Hfresh.
    assert (Hin : In item (kvjson_items its s)).
    { apply (Permutation_in _ Hperm). apply in_concat. now exists g. }
    apply filter_In in Hin. tauto. }
  destruct (expand_groups_allocates groups its s n Hgood) as [s' (E & A & M)].
  cbv beta in E, M.
  set (out := flat_map
                (fun g => flat_map (fun item => expansion (len g) (s item)) g)
                groups) in *.
  exists (seq n (length out)), s'. rewrite length_seq.
  split; [exact E|]. split; [reflexivity|]. split; [exact A|].
  rewrite M. subst out.
  rewrite (flat_map_ext_In _
             (flat_map (fun item => expansion (group_size its s item) (s item)))).
  2:{ intros g Hg. apply flat_map_ext_In. intros item Hitem.
      now rewrite (Hsize g item Hg Hitem). }
  rewrite <- flat_map_concat.
  now rewrite (Permutation_flat_map _ Hperm).
Qed.

(** C8 (the MTool post-processing).  With the optimizer enabled and a
    non-empty item list, [mtool_optimizer_postprocess] appends to the list,
    for every KVJSON item whose source has a line feed, exactly one new
    object per pair of the zip-longest of its source lines and destination
    lines (the shorter side filled with the empty string); the new object
    is the parent with the stripped source line, the stripped destination
    line and, as row, the size of the parent's file-path group; and every
    object that existed before is unchanged. *)
Theorem mtool_optimizer_postprocess_appends
    (config : Translator.Config) (its : list Translator.loc)
    (s : Translator.store) (n : Translator.loc) :
  Translator.mtool_optimizer_enable config = true ->
  its <> [] ->
  Forall (fun item => (item < n)%nat) its ->
  exists new s',
    Translator.mtool_optimizer_postprocess config its s n
    = (its ++ new, s', (n + length new)%nat)
    /\ new = seq n (length new)
    /\ (forall l, (l < n)%nat -> s' l = s l)
    /\ Permutation (map s' new)
         (flat_map
            (fun parent =>
               map (fun pair =>
                      set_row (group_size its s parent)
                        (set_dst (strip (snd pair))
                           (set_src (strip (fst pair)) (s parent))))
                 (zip_longest [] (splitlines (get_src (s parent)))
                    (splitlines (get_dst (s parent)))))
            (filter
               (fun item => is_KVJSON (get_file_type (s item))
                            && (0 <? PyStr.count 10%N (get_src (s item))))
               its)).
Proof.
  intros Henable Hne Hfresh.
  destruct (mtool_optimizer_postprocess_spec config its s n Henable Hne Hfresh)
    as (new & s' & E & Hnew & Hagree & Hperm).
  exists new, s'. split; [exact E|]. split; [exact Hnew|]. split; [exact Hagree|].
  rewrite Hperm. unfold kvjson_items, expansion.
  rewrite (flat_map_filter_if
             (fun item => is_KVJSON (get_file_type (s item)))
             (fun item => is_multiline (s item))
             (fun item => map (synthesized (group_size its s item) (s item))
                            (line_pairs (s item)))).
  reflexivity.
Qed.

(** ** Translator: the end of a run *)

Section Finalize.

Import Translator.

Lemma count_zero_iff (its : list loc) (s : store) (status : TranslationStatus) :
  get_item_count_by_status its s status = 0
  <-> Forall (fun item => get_status (s item) <> status) its.
Proof.
  unfold get_item_count_by_status, CacheManager.get_item_count_by_status.
  rewrite len_zero_nil. induction its as [|x its IH]; cbn [map filter].
  - split; [constructor|reflexivity].
  - destruct (status_eqb (get_status (s x)) status) eqn:E.
    + split; [discriminate|]. intro H. inversion H as [|? ? Hx _]; subst.
      apply status_eqb_eq in E. contradiction.
    + rewrite IH. split; intro H.
      * constructor; [|exact H]. intro Hx. apply status_eqb_eq in Hx. congruence.
      * now inversion H.
Qed.

(** The post-processing neither removes nor adds an UNTRANSLATED item
    where there was none: a new object has the status of its parent. *)
Lemma postprocess_keeps_remaining (config : Config) (its : list loc)
    (s : store) (n : loc) :
  Forall (fun item => (item < n)%nat) its ->
  let '(its', s', _) := mtool_optimizer_postprocess config its s n in
  get_item_count_by_status its' s' UNTRANSLATED = 0
  <-> get_item_count_by_status its s UNTRANSLATED = 0.
Proof.
  intro Hfresh.
  destruct ((len its =? 0) || negb (mtool_optimizer_enable config)) eqn:Hoff.
  { unfold mtool_optimizer_postprocess. rewrite Hoff. reflexivity. }
  apply orb_false_iff in Hoff. destruct Hoff as [Hlen Hen].
  apply negb_false_iff in Hen. apply Z.eqb_neq in Hlen.
  assert (Hne : its <> []).
  { intro E. apply Hlen. now apply len_zero_nil. }
  destruct (mtool_optimizer_postprocess_spec config its s n Hen Hne Hfresh)
    as (new & s' & -> & _ & Hagree & Hperm).
  rewrite !count_zero_iff, Forall_app. rewrite Forall_forall in Hfresh.
  assert (Hold : Forall (fun item => get_status (s' item) <> UNTRANSLATED) its
                 <-> Forall (fun item => get_status (s item) <> UNTRANSLATED) its).
  { rewrite !Forall_forall. split; intros H x Hx.
    - rewrite <- (Hagree x (Hfresh x Hx)). now apply H.
    - rewrite (Hagree x (Hfresh x Hx)). now apply H. }
  rewrite Hold. split; [tauto|]. intro H. split; [exact H|].
  apply Forall_forall. intros x Hx.
  assert (Hin : In (s' x) (map s' new)) by now apply in_map.
  apply (Permutation_in _ Hperm), in_flat_map in Hin.
  destruct Hin as [parent [Hparent Hin]]. apply filter_In in Hparent.
  unfold expansion in Hin. destruct (is_multiline (s parent)); [|destruct Hin].
  apply in_map_iff in Hin. destruct Hin as [pair [<- _]].
  cbn [get_status synthesized set_row set_dst set_src].
  rewrite Forall_forall in H. apply H. tauto.
Qed.

Section Run.

Variable run_tasks : Z -> Config -> State -> option exn * State.

(** The loop is left as [Exhausted] only with UNTRANSLATED items left. *)
Lemma rounds_exhausted (status : TranslationStatus) (remaining : list Z) :
  forall (config config1 : Config) (st st1 : State),
    rounds run_tasks status remaining config st = (Exhausted, config1, st1) ->
    0 < get_item_count_by_status (items st1) (heap st1) UNTRANSLATED.
Proof.
  induction remaining as [|r rest IH]; intros config config1 st st1 H;
    cbn [rounds] in H; [discriminate|].
  destruct (TaskStatus.eqb (WORK_STATUS st) TaskStatus.STOPPING); [discriminate|].
  destruct (get_item_count_by_status (items st) (heap st) UNTRANSLATED =? 0);
    [discriminate|].
  destruct ((0 <? get_item_count_by_status (items st) (heap st) UNTRANSLATED)
            && (r =? max_round config)) eqn:E.
  - injection H as _ <-. apply andb_true_iff in E. now apply Z.ltb_lt.
  - destruct (if 0 <? r then shrink_token_threshold config else Ok config)
      as [config2|e]; [|discriminate H].
    destruct (run_tasks r config2 _) as [[e|] st2]; [discriminate H|].
    eapply IH. exact H.
Qed.

End Run.

End Finalize.

(** C7 (the project status at the end).  When the round loop is left
    without a stop and without an exception, what remains of
    [translation_start_target] is the finalization of the state the loop
    left; over an item list whose
    references are allocated, it sets the project status to TRANSLATED when
    no item is UNTRANSLATED and leaves the project status as it is
    otherwise; so after the round limit is exhausted, with UNTRANSLATED
    items remaining, the status is not TRANSLATED unless it was (TRANSLATING
    stays TRANSLATING) and the items are still written out. *)
Theorem finalize_project_status
    (run_tasks : Z -> Translator.Config -> Translator.State
                 -> option exn * Translator.State)
    (status : TranslationStatus)
    (config config1 : Translator.Config) (st st1 : Translator.State)
    (exit : Translator.Exit) :
  Translator.rounds run_tasks status
    (Translator.range (Translator.max_round config + 1)) config st
  = (exit, config1, st1) ->
  exit <> Translator.Returned ->
  (forall e, exit <> Translator.Raised e) ->
  Forall (fun item => (item < Translator.next st1)%nat) (Translator.items st1) ->
  let final := Translator.translation_start_target run_tasks status config st in
  let remaining :=
    Translator.get_item_count_by_status (Translator.items st1)
      (Translator.heap st1) UNTRANSLATED in
  final = Translator.finalize config1 st1
  /\ (Translator.get_item_count_by_status (Translator.items final)
        (Translator.heap final) UNTRANSLATED = 0 <-> remaining = 0)
  /\ (remaining = 0 -> Translator.project_status final = TRANSLATED)
  /\ (remaining <> 0 ->
      Translator.project_status final = Translator.project_status st1)
  /\ (exit = Translator.Exhausted ->
      0 < remaining
      /\ Translator.project_status final = Translator.project_status st1
      /\ (Translator.project_status st1 = TRANSLATING ->
          Translator.project_status final = TRANSLATING)
      /\ Translator.written final
         = Translator.written st1
           ++ [map (Translator.heap final) (Translator.items final)]).
Proof.
  intros Hrounds Hexit Hraised Hfresh final remaining.
  assert (Hfinal : final = Translator.finalize config1 st1).
  { subst final. unfold Translator.translation_start_target. rewrite Hrounds.
    destruct exit; try reflexivity; [now contradiction Hexit|].
    now contradiction (Hraised e). }
  pose proof (postprocess_keeps_remaining config1 (Translator.items st1)
                (Translator.heap st1) (Translator.next st1) Hfresh) as Hkeep.
  fold remaining in Hkeep.
  assert (Hshape :
            (Translator.get_item_count_by_status (Translator.items final)
               (Translator.heap final) UNTRANSLATED = 0 <-> remaining = 0)
            /\ Translator.project_status final
               = (if remaining =? 0 then TRANSLATED
                  else Translator.project_status st1)
            /\ Translator.written final
               = Translator.written st1
                 ++ [map (Translator.heap final) (Translator.items final)]).
  { rewrite Hfinal. unfold Translator.finalize.
    destruct (Translator.mtool_optimizer_postprocess config1 (Translator.items st1)
                (Translator.heap st1) (Translator.next st1)) as [[its' s'] n'].
    cbn [Translator.items Translator.heap Translator.project_status
         Translator.written Translator.check_and_wirte_result].
    split; [exact Hkeep|]. split; [|reflexivity].
    destruct (Translator.get_item_count_by_status its' s' UNTRANSLATED =? 0) eqn:E.
    - apply Z.eqb_eq, Hkeep in E. rewrite E. reflexivity.
    - destruct (remaining =? 0) eqn:E'; [|reflexivity].
      apply Z.eqb_eq, Hkeep, Z.eqb_eq in E'. congruence. }
  destruct Hshape as (Hcount & Hstatus & Hwritten).
  split; [exact Hfinal|]. split; [exact Hcount|]. split.
  { intro H. rewrite Hstatus, H. reflexivity. }
  split.
  { intro H. apply Z.eqb_neq in H. now rewrite Hstatus, H. }
  intro Hex. subst exit.
  pose proof (rounds_exhausted run_tasks status _ config config1 st st1 Hrounds)
    as Hpos.
  fold remaining in Hpos.
  assert (Hnz : (remaining =? 0) = false) by (apply Z.eqb_neq; lia).
  rewrite Hstatus, Hnz. repeat split; auto.
Qed.

(* ================================================================== *)
(** * Further properties *)

(** ** The planner *)

Section PlanningMore.

Import CacheManager.

Lemma greedy_nil (ll tt : Z) : greedy ll tt [].
Proof. intros before c c' after E. destruct before; discriminate. Qed.

Lemma greedy_snoc (ll tt : Z) (cs : list (list CacheItem)) (c' : list CacheItem) :
  greedy ll tt cs ->
  (forall c, py_last cs = Ok c -> closed_by ll tt c c') ->
  greedy ll tt (cs ++ [c']).
Proof.
  intros Hg Hlast before a b after E.
  destruct after as [|z after _] using rev_ind.
  - change (before ++ [a; b]) with (before ++ [a] ++ [b]) in E.
    rewrite app_assoc in E. apply app_inj_tail in E. destruct E as [-> ->].
    apply Hlast. apply py_last_snoc.
  - change (before ++ a :: b :: after ++ [z])
      with (before ++ (a :: b :: after) ++ [z]) in E.
    rewrite app_assoc in E. apply app_inj_tail in E. destruct E as [-> _].
    exact (Hg before a b after eq_refl).
Qed.

Lemma chunk_is_full_true (st : Plan) (item : CacheItem) (ll tt : Z) :
  line_length st = total_lines (chunk st) ->
  token_length st = total_tokens (chunk st) ->
  chunk_is_full st item ll tt (non_empty_lines (get_src item))
    (get_token_count item) = Ok true ->
  cannot_extend ll tt (chunk st) item.
Proof.
  intros Hl Ht. unfold chunk_is_full, cannot_extend. rewrite <- Hl, <- Ht.
  destruct (ll <? line_length st + non_empty_lines (get_src item)) eqn:E1.
  { intros _. left. now apply Z.ltb_lt. }
  destruct (tt <? token_length st + get_token_count item) eqn:E2.
  { intros _. right. left. now apply Z.ltb_lt. }
  destruct (py_last (chunk st)) as [last|e] eqn:E3; cbn [bind]; [|discriminate].
  intro H. injection H as H. apply negb_true_iff, pystr_eqb_neq in H.
  right. right. exists last. split; [reflexivity|exact H].
Qed.

Lemma first_walk_empty (items c : list CacheItem) (start skip thr : Z) :
  skip + len c = start ->
  generate_preceding_chunks items c start skip thr = Ok [].
Proof.
  intro H. unfold generate_preceding_chunks.
  replace (Z.to_nat (start - skip - len c - 1 + 1)) with 0%nat by lia.
  reflexivity.
Qed.

Lemma chunk_step_inv2 (items : list CacheItem) (ll tt thr : Z)
    (pre : list CacheItem) (item : CacheItem) (st st' : Plan) :
  Inv items ll tt thr pre st -> Inv2 ll tt pre st ->
  chunk_step items ll tt thr (len pre) item st = Ok st' ->
  Inv2 ll tt (pre ++ [item]) st'.
Proof.
  intros [_ _ Hl Ht _ _ _ _ _] [Hne Hg Hcl Hst Hfirst Hdone].
  unfold chunk_step.
  destruct (status_eqb (get_status item) UNTRANSLATED); cbn [negb].
  2:{ intro E. injection E as <-.
      constructor; cbn [chunks chunk skip preceding_chunks]; auto.
      intro H. destruct (Hfirst H). split; [assumption|].
      rewrite len_app. change (len [item]) with 1. lia. }
  destruct (len (chunk st) =? 0) eqn:Hlen.
  { apply Z.eqb_eq, len_zero_nil in Hlen. cbn [bind]. intro E. injection E as <-.
    pose proof (Hst Hlen) as Hcs. rewrite Hlen in *.
    constructor; cbn [chunks chunk skip preceding_chunks]; auto;
      try discriminate.
    - intros c Hc. rewrite Hcs in Hc. discriminate.
    - intro H. destruct (Hfirst H) as [Hp Hs]. split; [exact Hp|].
      unfold len in *. rewrite ?length_app in *. cbn [length app] in *. lia. }
  apply Z.eqb_neq in Hlen.
  assert (Hchunk : chunk st <> []).
  { intro E. apply Hlen. now apply len_zero_nil. }
  destruct (chunk_is_full st item ll tt (non_empty_lines (get_src item))
              (get_token_count item)) as [full|e] eqn:Hfull; cbn [bind];
    [|discriminate].
  destruct full.
  - destruct (generate_preceding_chunks items (chunk st) (len pre) (skip st) thr)
      as [pc|e] eqn:Hpc; cbn [bind]; [|discriminate].
    intro E. injection E as <-.
    constructor; cbn [chunks chunk skip preceding_chunks].
    + apply Forall_app. split; [exact Hne|]. constructor; [exact Hchunk|constructor].
    + apply greedy_snoc; assumption.
    + intros c Hc. rewrite py_last_snoc in Hc. injection Hc as <-.
      now apply chunk_is_full_true.
    + discriminate.
    + intro H. destruct (chunks st); discriminate.
    + intros _. destruct (chunks st) as [|c0 cs0] eqn:Hcs.
      * destruct (Hfirst eq_refl) as [Hp Hs]. rewrite Hp.
        rewrite (first_walk_empty items (chunk st) (len pre) (skip st) thr Hs) in Hpc.
        injection Hpc as <-. now exists [].
      * destruct Hdone as [rest Hrest]; [discriminate|].
        rewrite Hrest. now exists (rest ++ [pc]).
  - intro E. injection E as <-.
    constructor; cbn [chunks chunk skip preceding_chunks]; auto.
    + intros c Hc. specialize (Hcl c Hc).
      destruct (chunk st) as [|x rest]; [now contradiction Hchunk|exact Hcl].
    + intro H. destruct (chunk st); discriminate.
    + intro H. destruct (Hfirst H) as [Hp Hs]. split; [exact Hp|].
      rewrite !len_app. change (len [item]) with 1. lia.
Qed.

Lemma chunk_loop_inv2 (items : list CacheItem) (ll tt thr : Z) :
  forall (rest pre : list CacheItem) (st st' : Plan),
    items = pre ++ rest ->
    Inv items ll tt thr pre st -> Inv2 ll tt pre st ->
    chunk_loop items ll tt thr (len pre) rest st = Ok st' ->
    Inv2 ll tt items st'.
Proof.
  induction rest as [|item rest IH]; intros pre st st' Hitems Hinv Hinv2 Hrun.
  - rewrite app_nil_r in Hitems. subst pre. injection Hrun as <-. exact Hinv2.
  - assert (Hle : len pre <= len items).
    { rewrite Hitems, len_app. pose proof (len_nonneg (item :: rest)). lia. }
    destruct (@chunk_step_inv items ll tt thr pre item st Hle Hinv)
      as [st1 [Hstep Hinv1]].
    cbn [chunk_loop] in Hrun. rewrite Hstep in Hrun. cbn [bind] in Hrun.
    replace (len pre + 1) with (len (pre ++ [item])) in Hrun
      by (rewrite len_app; reflexivity).
    apply (IH (pre ++ [item]) st1 st'); try assumption.
    + rewrite <- app_assoc. exact Hitems.
    + exact (chunk_step_inv2 items ll tt thr pre item st st1 Hinv Hinv2 Hstep).
Qed.

(** What [generate_item_chunks] returns, besides [generate_item_chunks_spec]. *)
Lemma generate_item_chunks_shape (items : list CacheItem) (ll tt thr : Z) :
  forall cs pcs,
    generate_item_chunks_with items ll tt thr = Ok (cs, pcs) ->
    Forall (fun c => c <> []) cs
    /\ greedy ll tt cs
    /\ (pcs = [] \/ exists rest, pcs = [] :: rest).
Proof.
  intros cs pcs Hrun.
  assert (H0 : Inv items ll tt thr [] (mkPlan 0 0 0 [] [] [])).
  { constructor; simpl; auto; try lia; try reflexivity.
    - intro H. unfold len in H. simpl in H. lia.
    - intros a b []. }
  assert (H2 : Inv2 ll tt [] (mkPlan 0 0 0 [] [] [])).
  { constructor; cbn [chunks chunk skip preceding_chunks]; auto.
    - apply greedy_nil.
    - discriminate.
    - intro H. now contradiction H. }
  destruct (@chunk_loop_inv items ll tt thr items [] _ eq_refl H0)
    as [st [Hloop Hinv]].
  pose proof (chunk_loop_inv2 items ll tt thr items [] _ st eq_refl H0 H2 Hloop)
    as [Hne Hg Hcl Hst Hfirst Hdone].
  unfold generate_item_chunks_with in Hrun.
  change (len (@nil CacheItem)) with 0 in Hloop. rewrite Hloop in Hrun.
  cbn [bind] in Hrun.
  destruct (0 <? len (chunk st)) eqn:Hlen.
  - apply Z.ltb_lt in Hlen.
    assert (Hchunk : chunk st <> []).
    { intro E. rewrite E in Hlen. unfold len in Hlen. simpl in Hlen. lia. }
    destruct (generate_preceding_chunks items (chunk st) (len items) (skip st) thr)
      as [pc|e] eqn:Hpc; cbn [bind] in Hrun; [|discriminate].
    injection Hrun as <- <-. split; [|split].
    + apply Forall_app. split; [exact Hne|]. constructor; [exact Hchunk|constructor].
    + apply greedy_snoc; assumption.
    + right. destruct (chunks st) as [|c0 cs0] eqn:Hcs.
      * destruct (Hfirst eq_refl) as [Hp Hs]. rewrite Hp.
        rewrite (first_walk_empty items (chunk st) (len items) (skip st) thr Hs)
          in Hpc.
        injection Hpc as <-. now exists [].
      * destruct Hdone as [rest Hrest]; [discriminate|].
        rewrite Hrest. now exists (rest ++ [pc]).
  - injection Hrun as <- <-. split; [exact Hne|]. split; [exact Hg|].
    apply Z.ltb_ge in Hlen. pose proof (len_nonneg (chunk st)).
    assert (E : chunk st = []) by (apply len_zero_nil; lia).
    left. exact (proj1 (Hfirst (Hst E))).
Qed.

End PlanningMore.

Lemma py_last_In {A : Type} (xs : list A) (x : A) : py_last xs = Ok x -> In x xs.
Proof.
  unfold py_last. destruct (rev xs) as [|y ys] eqn:E; [discriminate|].
  intro H. injection H as ->. apply in_rev. rewrite E. now left.
Qed.

Lemma length_concat_nonempty {A : Type} (ls : list (list A)) :
  Forall (fun l => l <> []) ls -> (length ls <= length (concat ls))%nat.
Proof.
  induction 1 as [|l ls Hl _ IH]; [apply Nat.le_refl|].
  cbn [concat length]. rewrite length_app.
  destruct l; [now contradiction Hl|]. cbn [length]. lia.
Qed.

(** X1 (chunks are single-file and non-empty).  When line 161 returns,
    [generate_item_chunks] returns no empty chunk, and all the items of a
    chunk have the same file path. *)
Theorem generate_item_chunks_single_file
    (items : list CacheItem) (token_threshold preceding_lines_threshold : Z) :
  match CacheManager.line_limit token_threshold with
  | Ok _ =>
      exists chunks preceding_chunks,
        CacheManager.generate_item_chunks items token_threshold
          preceding_lines_threshold = Ok (chunks, preceding_chunks)
        /\ forall c, In c chunks ->
             c <> []
             /\ forall a b, In a c -> In b c -> get_file_path a = get_file_path b
  | Raise e =>
      e = OverflowError
      /\ 2 ^ 53 <= Z.abs token_threshold
      /\ CacheManager.generate_item_chunks items token_threshold
           preceding_lines_threshold = Raise OverflowError
  end.
Proof.
  destruct (CacheManager.line_limit token_threshold) as [ll|e] eqn:E.
  2:{ destruct (@line_limit_raises _ _ E) as (He & Hbig & Hraise). auto. }
  destruct (generate_item_chunks_spec items ll token_threshold
              preceding_lines_threshold) as (cs & pcs & Hrun & _ & _ & Hfile & _).
  destruct (generate_item_chunks_shape items ll token_threshold
              preceding_lines_threshold cs pcs Hrun) as (Hne & _ & _).
  exists cs, pcs. rewrite (@generate_item_chunks_ok _ _ E). split; [exact Hrun|].
  intros c Hc.
  rewrite Forall_forall in Hne, Hfile. split; [now apply Hne|].
  exact (Hfile c Hc).
Qed.

(** X2 (the first chunk has no context).  The preceding chunk of the first
    chunk is always empty, whatever precedes the chunk in the item list:
    until the first flush [skip] also counts the items skipped before the
    chunk began, so the backward walk starts below index 0. *)
Theorem generate_item_chunks_first_context
    (items : list CacheItem) (token_threshold preceding_lines_threshold : Z) :
  match CacheManager.line_limit token_threshold with
  | Ok _ =>
      exists chunks preceding_chunks,
        CacheManager.generate_item_chunks items token_threshold
          preceding_lines_threshold = Ok (chunks, preceding_chunks)
        /\ (preceding_chunks = [] \/ exists rest, preceding_chunks = [] :: rest)
  | Raise e =>
      e = OverflowError
      /\ 2 ^ 53 <= Z.abs token_threshold
      /\ CacheManager.generate_item_chunks items token_threshold
           preceding_lines_threshold = Raise OverflowError
  end.
Proof.
  destruct (CacheManager.line_limit token_threshold) as [ll|e] eqn:E.
  2:{ destruct (@line_limit_raises _ _ E) as (He & Hbig & Hraise). auto. }
  destruct (generate_item_chunks_spec items ll token_threshold
              preceding_lines_threshold) as (cs & pcs & Hrun & _).
  destruct (generate_item_chunks_shape items ll token_threshold
              preceding_lines_threshold cs pcs Hrun) as (_ & _ & Hfirst).
  exists cs, pcs. rewrite (@generate_item_chunks_ok _ _ E).
  split; [exact Hrun | exact Hfirst].
Qed.

(** X3 (chunks are greedy).  A chunk ends only where it has to: the first
    item of the chunk that follows could not have joined it, because the
    line limit of line 161 or the token threshold would have been passed or
    because it is of another file. *)
Theorem generate_item_chunks_greedy
    (items : list CacheItem) (token_threshold preceding_lines_threshold : Z) :
  match CacheManager.line_limit token_threshold with
  | Ok line_limit0 =>
      exists chunks preceding_chunks,
        CacheManager.generate_item_chunks items token_threshold
          preceding_lines_threshold = Ok (chunks, preceding_chunks)
        /\ forall before c x rest after,
             chunks = before ++ c :: (x :: rest) :: after ->
             line_limit0
               < total_lines c + CacheManager.non_empty_lines (get_src x)
             \/ token_threshold < total_tokens c + get_token_count x
             \/ forall y, In y c -> get_file_path x <> get_file_path y
  | Raise e =>
      e = OverflowError
      /\ 2 ^ 53 <= Z.abs token_threshold
      /\ CacheManager.generate_item_chunks items token_threshold
           preceding_lines_threshold = Raise OverflowError
  end.
Proof.
  destruct (CacheManager.line_limit token_threshold) as [ll|e] eqn:E.
  2:{ destruct (@line_limit_raises _ _ E) as (He & Hbig & Hraise). auto. }
  destruct (generate_item_chunks_spec items ll token_threshold
              preceding_lines_threshold) as (cs & pcs & Hrun & _ & _ & Hfile & _).
  destruct (generate_item_chunks_shape items ll token_threshold
              preceding_lines_threshold cs pcs Hrun) as (_ & Hg & _).
  exists cs, pcs. rewrite (@generate_item_chunks_ok _ _ E). split; [exact Hrun|].
  intros before c x rest after E'.
  destruct (Hg before c (x :: rest) after E') as [H|[H|[last [Hlast Hdiff]]]];
    [now left | right; now left | right; right].
  intros y Hy Heq. apply Hdiff. rewrite Heq.
  rewrite Forall_forall in Hfile. apply (Hfile c).
  - rewrite E'. apply in_or_app. right. now left.
  - exact Hy.
  - now apply py_last_In.
Qed.

(** X4 (no context at threshold zero).  With a [preceding_lines_threshold]
    of zero or less, every preceding chunk is empty. *)
Theorem generate_item_chunks_no_context
    (items : list CacheItem) (token_threshold preceding_lines_threshold : Z) :
  preceding_lines_threshold <= 0 ->
  match CacheManager.line_limit token_threshold with
  | Ok _ =>
      exists chunks preceding_chunks,
        CacheManager.generate_item_chunks items token_threshold
          preceding_lines_threshold = Ok (chunks, preceding_chunks)
        /\ Forall (fun pc => pc = []) preceding_chunks
  | Raise e =>
      e = OverflowError
      /\ 2 ^ 53 <= Z.abs token_threshold
      /\ CacheManager.generate_item_chunks items token_threshold
           preceding_lines_threshold = Raise OverflowError
  end.
Proof.
  intro Hthr.
  destruct (CacheManager.line_limit token_threshold) as [ll|e] eqn:E.
  2:{ destruct (@line_limit_raises _ _ E) as (He & Hbig & Hraise). auto. }
  destruct (generate_item_chunks_spec items ll token_threshold
              preceding_lines_threshold) as (cs & pcs & Hrun & _ & _ & _ & Hp).
  exists cs, pcs. rewrite (@generate_item_chunks_ok _ _ E). split; [exact Hrun|].
  clear Hrun.
  induction Hp as [|c pc cs pcs (Hlen & _) _ IH]; constructor; [|exact IH].
  apply len_zero_nil. pose proof (len_nonneg pc). lia.
Qed.

(** X5 (number of chunks).  There are at most as many chunks as UNTRANSLATED
    items; with no UNTRANSLATED item, no chunk and no preceding chunk is
    returned. *)
Theorem generate_item_chunks_count
    (items : list CacheItem) (token_threshold preceding_lines_threshold : Z) :
  match CacheManager.line_limit token_threshold with
  | Ok _ =>
      exists chunks preceding_chunks,
        CacheManager.generate_item_chunks items token_threshold
          preceding_lines_threshold = Ok (chunks, preceding_chunks)
        /\ (length chunks <= length (untranslated items))%nat
        /\ (untranslated items = [] -> chunks = [] /\ preceding_chunks = [])
  | Raise e =>
      e = OverflowError
      /\ 2 ^ 53 <= Z.abs token_threshold
      /\ CacheManager.generate_item_chunks items token_threshold
           preceding_lines_threshold = Raise OverflowError
  end.
Proof.
  destruct (CacheManager.line_limit token_threshold) as [ll|e] eqn:E.
  2:{ destruct (@line_limit_raises _ _ E) as (He & Hbig & Hraise). auto. }
  destruct (generate_item_chunks_spec items ll token_threshold
              preceding_lines_threshold) as (cs & pcs & Hrun & Hcat & _ & _ & Hp).
  destruct (generate_item_chunks_shape items ll token_threshold
              preceding_lines_threshold cs pcs Hrun) as (Hne & _ & _).
  exists cs, pcs. rewrite (@generate_item_chunks_ok _ _ E). split; [exact Hrun|].
  pose proof (length_concat_nonempty cs Hne) as Hlen. rewrite Hcat in Hlen.
  split; [exact Hlen|]. intro E'. rewrite E' in Hlen. cbn [length] in Hlen.
  assert (Hcs : cs = []) by (destruct cs; [reflexivity|cbn [length] in Hlen; lia]).
  split; [exact Hcs|]. subst cs. now inversion Hp.
Qed.

Section PrecedingWalk.

Import CacheManager.

Lemma preceding_loop_returns (items c : list CacheItem) (thr : Z) :
  c <> [] ->
  forall (k : nat) (result : list CacheItem),
    (k <= length items)%nat ->
    exists r, preceding_loop items c thr k result = Ok r.
Proof.
  intro Hc. destruct (py_last_nonempty Hc) as [last [Hlast _]].
  induction k as [|i IH]; intros result Hk; [now exists result|].
  cbn [preceding_loop]. unfold py_index.
  destruct (nth_error items i) as [item|] eqn:Hnth.
  2:{ apply nth_error_None in Hnth. lia. }
  cbn [bind]. rewrite Hlast. cbn [bind].
  repeat match goal with
         | |- exists r, (if ?b then _ else _) = Ok r => destruct b
         end;
    try (apply IH; lia); eexists; reflexivity.
Qed.

End PrecedingWalk.

(** X6 (when the backward walk raises).  For a non-empty chunk,
    [generate_preceding_chunks] returns when its first index,
    [start - skip - len(chunk) - 1], is below the length of the item list,
    and raises IndexError when it is not. *)
Theorem generate_preceding_chunks_bounds
    (items c : list CacheItem) (start skip preceding_lines_threshold : Z) :
  c <> [] ->
  (start - skip - len c <= len items ->
   exists result,
     CacheManager.generate_preceding_chunks items c start skip
       preceding_lines_threshold = Ok result)
  /\ (len items < start - skip - len c ->
      CacheManager.generate_preceding_chunks items c start skip
        preceding_lines_threshold = Raise IndexError).
Proof.
  intro Hc. unfold CacheManager.generate_preceding_chunks. split; intro H.
  - destruct (preceding_loop_returns items c preceding_lines_threshold Hc
                (Z.to_nat (start - skip - len c - 1 + 1)) [])
      as [r Hr].
    + unfold len in *. lia.
    + rewrite Hr. cbn [bind]. now eexists.
  - destruct (Z.to_nat (start - skip - len c - 1 + 1)) as [|i] eqn:E.
    + unfold len in *. lia.
    + cbn [CacheManager.preceding_loop]. unfold py_index.
      destruct (nth_error items i) as [item|] eqn:Hnth; [|reflexivity].
      assert (i < length items)%nat by (apply nth_error_Some; congruence).
      unfold len in *. lia.
Qed.

(** ** The checker *)

Lemma contains_refl (s : pystr) : contains s s = true.
Proof.
  assert (H : startswith s s = true).
  { apply startswith_spec. exists []. now rewrite app_nil_r. }
  destruct s; cbn [contains]; [reflexivity|]. now rewrite H.
Qed.

Section CheckerMore.

Import ResponseChecker.

Variable PLACEHOLDER : pystr.
Variable RuleFilter_filter : pystr -> bool -> bool.
Variable LanguageFilter_filter : pystr -> Language -> bool.
Variable RE_DEGRADATION_search : pystr -> bool.
Variable any_hiragana any_katakana any_hangeul : pystr -> bool.
Variable check_similarity_by_jaccard : pystr -> pystr -> float.

Local Abbreviation check_line' :=
  (check_line PLACEHOLDER RuleFilter_filter LanguageFilter_filter
     RE_DEGRADATION_search any_hiragana any_katakana any_hangeul
     check_similarity_by_jaccard).

Local Abbreviation check_values' :=
  (check_values PLACEHOLDER RuleFilter_filter LanguageFilter_filter
     RE_DEGRADATION_search any_hiragana any_katakana any_hangeul
     check_similarity_by_jaccard).

Local Abbreviation check' :=
  (check PLACEHOLDER RuleFilter_filter LanguageFilter_filter
     RE_DEGRADATION_search any_hiragana any_katakana any_hangeul
     check_similarity_by_jaccard).

Local Abbreviation reaches_similarity_rule' :=
  (reaches_similarity_rule PLACEHOLDER RuleFilter_filter LanguageFilter_filter
     RE_DEGRADATION_search any_hiragana any_katakana any_hangeul).

Local Abbreviation similarity_gate' :=
  (similarity_gate any_hiragana any_katakana any_hangeul).

Ltac per_line := unfold per_line_code; cbn [In]; tauto.

Lemma check_line_codes (self : Checker) (src0 dst0 : pystr) (item : CacheItem)
    (source_language0 : Language) :
  exists e, check_line' self src0 (Some dst0) item source_language0 = Ok e
            /\ per_line_code e.
Proof.
  unfold check_line, strip_value. cbn [bind].
  repeat match goal with
         | |- exists e, (if ?b then _ else _) = Ok e /\ _ => destruct b
         end;
    eexists; (split; [reflexivity|per_line]).
Qed.

Lemma check_values_spec (self : Checker) (source_language0 : Language) :
  forall (srcs : list pystr) (dsts : list (option pystr)) (its : list CacheItem),
    match check_values' self srcs dsts its source_language0 with
    | Ok errs =>
        length errs = Nat.min (length srcs) (Nat.min (length dsts) (length its))
        /\ Forall per_line_code errs
    | Raise e => e = AttributeError /\ In None dsts
    end.
Proof.
  induction srcs as [|src srcs IH]; intros dsts its; cbn [check_values].
  { split; [reflexivity|constructor]. }
  destruct dsts as [|dst dsts]; [split; [reflexivity|constructor]|].
  destruct its as [|item its].
  { split; [cbn [length]; lia|constructor]. }
  destruct dst as [dst|].
  2:{ cbn [check_line strip_value bind]. split; [reflexivity|now left]. }
  destruct (check_line_codes self src dst item source_language0) as [e [He Hcode]].
  rewrite He. cbn [bind]. specialize (IH dsts its).
  destruct (check_values' self srcs dsts its source_language0) as [errs|e'];
    cbn [bind].
  - destruct IH as [Hlen Hall]. split; [cbn [length]; lia|now constructor].
  - destruct IH as [He' Hin]. split; [exact He'|now right].
Qed.

(** X7 (what [check] can return).  When [check] returns, the codes are
    FAIL_DATA for every source line, or FAIL_LINE_COUNT for every source
    line, or for each line one of NONE, LINE_ERROR_EMPTY_LINE,
    LINE_ERROR_DEGRADATION, LINE_ERROR_KANA, LINE_ERROR_HANGEUL and
    LINE_ERROR_SIMILARITY (never UNKNOWN or LINE_ERROR_FAKE_REPLY); when it
    raises, the exception is AttributeError and a translation is null. *)
Theorem check_result_shape (self : Checker) (src_dict : PyDict.dict pystr)
    (dst_dict : PyDict.dict (option pystr)) (item_dict : PyDict.dict CacheItem)
    (source_language0 : Language) :
  match check' self src_dict dst_dict item_dict source_language0 with
  | Ok errs =>
      errs = repeat FAIL_DATA (length src_dict)
      \/ errs = repeat FAIL_LINE_COUNT (length src_dict)
      \/ Forall per_line_code errs
  | Raise e => e = AttributeError /\ In None (PyDict.values dst_dict)
  end.
Proof.
  assert (Hrep : forall e : Error,
            py_repeat e (len src_dict) = repeat e (length src_dict)).
  { intro e. unfold py_repeat, len. now rewrite Nat2Z.id. }
  assert (Hnone : Forall per_line_code (repeat NONE (length src_dict))).
  { apply Forall_forall. intros e He. apply repeat_spec in He. subst e. per_line. }
  unfold check. rewrite !Hrep.
  destruct ((len dst_dict =? 0) || forallb empty_or_none (PyDict.values dst_dict)).
  { now left. }
  destruct (single_item_retried_spec self) as [b [Hb _]]. rewrite Hb. cbn [bind].
  destruct b; [right; right; exact Hnone|].
  destruct (negb (len src_dict =? len dst_dict)); [right; now left|].
  unfold check_lines.
  pose proof (check_values_spec self source_language0 (PyDict.values src_dict)
                (PyDict.values dst_dict) (PyDict.values item_dict)) as H.
  destruct (check_values' self (PyDict.values src_dict) (PyDict.values dst_dict)
              (PyDict.values item_dict) source_language0) as [errs|e];
    cbn [bind]; [|exact H].
  destruct (existsb (fun v => negb (is_NONE v)) errs); right; right;
    [exact (proj2 H)|exact Hnone].
Qed.

(** X8 (one code per source line).  When every source line has its item,
    [check] returns exactly as many codes as there are source lines. *)
Theorem check_one_code_per_line (self : Checker) (src_dict : PyDict.dict pystr)
    (dst_dict : PyDict.dict (option pystr)) (item_dict : PyDict.dict CacheItem)
    (source_language0 : Language) (errs : list Error) :
  (length src_dict <= length item_dict)%nat ->
  check' self src_dict dst_dict item_dict source_language0 = Ok errs ->
  length errs = length src_dict.
Proof.
  intro Hitems.
  assert (Hrep : forall e : Error,
            py_repeat e (len src_dict) = repeat e (length src_dict)).
  { intro e. unfold py_repeat, len. now rewrite Nat2Z.id. }
  unfold check. rewrite !Hrep.
  destruct ((len dst_dict =? 0) || forallb empty_or_none (PyDict.values dst_dict)).
  { intro H. injection H as <-. apply repeat_length. }
  destruct (single_item_retried_spec self) as [b [Hb _]]. rewrite Hb. cbn [bind].
  destruct b; [intro H; injection H as <-; apply repeat_length|].
  destruct (len src_dict =? len dst_dict) eqn:Hlen; cbn [negb];
    [|intro H; injection H as <-; apply repeat_length].
  apply Z.eqb_eq in Hlen. unfold len in Hlen. apply Nat2Z.inj in Hlen.
  unfold check_lines.
  pose proof (check_values_spec self source_language0 (PyDict.values src_dict)
                (PyDict.values dst_dict) (PyDict.values item_dict)) as H.
  destruct (check_values' self (PyDict.values src_dict) (PyDict.values dst_dict)
              (PyDict.values item_dict) source_language0) as [errs'|e];
    cbn [bind]; [|discriminate].
  destruct H as [Hl _]. unfold PyDict.values in Hl. rewrite !length_map in Hl.
  destruct (existsb (fun v => negb (is_NONE v)) errs'); intro H;
    injection H as <-; [lia|apply repeat_length].
Qed.

(** X9 (the gated similarity never fires).  When the task's source
    language is the checker's, is JA or KO, and the target language is ZH,
    no line gets LINE_ERROR_SIMILARITY: the gate asks for kana (hangeul) in
    the translation, and such a translation has LINE_ERROR_KANA
    (LINE_ERROR_HANGEUL) before the rule is reached. *)
Theorem check_line_gated_similarity_unreachable (self : Checker)
    (src0 dst0 : pystr) (item : CacheItem) (source_language0 : Language) :
  source_language self = source_language0 ->
  target_language self = ZH ->
  source_language0 = JA \/ source_language0 = KO ->
  exists e,
    check_line' self src0 (Some dst0) item source_language0 = Ok e
    /\ e <> LINE_ERROR_SIMILARITY.
Proof.
  intros Hsame Htarget Hlang.
  unfold check_line, strip_value. cbn [bind]. rewrite Hsame, Htarget.
  destruct Hlang as [-> | ->]; cbn [is_JA is_KO is_ZH andb];
    repeat match goal with
           | |- exists e, (if ?b then _ else _) = Ok e /\ _ =>
               let E := fresh "E" in destruct b eqn:E
           end;
    try (eexists; split; [reflexivity|discriminate]);
    congruence.
Qed.

(** X10 (an echoed source is rejected).  A line that reaches the rule of
    line 116 with a translation equal to its source, both stripped, gets
    LINE_ERROR_SIMILARITY when the language gate is open. *)
Theorem check_line_echo (self : Checker) (src0 dst0 : pystr)
    (item : CacheItem) (source_language0 : Language) :
  reaches_similarity_rule' (strip src0) (strip dst0) item source_language0 ->
  strip dst0 = strip src0 ->
  similarity_gate' self (strip dst0) = true ->
  check_line' self src0 (Some dst0) item source_language0
  = Ok LINE_ERROR_SIMILARITY.
Proof.
  intros Hreach Hecho Hgate.
  rewrite (@check_line_similarity_rule PLACEHOLDER RuleFilter_filter
             LanguageFilter_filter RE_DEGRADATION_search any_hiragana
             any_katakana any_hangeul check_similarity_by_jaccard
             self src0 dst0 item source_language0 Hreach).
  rewrite Hgate, Hecho, contains_refl. reflexivity.
Qed.

End CheckerMore.

(** ** The decoder *)

Lemma values_set_numbered {V : Type} (d : PyDict.dict V) (v : V) :
  numbered d ->
  PyDict.values (PyDict.set d (of_nat (length d)) v) = PyDict.values d ++ [v].
Proof.
  intro Hn. rewrite (@set_fresh V d (of_nat (length d)) v (numbered_next_fresh Hn)).
  unfold PyDict.values. now rewrite map_app.
Qed.

Section DecoderMore.

Import ResponseDecoder.

Variable repair_loads : pystr -> json.

Lemma len_eqb_length {A : Type} (l : list A) (n : nat) :
  (len l =? Z.of_nat n) = (length l =? n)%nat.
Proof.
  unfold len. destruct (Nat.eqb_spec (length l) n) as [E|E].
  - apply Z.eqb_eq. now rewrite E.
  - apply Z.eqb_neq. lia.
Qed.

Lemma decode_line_spec (line : pystr)
    (d : PyDict.dict pystr) (g : list (PyDict.dict pystr)) :
  numbered d ->
  let acc := decode_line repair_loads line (d, g) in
  numbered (fst acc)
  /\ PyDict.values (fst acc) = PyDict.values d ++ line_translation repair_loads line
  /\ snd acc = g ++ line_glossary repair_loads line.
Proof.
  intros Hn acc. subst acc. unfold decode_line, line_translation, line_glossary.
  destruct (repair_loads line) as [| | | | |?|json_data]; cbn [fst snd];
    rewrite ?app_nil_r; try (repeat split; [exact Hn]).
  change 1 with (Z.of_nat 1). change 3 with (Z.of_nat 3).
  rewrite !len_eqb_length. split; [|split].
  - destruct json_data as [|[k v] [|kv rest]]; cbn [length Nat.eqb fst];
      try exact Hn.
    destruct v; try exact Hn. now apply numbered_set.
  - destruct json_data as [|[k v] [|kv rest]]; cbn [length Nat.eqb fst];
      rewrite ?app_nil_r; try reflexivity.
    + destruct v; rewrite ?app_nil_r; try reflexivity.
      now apply values_set_numbered.
    + destruct v; rewrite ?app_nil_r; reflexivity.
  - destruct ((length json_data =? 3)%nat); cbn [andb snd];
      [|now rewrite app_nil_r].
    destruct (existsb (fun v => PyDict.mem v json_data)
                [lit "src"; lit "dst"; lit "gender"]);
      [reflexivity|now rewrite app_nil_r].
Qed.

Lemma decode_lines_spec (response : pystr) :
  numbered (fst (decode_lines repair_loads response))
  /\ PyDict.values (fst (decode_lines repair_loads response))
     = flat_map (line_translation repair_loads) (splitlines response)
  /\ snd (decode_lines repair_loads response)
     = flat_map (line_glossary repair_loads) (splitlines response).
Proof.
  unfold decode_lines.
  assert (H : forall ls d g,
            numbered d ->
            let acc := fold_left (fun acc line => decode_line repair_loads line acc)
                         ls (d, g) in
            numbered (fst acc)
            /\ PyDict.values (fst acc)
               = PyDict.values d ++ flat_map (line_translation repair_loads) ls
            /\ snd acc = g ++ flat_map (line_glossary repair_loads) ls).
  { induction ls as [|l ls IH]; intros d g Hn; cbn [fold_left flat_map].
    - rewrite !app_nil_r. repeat split. exact Hn.
    - destruct (decode_line_spec l d g Hn) as (Hn1 & Hv1 & Hg1).
      destruct (decode_line repair_loads l (d, g)) as [d1 g1]. cbn [fst snd] in *.
      destruct (IH d1 g1 Hn1) as (Hn2 & Hv2 & Hg2).
      split; [exact Hn2|]. split.
      + rewrite Hv2, Hv1, app_assoc. reflexivity.
      + rewrite Hg2, Hg1, app_assoc. reflexivity. }
  destruct (H (splitlines response) [] [] eq_refl) as (Hn & Hv & Hg).
  split; [exact Hn|]. split; [exact Hv | exact Hg].
Qed.

Lemma decode_values_spec (json_data : list (pystr * json)) :
  forall d : PyDict.dict pystr,
    numbered d ->
    PyDict.values (decode_values json_data d)
    = PyDict.values d
      ++ flat_map (fun kv => match snd kv with JStr v => [v] | _ => [] end)
           json_data.
Proof.
  unfold decode_values.
  induction json_data as [|[k v] rest IH]; intros d Hn; cbn [fold_left flat_map snd].
  - now rewrite app_nil_r.
  - destruct v as [| | | |sv| |]; try (rewrite (IH d Hn); reflexivity).
    rewrite (IH _ (@numbered_set _ d sv Hn)), (values_set_numbered d sv Hn),
      <- app_assoc.
    reflexivity.
Qed.

End DecoderMore.

Lemma decode_values_in_order_lemma (repair_loads : pystr -> json) (response : pystr) :
  PyDict.values (fst (ResponseDecoder.decode repair_loads response))
  = match flat_map (line_translation repair_loads) (splitlines response) with
    | [] => whole_translations repair_loads response
    | _ :: _ => flat_map (line_translation repair_loads) (splitlines response)
    end
  /\ snd (ResponseDecoder.decode repair_loads response)
     = flat_map (line_glossary repair_loads) (splitlines response).
Proof.
  destruct (decode_lines_spec repair_loads response) as (Hn & Hv & Hg).
  unfold ResponseDecoder.decode.
  destruct (ResponseDecoder.decode_lines repair_loads response) as [d g].
  cbn [fst snd] in *. rewrite <- Hv.
  destruct (len d =? 0) eqn:Hlen; cbn [fst snd].
  - apply Z.eqb_eq, len_zero_nil in Hlen. subst d. cbn [PyDict.values map].
    split; [|exact Hg].
    unfold ResponseDecoder.decode_whole, whole_translations.
    destruct (repair_loads response); try reflexivity.
    apply (decode_values_spec d [] eq_refl).
  - split; [|exact Hg]. destruct d as [|kv d]; [discriminate|reflexivity].
Qed.

(** X11 (the translations, in order).  The values of the dictionary that
    [decode] returns are, in line order, the string values of the lines
    that parse to a dictionary of one entry; when no line gives one, they
    are the string values of the whole response parsed as a dictionary, in
    its order.  The glossary holds, in line order, one entry for each line
    that parses to a dictionary of three entries with a key src, dst or
    gender. *)
Theorem decode_values_in_order (repair_loads : pystr -> json) (response : pystr) :
  let by_line := flat_map (line_translation repair_loads) (splitlines response) in
  PyDict.values (fst (ResponseDecoder.decode repair_loads response))
  = match by_line with
    | [] => whole_translations repair_loads response
    | _ :: _ => by_line
    end
  /\ snd (ResponseDecoder.decode repair_loads response)
     = flat_map (line_glossary repair_loads) (splitlines response).
Proof.
  intro by_line. subst by_line.
  exact (decode_values_in_order_lemma repair_loads response).
Qed.

(** X12 (glossary entries are well formed).  Every glossary entry that
    [decode] returns has exactly the keys src, dst and info, in this
    order. *)
Theorem decode_glossary_keys (repair_loads : pystr -> json) (response : pystr) :
  Forall (fun entry => PyDict.keys entry = [lit "src"; lit "dst"; lit "info"])
    (snd (ResponseDecoder.decode repair_loads response)).
Proof.
  rewrite (proj2 (decode_values_in_order_lemma repair_loads response)).
  apply Forall_flat_map, Forall_forall. intros line _.
  unfold line_glossary.
  destruct (repair_loads line); try constructor.
  destruct ((length d =? 3)%nat
            && existsb (fun v => PyDict.mem v d) [lit "src"; lit "dst"; lit "gender"]);
    repeat constructor.
Qed.

(** ** The decoder and the checker together *)

Section DecodeThenCheck.

Import ResponseChecker.

Variable PLACEHOLDER : pystr.
Variable RuleFilter_filter : pystr -> bool -> bool.
Variable LanguageFilter_filter : pystr -> Language -> bool.
Variable RE_DEGRADATION_search : pystr -> bool.
Variable any_hiragana any_katakana any_hangeul : pystr -> bool.
Variable check_similarity_by_jaccard : pystr -> pystr -> float.
Variable repair_loads : pystr -> json.

Local Abbreviation check' :=
  (check PLACEHOLDER RuleFilter_filter LanguageFilter_filter
     RE_DEGRADATION_search any_hiragana any_katakana any_hangeul
     check_similarity_by_jaccard).

Lemma check_returns (self : Checker) (src_dict : PyDict.dict pystr)
    (dst_dict : PyDict.dict (option pystr)) (item_dict : PyDict.dict CacheItem)
    (source_language0 : Language) :
  ~ In None (PyDict.values dst_dict) ->
  exists errs, check' self src_dict dst_dict item_dict source_language0 = Ok errs.
Proof.
  intro Hsome. unfold check.
  destruct ((len dst_dict =? 0) || forallb empty_or_none (PyDict.values dst_dict));
    [now eexists|].
  destruct (single_item_retried_spec self) as [b [Hb _]]. rewrite Hb. cbn [bind].
  destruct b; [now eexists|].
  destruct (negb (len src_dict =? len dst_dict)); [now eexists|].
  unfold check_lines.
  pose proof (check_values_spec PLACEHOLDER RuleFilter_filter
                LanguageFilter_filter RE_DEGRADATION_search any_hiragana
                any_katakana any_hangeul check_similarity_by_jaccard
                self source_language0 (PyDict.values src_dict)
                (PyDict.values dst_dict) (PyDict.values item_dict)) as H.
  destruct (check_values PLACEHOLDER RuleFilter_filter LanguageFilter_filter
              RE_DEGRADATION_search any_hiragana any_katakana any_hangeul
              check_similarity_by_jaccard self (PyDict.values src_dict)
              (PyDict.values dst_dict) (PyDict.values item_dict)
              source_language0) as [errs|e]; cbn [bind].
  - destruct (existsb (fun v => negb (is_NONE v)) errs); now eexists.
  - destruct H as [_ H]. contradiction.
Qed.

Lemma decoded_values (d : PyDict.dict pystr) :
  PyDict.values (decoded d) = map Some (PyDict.values d).
Proof. unfold decoded, PyDict.values. rewrite !map_map. reflexivity. Qed.

(** X13 (the checker on what the decoder returns).  [check] never raises on
    the dictionary that [decode] returns for a response, whatever the
    response; and when [decode] finds no translation in it, [check] answers
    FAIL_DATA for every source line. *)
Theorem decode_then_check (self : Checker) (response : pystr)
    (src_dict : PyDict.dict pystr) (item_dict : PyDict.dict CacheItem)
    (source_language0 : Language) :
  let dst_dict := decoded (fst (ResponseDecoder.decode repair_loads response)) in
  exists errs,
    check' self src_dict dst_dict item_dict source_language0 = Ok errs
    /\ (fst (ResponseDecoder.decode repair_loads response) = [] ->
        errs = repeat FAIL_DATA (length src_dict)).
Proof.
  intro dst_dict.
  destruct (check_returns self src_dict dst_dict item_dict source_language0)
    as [errs Herrs].
  { subst dst_dict. rewrite decoded_values. intro H.
    apply in_map_iff in H. destruct H as [v [Hv _]]. discriminate. }
  exists errs. split; [exact Herrs|]. intro Hempty.
  subst dst_dict. rewrite Hempty in Herrs. unfold check in Herrs.
  cbn in Herrs. injection Herrs as <-.
  unfold py_repeat, len. now rewrite Nat2Z.id.
Qed.

End DecodeThenCheck.

(** ** The decoder and the parser's exceptions *)

Section DecoderRaising.

Import ResponseDecoder.

Variable repair_loads : pystr -> res json.





End DecoderRaising.



(** ** The filters *)

Section FiltersMore.

Import Translator.

Variable RuleFilter_filter : pystr -> bool -> bool.
Variable LanguageFilter_filter : pystr -> Language -> bool.

Lemma rule_filter_store (its : list loc) (s : store) (l : loc) :
  fst (rule_filter RuleFilter_filter its s) l
  = if listed its l && rule_matches RuleFilter_filter s l then set_status EXCLUDED (s l) else s l.
Proof.
  unfold rule_filter, listed, rule_matches.
  destruct (len its =? 0) eqn:Hlen; cbn [fst].
  - apply Z.eqb_eq, len_zero_nil in Hlen. subst its. reflexivity.
  - apply (filter_pass_spec
             (fun v => RuleFilter_filter (get_src (s v))
                         (get_skip_internal_filter (s v)))).
Qed.

Lemma language_filter_store (config : Config) (its : list loc) (s : store)
    (l : loc) :
  fst (language_filter LanguageFilter_filter config its s) l
  = if listed its l && language_matches LanguageFilter_filter config s l
    then set_status EXCLUDED (s l) else s l.
Proof.
  unfold language_filter, listed, language_matches.
  destruct (len its =? 0) eqn:Hlen; cbn [fst].
  - apply Z.eqb_eq, len_zero_nil in Hlen. subst its. reflexivity.
  - apply (filter_pass_spec
             (fun v => LanguageFilter_filter (get_src (s v))
                         (source_language config))).
Qed.

Lemma count_excluded_ext (its : list loc) (s s' : store) :
  (forall l, In l its -> s' l = s l) ->
  count_excluded its s' = count_excluded its s.
Proof.
  intro H. unfold count_excluded. f_equal. apply filter_ext_in.
  intros l Hl. now rewrite (H l Hl).
Qed.

(** The count a pass reports: the listed entries it newly excludes. *)
Lemma count_newly_excluded (p : loc -> bool) (its : list loc) (s s' : store) :
  (forall l, In l its -> s' l = if p l then set_status EXCLUDED (s l) else s l) ->
  count_excluded its s' - count_excluded its s
  = len (filter (fun v => negb (status_eqb (get_status (s v)) EXCLUDED) && p v) its).
Proof.
  unfold count_excluded, len. induction its as [|x its IH]; intro H; [reflexivity|].
  assert (IH' := IH (fun l Hl => H l (or_intror Hl))).
  cbn [filter]. rewrite (H x (or_introl eq_refl)).
  destruct (p x); cbn [get_status set_status status_eqb andb];
    destruct (status_eqb (get_status (s x)) EXCLUDED); cbn [negb andb length];
    lia.
Qed.

Lemma listed_In (its : list loc) (l : loc) : In l its -> listed its l = true.
Proof. intro H. now apply existsb_eqb_In. Qed.

End FiltersMore.

(** X14 (the filters are idempotent).  Running [rule_filter] or
    [language_filter] a second time on the same list changes no object, and
    the count it then reports is 0. *)
Theorem filters_idempotent
    (RuleFilter_filter : pystr -> bool -> bool)
    (LanguageFilter_filter : pystr -> Language -> bool)
    (config : Translator.Config) (its : list Translator.loc)
    (s : Translator.store) :
  let r1 := Translator.rule_filter RuleFilter_filter its s in
  let r2 := Translator.rule_filter RuleFilter_filter its (fst r1) in
  let g1 := Translator.language_filter LanguageFilter_filter config its s in
  let g2 := Translator.language_filter LanguageFilter_filter config its (fst g1) in
  (forall l, fst r2 l = fst r1 l)
  /\ (its <> [] -> snd r2 = Some 0)
  /\ (forall l, fst g2 l = fst g1 l)
  /\ (its <> [] -> snd g2 = Some 0).
Proof.
  intros r1 r2 g1 g2.
  assert (Hr : forall l, fst r2 l = fst r1 l).
  { intro l. subst r2 r1. rewrite rule_filter_store. unfold rule_matches.
    rewrite !rule_filter_store. unfold rule_matches.
    destruct (listed its l); cbn [andb]; [|reflexivity].
    destruct (RuleFilter_filter (get_src (s l))
                (get_skip_internal_filter (s l))) eqn:E;
      cbn [get_src get_skip_internal_filter set_status]; rewrite ?E; reflexivity. }
  assert (Hg : forall l, fst g2 l = fst g1 l).
  { intro l. subst g2 g1. rewrite language_filter_store. unfold language_matches.
    rewrite !language_filter_store. unfold language_matches.
    destruct (listed its l); cbn [andb]; [|reflexivity].
    destruct (LanguageFilter_filter (get_src (s l))
                (Translator.source_language config)) eqn:E;
      cbn [get_src set_status]; rewrite ?E; reflexivity. }
  assert (Hlen : its <> [] -> (len its =? 0) = false).
  { intro H. apply Z.eqb_neq. intro E. apply H. now apply len_zero_nil. }
  split; [exact Hr|]. split; [|split; [exact Hg|]].
  - intro Hne. subst r2. unfold Translator.rule_filter at 1.
    rewrite (Hlen Hne). cbn [snd]. f_equal.
    fold (Translator.rule_filter RuleFilter_filter its (fst r1)).
    rewrite (count_excluded_ext its (fst r1)
               (Translator.exclude_all
                  (filter (fun v => RuleFilter_filter (get_src (fst r1 v))
                                      (get_skip_internal_filter (fst r1 v))) its)
                  (fst r1))).
    + lia.
    + intros l _. pose proof (Hr l) as H. unfold Translator.rule_filter in H at 1.
      rewrite (Hlen Hne) in H. exact H.
  - intro Hne. subst g2. unfold Translator.language_filter at 1.
    rewrite (Hlen Hne). cbn [snd]. f_equal.
    rewrite (count_excluded_ext its (fst g1)
               (Translator.exclude_all
                  (filter (fun v => LanguageFilter_filter (get_src (fst g1 v))
                                      (Translator.source_language config)) its)
                  (fst g1))).
    + lia.
    + intros l _. pose proof (Hg l) as H.
      unfold Translator.language_filter in H at 1.
      rewrite (Hlen Hne) in H. exact H.
Qed.

(** X15 (the filters commute).  [rule_filter] followed by [language_filter]
    leaves every object as [language_filter] followed by [rule_filter]
    does. *)
Theorem filters_commute
    (RuleFilter_filter : pystr -> bool -> bool)
    (LanguageFilter_filter : pystr -> Language -> bool)
    (config : Translator.Config) (its : list Translator.loc)
    (s : Translator.store) (l : Translator.loc) :
  fst (Translator.language_filter LanguageFilter_filter config its
         (fst (Translator.rule_filter RuleFilter_filter its s))) l
  = fst (Translator.rule_filter RuleFilter_filter its
           (fst (Translator.language_filter LanguageFilter_filter config its s))) l.
Proof.
  do 3 (rewrite ?language_filter_store, ?rule_filter_store;
        unfold rule_matches, language_matches).
  destruct (listed its l); cbn [andb]; [|reflexivity].
  destruct (RuleFilter_filter (get_src (s l)) (get_skip_internal_filter (s l)))
    eqn:E1;
    destruct (LanguageFilter_filter (get_src (s l))
                (Translator.source_language config)) eqn:E2;
    cbn [get_src get_skip_internal_filter set_status]; rewrite ?E1, ?E2;
    reflexivity.
Qed.

(** X16 (what a filter reports).  On a non-empty list, the count that
    [rule_filter] and [language_filter] report is the number of entries of
    the list that satisfy the predicate and were not EXCLUDED before; so it
    is never negative.  On an empty list nothing is reported. *)
Theorem filters_report
    (RuleFilter_filter : pystr -> bool -> bool)
    (LanguageFilter_filter : pystr -> Language -> bool)
    (config : Translator.Config) (its : list Translator.loc)
    (s : Translator.store) :
  snd (Translator.rule_filter RuleFilter_filter its s)
  = match its with
    | [] => None
    | _ :: _ =>
        Some (len (filter
                     (fun v => negb (status_eqb (get_status (s v)) EXCLUDED)
                               && RuleFilter_filter (get_src (s v))
                                    (get_skip_internal_filter (s v))) its))
    end
  /\ snd (Translator.language_filter LanguageFilter_filter config its s)
     = match its with
       | [] => None
       | _ :: _ =>
           Some (len (filter
                        (fun v => negb (status_eqb (get_status (s v)) EXCLUDED)
                                  && LanguageFilter_filter (get_src (s v))
                                       (Translator.source_language config)) its))
       end.
Proof.
  destruct its as [|x its]; [split; reflexivity|].
  set (l0 := x :: its).
  assert (Hlen : (len l0 =? 0) = false) by (apply Z.eqb_neq; unfold len; simpl; lia).
  split.
  - pose proof (rule_filter_store RuleFilter_filter l0 s) as Hs.
    unfold Translator.rule_filter in *. rewrite Hlen in *. cbn [fst snd] in *.
    f_equal. apply count_newly_excluded. intros l Hl. rewrite Hs.
    unfold rule_matches. now rewrite (listed_In l0 l Hl).
  - pose proof (language_filter_store LanguageFilter_filter config l0 s) as Hs.
    unfold Translator.language_filter in *. rewrite Hlen in *. cbn [fst snd] in *.
    f_equal. apply count_newly_excluded. intros l Hl. rewrite Hs.
    unfold language_matches. now rewrite (listed_In l0 l Hl).
Qed.

(** ** The pre-processing of the MTool optimizer *)

Section PreprocessProperties.

Import Translator.

Lemma lstrip_In (c : char) (s : pystr) : In c (lstrip s) -> In c s.
Proof.
  induction s as [|x s IH]; cbn [lstrip]; [auto|].
  destruct (isspace x); intro H; [right; auto|exact H].
Qed.

Lemma strip_In (c : char) (s : pystr) : In c (strip s) -> In c s.
Proof.
  unfold strip, rstrip. intro H. rewrite <- in_rev in H.
  apply lstrip_In in H. rewrite <- in_rev in H. now apply lstrip_In.
Qed.

(** No line of [splitlines] holds a line feed. *)
Lemma splitlines_from_no_linefeed :
  forall (n : nat) (s cur : pystr),
    (length s <= n)%nat -> ~ In 10%N cur ->
    Forall (fun line => ~ In 10%N line) (splitlines_from cur s).
Proof.
  induction n as [|n IH]; intros s cur Hn Hcur.
  - destruct s; [|simpl in Hn; lia]. cbn. destruct cur; constructor; auto.
  - destruct s as [|c rest]. { cbn. destruct cur; constructor; auto. }
    cbn [splitlines_from]. simpl in Hn.
    destruct (c =? 13)%N eqn:E13.
    + destruct rest as [|d rest'].
      * constructor; [exact Hcur|]. apply IH; [simpl; lia|intros []].
      * simpl in Hn.
        destruct (d =? 10)%N; (constructor; [exact Hcur|]);
          (apply IH; [simpl; lia|intros []]).
    + destruct (is_linebreak c) eqn:Elb.
      * constructor; [exact Hcur|]. apply IH; [lia|intros []].
      * apply IH; [lia|]. intro H. apply in_app_or in H.
        destruct H as [H|[H|[]]]; [auto|]. subst c. vm_compute in Elb.
        discriminate Elb.
Qed.

Lemma count_pos_In (c : char) (s : pystr) :
  (0 <? PyStr.count c s) = true -> In c s.
Proof.
  unfold PyStr.count. intro H.
  destruct (filter (N.eqb c) s) as [|x l] eqn:E; [discriminate H|].
  assert (Hin : In x (filter (N.eqb c) s)) by (rewrite E; now left).
  apply filter_In in Hin. destruct Hin as [Hin Hx].
  apply N.eqb_eq in Hx. now subst.
Qed.

Lemma sub_lines_no_linefeed (src x : pystr) :
  In x (sub_lines src) -> ~ In 10%N x.
Proof.
  unfold sub_lines. intros H Hx. apply in_map_iff in H.
  destruct H as [line [<- Hline]]. apply filter_In in Hline.
  destruct Hline as [Hline _].
  pose proof (splitlines_from_no_linefeed (length src) src [] (le_n _)
                (fun H => H)) as HF.
  rewrite Forall_forall in HF. apply (HF line Hline). now apply strip_In.
Qed.

Lemma update_status_src (s : store) (x l : loc) :
  get_src (update s x (set_status EXCLUDED (s x)) l) = get_src (s l).
Proof.
  unfold update. destruct (Nat.eqb l x) eqn:E; [|reflexivity].
  apply Nat.eqb_eq in E. subst. reflexivity.
Qed.

(** The second loop over a group marks what a filter on the sources as
    they were would select: marking changes no source. *)
Lemma exclude_marked_fold (target : list pystr) (g : list loc) :
  forall cur : store,
    fold_left
      (fun s item =>
         if existsb (PyStr.eqb (get_src (s item))) target
         then update s item (set_status EXCLUDED (s item)) else s) g cur
    = exclude_all
        (filter (fun item => existsb (PyStr.eqb (get_src (cur item))) target) g)
        cur.
Proof.
  induction g as [|x g IH]; intro cur; [reflexivity|].
  cbn [fold_left filter].
  destruct (existsb (PyStr.eqb (get_src (cur x))) target) eqn:E.
  - rewrite IH. unfold exclude_all. cbn [fold_left]. f_equal.
    apply filter_ext. intro a. now rewrite update_status_src.
  - apply IH.
Qed.

Lemma exclude_sub_lines_spec (s : store) (g : list loc) (l : loc) :
  exclude_sub_lines s g l
  = if marked_in s l g then set_status EXCLUDED (s l) else s l.
Proof.
  unfold exclude_sub_lines, marked_in, listed. rewrite exclude_marked_fold.
  apply (filter_pass_spec
           (fun item => existsb (PyStr.eqb (get_src (s item))) (group_target s g))).
Qed.

Lemma group_target_ext (s s' : store) (g : list loc) :
  (forall x, get_src (s' x) = get_src (s x)) ->
  group_target s' g = group_target s g.
Proof.
  intro H. unfold group_target. generalize (@nil pystr).
  induction g as [|x g IH]; intro acc; [reflexivity|].
  cbn [fold_left]. rewrite H. apply IH.
Qed.

Lemma group_target_fold_In (s : store) (g : list loc) (x : pystr) :
  forall acc : list pystr,
    In x (fold_left
            (fun target item =>
               let src := get_src (s item) in
               if 0 <? PyStr.count 10%N src then target ++ sub_lines src
               else target) g acc)
    <-> In x acc
        \/ exists parent, In parent g /\ is_multiline (s parent) = true
                          /\ In x (sub_lines (get_src (s parent))).
Proof.
  induction g as [|p g IH]; intro acc; cbn [fold_left].
  - split; [now left|]. intros [H|[parent [[] _]]]. exact H.
  - rewrite IH. cbv zeta. unfold is_multiline.
    destruct (0 <? PyStr.count 10%N (get_src (s p))) eqn:E; split.
    + intros [H|[parent (Hin & Hm & Hx)]].
      * apply in_app_or in H. destruct H as [H|H]; [now left|].
        right. exists p. split; [now left|]. split; assumption.
      * right. exists parent. split; [now right|]. split; assumption.
    + intros [H|[parent ([<-|Hin] & Hm & Hx)]].
      * left. apply in_or_app. now left.
      * left. apply in_or_app. now right.
      * right. exists parent. split; [exact Hin|]. split; assumption.
    + intros [H|[parent (Hin & Hm & Hx)]]; [now left|].
      right. exists parent. split; [now right|]. split; assumption.
    + intros [H|[parent ([<-|Hin] & Hm & Hx)]]; [now left|congruence|].
      right. exists parent. split; [exact Hin|]. split; assumption.
Qed.

Lemma group_target_In (s : store) (g : list loc) (x : pystr) :
  In x (group_target s g)
  <-> exists parent, In parent g /\ is_multiline (s parent) = true
                     /\ In x (sub_lines (get_src (s parent))).
Proof.
  unfold group_target. rewrite group_target_fold_In. split.
  - intros [[]|H]. exact H.
  - intro H. now right.
Qed.

Lemma existsb_ext_all {A : Type} (f g : A -> bool) (l : list A) :
  (forall x, f x = g x) -> existsb f l = existsb g l.
Proof.
  intro H. induction l as [|x l IH]; [reflexivity|].
  cbn [existsb]. now rewrite H, IH.
Qed.

(** The loop over the groups: an object is marked when a group marks it,
    judged on the sources as they were when the loop began. *)
Lemma exclude_groups_spec (groups : list (list loc)) :
  forall (cur : store) (l : loc),
    fold_left exclude_sub_lines groups cur l
    = if existsb (marked_in cur l) groups then set_status EXCLUDED (cur l)
      else cur l.
Proof.
  induction groups as [|g groups IH]; intros cur l; [reflexivity|].
  cbn [fold_left existsb]. rewrite IH.
  assert (Hsrc : forall x, get_src (exclude_sub_lines cur g x) = get_src (cur x)).
  { intro x. rewrite exclude_sub_lines_spec.
    destruct (marked_in cur x g); reflexivity. }
  rewrite (existsb_ext_all (marked_in (exclude_sub_lines cur g) l)
             (marked_in cur l)).
  2:{ intro g'. unfold marked_in.
      now rewrite Hsrc, (group_target_ext cur _ g' Hsrc). }
  rewrite exclude_sub_lines_spec.
  destruct (marked_in cur l g); destruct (existsb (marked_in cur l) groups);
    reflexivity.
Qed.

Lemma preprocess_store (config : Config) (its : list loc) (s : store) (l : loc) :
  fst (mtool_optimizer_preprocess config its s) l
  = if mtool_optimizer_enable config
       && existsb (marked_in s l)
            (PyDict.values (group_by_file_path (kvjson_items its s) s))
    then set_status EXCLUDED (s l) else s l.
Proof.
  unfold mtool_optimizer_preprocess. destruct (len its =? 0) eqn:Hlen.
  - apply Z.eqb_eq, len_zero_nil in Hlen. subst its. cbn.
    now rewrite andb_false_r.
  - destruct (mtool_optimizer_enable config); cbn [negb orb andb fst];
      [|reflexivity].
    apply exclude_groups_spec.
Qed.

Lemma marked_redundant (config : Config) (its : list loc) (s : store) (l : loc) :
  mtool_optimizer_enable config
  && existsb (marked_in s l)
       (PyDict.values (group_by_file_path (kvjson_items its s) s)) = true
  <-> redundant config its s l.
Proof.
  pose proof (grouped_fold loc (fun item => get_file_path (s item))
                (kvjson_items its s) [] [] (grouped_nil _ _))
    as (_ & Hg & Hk & _).
  cbn [app] in Hg, Hk. fold (group_by_file_path (kvjson_items its s) s) in Hg, Hk.
  assert (Hkv : forall x, In x (kvjson_items its s)
                          <-> In x its /\ is_KVJSON (get_file_type (s x)) = true).
  { intro x. unfold kvjson_items. apply filter_In. }
  assert (Hgroup : forall k g x,
             In (k, g) (group_by_file_path (kvjson_items its s) s) ->
             (In x g <-> In x its /\ is_KVJSON (get_file_type (s x)) = true
                         /\ get_file_path (s x) = k)).
  { intros k g x Hin. rewrite (Hg k g Hin), filter_In, Hkv. unfold same_key.
    rewrite pystr_eqb_eq. tauto. }
  unfold redundant, sub_line_of. rewrite andb_true_iff, existsb_exists. split.
  - intros [Henable [g [Hin Hm]]]. unfold PyDict.values in Hin.
    apply in_map_iff in Hin. destruct Hin as [[k g'] [E Hin]].
    cbn [snd] in E. subst g'. unfold marked_in in Hm.
    apply andb_true_iff in Hm. destruct Hm as [Hl Hx].
    apply existsb_eqb_In in Hl. apply (Hgroup k g l Hin) in Hl.
    destruct Hl as (Hlits & Hlkv & Hlk).
    apply existsb_exists in Hx. destruct Hx as [x [Hx Ex]].
    apply pystr_eqb_eq in Ex. subst x. apply group_target_In in Hx.
    destruct Hx as [parent (Hp & Hmulti & Hsub)].
    apply (Hgroup k g parent Hin) in Hp. destruct Hp as (Hpits & Hpkv & Hpk).
    split; [exact Henable|]. split; [exact Hlits|]. split; [exact Hlkv|].
    exists parent. repeat split; try assumption. congruence.
  - intros (Henable & Hlits & Hlkv & parent & Hpits & Hpkv & Hpk & Hmulti & Hsub).
    split; [exact Henable|].
    assert (Hkey : In (get_file_path (s l))
                     (PyDict.keys (group_by_file_path (kvjson_items its s) s))).
    { apply (Hk l). apply Hkv. now split. }
    unfold PyDict.keys in Hkey. apply in_map_iff in Hkey.
    destruct Hkey as [[k g] [E Hin]]. cbn [fst] in E. subst k.
    exists g. split.
    + unfold PyDict.values. apply in_map_iff.
      exists (get_file_path (s l), g). now split.
    + unfold marked_in. apply andb_true_iff. split.
      * apply existsb_eqb_In. apply (Hgroup _ g l Hin). tauto.
      * apply existsb_exists. exists (get_src (s l)). split.
        -- apply group_target_In. exists parent. split; [|now split].
           apply (Hgroup _ g parent Hin). tauto.
        -- now apply pystr_eqb_eq.
Qed.

End PreprocessProperties.

(** X17 (what the pre-processing excludes).  [mtool_optimizer_preprocess]
    gives the status EXCLUDED to exactly the KVJSON items of the list whose
    source is a stripped non-empty line of a multi-line KVJSON item of the
    list with the same file path, when the optimizer is enabled; it changes
    nothing else of those objects, and no other object at all. *)
Theorem mtool_optimizer_preprocess_excludes
    (config : Translator.Config) (its : list Translator.loc)
    (s : Translator.store) (l : Translator.loc) :
  let s' := fst (Translator.mtool_optimizer_preprocess config its s) in
  (redundant config its s l -> s' l = set_status EXCLUDED (s l))
  /\ (~ redundant config its s l -> s' l = s l).
Proof.
  intro s'. subst s'. rewrite preprocess_store.
  pose proof (marked_redundant config its s l) as H.
  destruct (Translator.mtool_optimizer_enable config
            && existsb (marked_in s l)
                 (PyDict.values
                    (Translator.group_by_file_path (kvjson_items its s) s))).
  - split; [reflexivity|]. intro Hn. exfalso. apply Hn. now apply H.
  - split; [|reflexivity]. intro Hr. apply H in Hr. discriminate Hr.
Qed.

(** X18 (the pre-processing keeps the multi-line items).  An object whose
    source holds a line feed is left as it is by
    [mtool_optimizer_preprocess]: only single-line items can repeat a line
    of another item. *)
Theorem mtool_optimizer_preprocess_keeps_parents
    (config : Translator.Config) (its : list Translator.loc)
    (s : Translator.store) (l : Translator.loc) :
  is_multiline (s l) = true ->
  fst (Translator.mtool_optimizer_preprocess config its s) l = s l.
Proof.
  intro Hmulti. rewrite preprocess_store.
  pose proof (marked_redundant config its s l) as H.
  destruct (Translator.mtool_optimizer_enable config
            && existsb (marked_in s l)
                 (PyDict.values
                    (Translator.group_by_file_path (kvjson_items its s) s)));
    [|reflexivity].
  exfalso. destruct (proj1 H eq_refl) as (_ & _ & _ & parent & Hsub).
  destruct Hsub as (_ & _ & _ & _ & Hsub).
  apply (sub_lines_no_linefeed _ _ Hsub). now apply count_pos_In.
Qed.

(** ** The post-processing of the MTool optimizer *)

Lemma length_zip_longest {A : Type} (fill : A) (xs : list A) :
  forall ys, length (zip_longest fill xs ys) = Nat.max (length xs) (length ys).
Proof.
  induction xs as [|x xs IH]; intros [|y ys]; cbn [zip_longest length Nat.max];
    try reflexivity.
  - now rewrite length_map.
  - now rewrite IH, Nat.max_0_r.
  - now rewrite IH.
Qed.

Lemma zip_longest_In_fst {A : Type} (fill : A) (xs : list A) (a : A) :
  forall ys, In a xs -> exists b, In (a, b) (zip_longest fill xs ys).
Proof.
  induction xs as [|x xs IH]; intros ys []; destruct ys as [|y ys];
    cbn [zip_longest].
  - subst. exists fill. now left.
  - subst. exists y. now left.
  - destruct (IH [] H) as [b Hb]. exists b. now right.
  - destruct (IH ys H) as [b Hb]. exists b. now right.
Qed.

(** The number of objects synthesized for the list: for each multi-line
    KVJSON item, the longer of its numbers of source and destination
    lines. *)
Lemma expansions_length (its : list Translator.loc) (s : Translator.store) :
  length (flat_map (fun parent => expansion (group_size its s parent) (s parent))
            (kvjson_items its s))
  = list_sum
      (map (fun parent =>
              Nat.max (length (splitlines (get_src (s parent))))
                      (length (splitlines (get_dst (s parent)))))
         (filter (fun item => is_KVJSON (get_file_type (s item))
                              && is_multiline (s item)) its)).
Proof.
  unfold expansion, kvjson_items.
  rewrite (flat_map_filter_if
             (fun item => is_KVJSON (get_file_type (s item)))
             (fun item => is_multiline (s item))
             (fun item => map (synthesized (group_size its s item) (s item))
                            (line_pairs (s item)))).
  rewrite length_flat_map. f_equal. apply map_ext. intro parent.
  rewrite length_map. unfold line_pairs. apply length_zip_longest.
Qed.

(** X19 (the post-processing brings the lines back).  With the optimizer
    enabled, for every item whose source is a line of a multi-line KVJSON
    item of its file (the items the pre-processing excludes),
    [mtool_optimizer_postprocess] appends a new object with that source and
    file path, whose row is the size of the group. *)
Theorem mtool_optimizer_postprocess_restores
    (config : Translator.Config) (its : list Translator.loc)
    (s : Translator.store) (n l parent : Translator.loc) :
  Translator.mtool_optimizer_enable config = true ->
  Forall (fun item => (item < n)%nat) its ->
  sub_line_of its s l parent ->
  exists r,
    (n <= r)%nat
    /\ In r (fst (fst (Translator.mtool_optimizer_postprocess config its s n)))
    /\ let s' := snd (fst (Translator.mtool_optimizer_postprocess config its s n)) in
       get_src (s' r) = get_src (s l)
       /\ get_file_path (s' r) = get_file_path (s l)
       /\ get_row (s' r) = group_size its s parent.
Proof.
  intros Henable Hfresh (Hpits & Hpkv & Hpk & Hmulti & Hsub).
  assert (Hne : its <> []) by (intro E; subst its; destruct Hpits).
  destruct (mtool_optimizer_postprocess_spec config its s n Henable Hne Hfresh)
    as (new & s' & E & Hnew & _ & Hperm).
  rewrite E. cbn [fst snd].
  unfold Translator.sub_lines in Hsub. apply in_map_iff in Hsub.
  destruct Hsub as [line [Hx Hline]]. apply filter_In in Hline.
  destruct Hline as [Hline _].
  destruct (zip_longest_In_fst [] _ line (splitlines (get_dst (s parent))) Hline)
    as [b Hb].
  assert (Hin : In (synthesized (group_size its s parent) (s parent) (line, b))
                  (map s' new)).
  { apply (Permutation_in _ (Permutation_sym Hperm)). apply in_flat_map.
    exists parent. split.
    - unfold kvjson_items. apply filter_In. now split.
    - unfold expansion. rewrite Hmulti. apply in_map. exact Hb. }
  apply in_map_iff in Hin. destruct Hin as [r [Er Hr]].
  exists r. split; [|split].
  - rewrite Hnew in Hr. apply in_seq in Hr. lia.
  - apply in_or_app. now right.
  - rewrite Er. cbn. repeat split; [exact Hx|exact Hpk].
Qed.

(** X20 (how many objects the post-processing appends).  With the optimizer
    enabled, the list after [mtool_optimizer_postprocess] is longer by the
    sum, over the multi-line KVJSON items of the list, of the larger of the
    numbers of lines of the source and of the translation. *)
Theorem mtool_optimizer_postprocess_count
    (config : Translator.Config) (its : list Translator.loc)
    (s : Translator.store) (n : Translator.loc) :
  Translator.mtool_optimizer_enable config = true ->
  Forall (fun item => (item < n)%nat) its ->
  length (fst (fst (Translator.mtool_optimizer_postprocess config its s n)))
  = (length its
     + list_sum
         (map (fun parent =>
                 Nat.max (length (splitlines (get_src (s parent))))
                         (length (splitlines (get_dst (s parent)))))
            (filter (fun item => is_KVJSON (get_file_type (s item))
                                 && is_multiline (s item)) its)))%nat.
Proof.
  intros Henable Hfresh. destruct its as [|x its]; [reflexivity|].
  assert (Hne : x :: its <> []) by discriminate.
  destruct (mtool_optimizer_postprocess_spec config _ s n Henable Hne Hfresh)
    as (new & s' & E & _ & _ & Hperm).
  rewrite E. cbn [fst]. rewrite length_app. f_equal.
  rewrite <- (length_map s' new), (Permutation_length Hperm).
  apply expansions_length.
Qed.

(** ** The callback of a finished task *)

Section CallbackMore.

Import Translator.

(** The dictionary [new] when the counters and the usage are integers. *)
Lemma new_extras_ints (now : float) (extras0 result : PyDict.dict pyval)
    (row_count input_tokens output_tokens : Z)
    (line total_tokens total_output_tokens : Z) (start_time : float) :
  PyDict.get result (lit "row_count") = Some (VInt row_count) ->
  PyDict.get result (lit "input_tokens") = Some (VInt input_tokens) ->
  PyDict.get result (lit "output_tokens") = Some (VInt output_tokens) ->
  PyDict.get_default extras0 (lit "line") (VInt 0) = VInt line ->
  PyDict.get_default extras0 (lit "total_tokens") (VInt 0) = VInt total_tokens ->
  PyDict.get_default extras0 (lit "total_output_tokens") (VInt 0)
    = VInt total_output_tokens ->
  PyDict.get extras0 (lit "start_time") = Some (VFloat start_time) ->
  new_extras now extras0 result
  = Ok [ (lit "start_time", VFloat start_time);
         (lit "total_line", PyDict.get_default extras0 (lit "total_line") (VInt 0));
         (lit "line", VInt (line + row_count));
         (lit "total_tokens", VInt (total_tokens + input_tokens + output_tokens));
         (lit "total_output_tokens", VInt (total_output_tokens + output_tokens));
         (lit "time", VFloat (PrimFloat.sub now start_time)) ].
Proof.
  intros Hr Hi Ho Hline Htok Hout Hstart. unfold new_extras.
  rewrite Hline, Htok, Hout.
  rewrite !(@get_default_some _ _ _ _ (VInt 0) Hr),
    !(@get_default_some _ _ _ _ (VInt 0) Hi),
    !(@get_default_some _ _ _ _ (VInt 0) Ho),
    !(@get_default_some _ _ _ _ (VInt 0) Hstart).
  cbn [py_add py_sub bind]. reflexivity.
Qed.

(** The keys of [new], whatever the values. *)
Lemma new_extras_keys (now : float) (extras0 result new : PyDict.dict pyval) :
  new_extras now extras0 result = Ok new ->
  PyDict.keys new
  = [ lit "start_time"; lit "total_line"; lit "line"; lit "total_tokens";
      lit "total_output_tokens"; lit "time" ].
Proof.
  unfold new_extras. intro H.
  destruct (py_add (PyDict.get_default extras0 (lit "line") (VInt 0))
              (PyDict.get_default result (lit "row_count") (VInt 0)))
    as [v1|]; [|discriminate H]. cbn [bind] in H.
  destruct (py_add (PyDict.get_default extras0 (lit "total_tokens") (VInt 0))
              (PyDict.get_default result (lit "input_tokens") (VInt 0)))
    as [v2|]; [|discriminate H]. cbn [bind] in H.
  destruct (py_add v2 (PyDict.get_default result (lit "output_tokens") (VInt 0)))
    as [v3|]; [|discriminate H]. cbn [bind] in H.
  destruct (py_add (PyDict.get_default extras0 (lit "total_output_tokens") (VInt 0))
              (PyDict.get_default result (lit "output_tokens") (VInt 0)))
    as [v4|]; [|discriminate H]. cbn [bind] in H.
  destruct (py_sub (VFloat now)
              (PyDict.get_default extras0 (lit "start_time") (VInt 0)))
    as [v5|]; [|discriminate H]. cbn [bind] in H.
  injection H as <-. reflexivity.
Qed.

End CallbackMore.

(** X21 (the callback is all or nothing).  [task_done_callback] never
    touches the items, their objects, the two status flags or what was
    written.  Either it changes nothing of the progress (the future raised,
    gave no dictionary, gave an empty one, or the arithmetic raised), or it
    replaces [extras] by a dictionary of exactly the six progress keys,
    copies it to the project, sets the project status to TRANSLATING,
    requests a save to the output folder and emits one TRANSLATION_UPDATE
    event carrying the new [extras]. *)
Theorem task_done_callback_all_or_nothing
    (config : Translator.Config) (now : float) (future : Translator.Future)
    (st : Translator.State) :
  let st' := Translator.task_done_callback config now future st in
  Translator.items st' = Translator.items st
  /\ Translator.heap st' = Translator.heap st
  /\ Translator.next st' = Translator.next st
  /\ Translator.written st' = Translator.written st
  /\ Translator.translating st' = Translator.translating st
  /\ Translator.WORK_STATUS st' = Translator.WORK_STATUS st
  /\ ((Translator.extras st' = Translator.extras st
       /\ Translator.project_extras st' = Translator.project_extras st
       /\ Translator.project_status st' = Translator.project_status st
       /\ Translator.save_to_file_require st' = Translator.save_to_file_require st
       /\ Translator.emitted st' = Translator.emitted st)
      \/ (PyDict.keys (Translator.extras st')
          = [ lit "start_time"; lit "total_line"; lit "line";
              lit "total_tokens"; lit "total_output_tokens"; lit "time" ]
          /\ Translator.project_extras st' = Translator.extras st'
          /\ Translator.project_status st' = TRANSLATING
          /\ Translator.save_to_file_require st'
             = Some (Translator.output_folder config)
          /\ Translator.emitted st'
             = Translator.emitted st
               ++ [Translator.TRANSLATION_UPDATE (Translator.extras st')]
          /\ Translator.errors_logged st' = Translator.errors_logged st)).
Proof.
  intro st'. subst st'. unfold Translator.task_done_callback.
  destruct future as [e| |result].
  - cbn. repeat split; try reflexivity. left. repeat split.
  - repeat split; try reflexivity. left. repeat split.
  - destruct (len result =? 0).
    + repeat split; try reflexivity. left. repeat split.
    + destruct (Translator.new_extras now (Translator.extras st) result)
        as [new|e] eqn:E.
      * cbn. repeat split; try reflexivity. right.
        split; [exact (new_extras_keys _ _ _ _ E)|]. repeat split.
      * cbn. repeat split; try reflexivity. left. repeat split.
Qed.

(** X22 (the counters do not depend on the order of the callbacks).  Two
    tasks that report integer usage, finishing in either order, leave the
    same [line], [total_tokens] and [total_output_tokens]: the sums of what
    was there and of what both report. *)
Theorem task_done_callback_commutes
    (config : Translator.Config) (now1 now2 now3 now4 : float)
    (result1 result2 : PyDict.dict pyval) (st : Translator.State)
    (row_count1 input_tokens1 output_tokens1 : Z)
    (row_count2 input_tokens2 output_tokens2 : Z)
    (line total_tokens total_output_tokens : Z) (start_time : float) :
  result1 <> [] -> result2 <> [] ->
  PyDict.get result1 (lit "row_count") = Some (VInt row_count1) ->
  PyDict.get result1 (lit "input_tokens") = Some (VInt input_tokens1) ->
  PyDict.get result1 (lit "output_tokens") = Some (VInt output_tokens1) ->
  PyDict.get result2 (lit "row_count") = Some (VInt row_count2) ->
  PyDict.get result2 (lit "input_tokens") = Some (VInt input_tokens2) ->
  PyDict.get result2 (lit "output_tokens") = Some (VInt output_tokens2) ->
  PyDict.get_default (Translator.extras st) (lit "line") (VInt 0) = VInt line ->
  PyDict.get_default (Translator.extras st) (lit "total_tokens") (VInt 0)
    = VInt total_tokens ->
  PyDict.get_default (Translator.extras st) (lit "total_output_tokens") (VInt 0)
    = VInt total_output_tokens ->
  PyDict.get (Translator.extras st) (lit "start_time") = Some (VFloat start_time) ->
  let one_two :=
    Translator.task_done_callback config now2 (Translator.FutureDict result2)
      (Translator.task_done_callback config now1 (Translator.FutureDict result1) st) in
  let two_one :=
    Translator.task_done_callback config now4 (Translator.FutureDict result1)
      (Translator.task_done_callback config now3 (Translator.FutureDict result2) st) in
  PyDict.get (Translator.extras one_two) (lit "line")
    = Some (VInt (line + row_count1 + row_count2))
  /\ PyDict.get (Translator.extras one_two) (lit "total_tokens")
     = Some (VInt (total_tokens + input_tokens1 + output_tokens1
                   + input_tokens2 + output_tokens2))
  /\ PyDict.get (Translator.extras one_two) (lit "total_output_tokens")
     = Some (VInt (total_output_tokens + output_tokens1 + output_tokens2))
  /\ PyDict.get (Translator.extras two_one) (lit "line")
     = PyDict.get (Translator.extras one_two) (lit "line")
  /\ PyDict.get (Translator.extras two_one) (lit "total_tokens")
     = PyDict.get (Translator.extras one_two) (lit "total_tokens")
  /\ PyDict.get (Translator.extras two_one) (lit "total_output_tokens")
     = PyDict.get (Translator.extras one_two) (lit "total_output_tokens").
Proof.
  intros Hne1 Hne2 Hr1 Hi1 Ho1 Hr2 Hi2 Ho2 Hline Htok Hout Hstart one_two two_one.
  assert (Hlen : forall r : PyDict.dict pyval, r <> [] -> (len r =? 0) = false).
  { intros r H. apply Z.eqb_neq. intro E. apply H. now apply len_zero_nil. }
  assert (Hstep : forall now result a i o l t u st0,
             result <> [] ->
             PyDict.get result (lit "row_count") = Some (VInt a) ->
             PyDict.get result (lit "input_tokens") = Some (VInt i) ->
             PyDict.get result (lit "output_tokens") = Some (VInt o) ->
             PyDict.get_default (Translator.extras st0) (lit "line") (VInt 0)
               = VInt l ->
             PyDict.get_default (Translator.extras st0) (lit "total_tokens") (VInt 0)
               = VInt t ->
             PyDict.get_default (Translator.extras st0) (lit "total_output_tokens")
               (VInt 0) = VInt u ->
             PyDict.get (Translator.extras st0) (lit "start_time")
               = Some (VFloat start_time) ->
             let st1 := Translator.task_done_callback config now
                          (Translator.FutureDict result) st0 in
             PyDict.get (Translator.extras st1) (lit "line") = Some (VInt (l + a))
             /\ PyDict.get (Translator.extras st1) (lit "total_tokens")
                = Some (VInt (t + i + o))
             /\ PyDict.get (Translator.extras st1) (lit "total_output_tokens")
                = Some (VInt (u + o))
             /\ PyDict.get (Translator.extras st1) (lit "start_time")
                = Some (VFloat start_time)).
  { intros now result a i o l t u st0 Hne Hr Hi Ho Hl Ht Hu Hs st1. subst st1.
    unfold Translator.task_done_callback. rewrite (Hlen result Hne).
    rewrite (new_extras_ints now _ _ _ _ _ _ _ _ _ Hr Hi Ho Hl Ht Hu Hs).
    cbn [Translator.extras]. repeat split. }
  assert (Hget : forall (d : PyDict.dict pyval) k v,
             PyDict.get d k = Some v -> PyDict.get_default d k (VInt 0) = v).
  { intros d k v H. unfold PyDict.get_default. now rewrite H. }
  destruct (Hstep now1 result1 _ _ _ _ _ _ st Hne1 Hr1 Hi1 Ho1 Hline Htok Hout Hstart)
    as (A1 & A2 & A3 & A4).
  destruct (Hstep now3 result2 _ _ _ _ _ _ st Hne2 Hr2 Hi2 Ho2 Hline Htok Hout Hstart)
    as (B1 & B2 & B3 & B4).
  destruct (Hstep now2 result2 _ _ _ _ _ _ _ Hne2 Hr2 Hi2 Ho2
              (Hget _ _ _ A1) (Hget _ _ _ A2) (Hget _ _ _ A3) A4)
    as (C1 & C2 & C3 & _).
  destruct (Hstep now4 result1 _ _ _ _ _ _ _ Hne1 Hr1 Hi1 Ho1
              (Hget _ _ _ B1) (Hget _ _ _ B2) (Hget _ _ _ B3) B4)
    as (D1 & D2 & D3 & _).
  subst one_two two_one.
  split; [exact C1|]. split; [rewrite C2; do 2 f_equal; lia|].
  split; [exact C3|].
  rewrite C1, C2, C3, D1, D2, D3.
  repeat split; do 2 f_equal; lia.
Qed.

(** ** The round loop *)

Section RoundsMore.

Import Translator.

Variable run_tasks : Z -> Config -> State -> option exn * State.

Lemma range_last (n : Z) : 0 <= n -> range (n + 1) = range n ++ [n].
Proof.
  intro H. unfold range. replace (Z.to_nat (n + 1)) with (S (Z.to_nat n)) by lia.
  rewrite seq_S, map_app. cbn [map Nat.add]. now rewrite Z2Nat.id.
Qed.

Lemma count_by_status_nonneg (its : list loc) (s : store)
    (status : TranslationStatus) :
  0 <= get_item_count_by_status its s status.
Proof.
  unfold get_item_count_by_status, CacheManager.get_item_count_by_status.
  apply len_nonneg.
Qed.

(** Line 220 below 2^53: a third of the threshold, truncated, and at least
    1; nothing else of the configuration changes. *)
Lemma shrink_token_threshold_small (config : Config) :
  Z.abs (token_threshold config) < 2 ^ 53 ->
  shrink_token_threshold config
  = Ok (mkConfig (source_language config) (target_language config)
          (mtool_optimizer_enable config) (max_round config)
          (Z.max 1 (token_threshold config ÷ 3))
          (preceding_lines_threshold config) (output_folder config)
          (glossary_enable config) (auto_glossary_enable config)).
Proof.
  intro H. unfold shrink_token_threshold.
  destruct (truediv_small (token_threshold config) 3 H ltac:(reflexivity))
    as [x [E Hx]].
  rewrite E. cbn [bind]. now rewrite Hx.
Qed.

(** Line 220 raises nothing but [OverflowError], and only from 2^53 on. *)
Lemma shrink_token_threshold_raises (config : Config) (e : exn) :
  shrink_token_threshold config = Raise e ->
  e = OverflowError /\ 2 ^ 53 <= Z.abs (token_threshold config).
Proof.
  intro H. split.
  - unfold shrink_token_threshold in H.
    destruct (truediv (token_threshold config) 3) as [x|e'] eqn:E;
      cbn [bind] in H; [discriminate H|].
    injection H as <-. exact (truediv_raises _ _ _ E).
  - destruct (Z.lt_ge_cases (Z.abs (token_threshold config)) (2 ^ 53))
      as [Hs|Hs]; [|exact Hs].
    rewrite (shrink_token_threshold_small config Hs) in H. discriminate H.
Qed.

(** What line 220 keeps, whenever it returns. *)
Lemma shrink_token_threshold_keeps (config config1 : Config) :
  shrink_token_threshold config = Ok config1 ->
  source_language config1 = source_language config
  /\ target_language config1 = target_language config
  /\ mtool_optimizer_enable config1 = mtool_optimizer_enable config
  /\ max_round config1 = max_round config
  /\ preceding_lines_threshold config1 = preceding_lines_threshold config
  /\ output_folder config1 = output_folder config
  /\ glossary_enable config1 = glossary_enable config
  /\ auto_glossary_enable config1 = auto_glossary_enable config
  /\ 1 <= token_threshold config1
  /\ (Z.abs (token_threshold config) < 2 ^ 53 ->
      token_threshold config1 = Z.max 1 (token_threshold config ÷ 3)).
Proof.
  intro H.
  assert (Hsmall : Z.abs (token_threshold config) < 2 ^ 53 ->
                   token_threshold config1 = Z.max 1 (token_threshold config ÷ 3)).
  { intro Hs. rewrite (shrink_token_threshold_small config Hs) in H.
    injection H as <-. reflexivity. }
  unfold shrink_token_threshold in H.
  destruct (truediv (token_threshold config) 3) as [x|e]; cbn [bind] in H;
    [|discriminate H].
  injection H as <-. cbn. repeat split; try lia. exact Hsmall.
Qed.

(** The configuration of a round: that of the round before, with the
    threshold shrunk from the second round on. *)
Lemma round_config_keeps (r : Z) (config config1 : Config) :
  (if 0 <? r then shrink_token_threshold config else Ok config) = Ok config1 ->
  max_round config1 = max_round config
  /\ (Z.abs (token_threshold config) < 2 ^ 53 ->
      Z.abs (token_threshold config1) < 2 ^ 53).
Proof.
  destruct (0 <? r); intro H.
  - destruct (shrink_token_threshold_keeps config config1 H)
      as (_ & _ & _ & Hmax & _ & _ & _ & _ & _ & Hs).
    split; [exact Hmax|]. intro Hsmall. rewrite (Hs Hsmall).
    pose proof (Z.quot_lt_upper_bound (Z.abs (token_threshold config)) 3 (2 ^ 53)).
    Z.to_euclidean_division_equations. lia.
  - injection H as <-. split; [reflexivity|auto].
Qed.

(** How the loop is left, when its last round is [max_round]. *)
Lemma rounds_exit (status : TranslationStatus) (rs : list Z) (last_round : Z) :
  forall (config : Config) (st : State),
    last_round = max_round config ->
    match rounds run_tasks status (rs ++ [last_round]) config st with
    | (Returned, _, st1) =>
        translating st1 = false /\ WORK_STATUS st1 = TaskStatus.IDLE
    | (Completed, _, st1) =>
        get_item_count_by_status (items st1) (heap st1) UNTRANSLATED = 0
    | (Exhausted, _, st1) =>
        0 < get_item_count_by_status (items st1) (heap st1) UNTRANSLATED
    | (RangeEnded, _, _) => False
    | (Raised e, _, _) =>
        (e = OverflowError /\ 2 ^ 53 <= Z.abs (token_threshold config))
        \/ exists r c s, fst (run_tasks r c s) = Some e
    end.
Proof.
  induction rs as [|r rs IH]; intros config st Hlast; cbn [app rounds].
  - destruct (TaskStatus.eqb (WORK_STATUS st) TaskStatus.STOPPING);
      [now split|].
    pose proof (count_by_status_nonneg (items st) (heap st) UNTRANSLATED) as H0.
    destruct (get_item_count_by_status (items st) (heap st) UNTRANSLATED =? 0)
      eqn:E0; [now apply Z.eqb_eq|].
    apply Z.eqb_neq in E0.
    assert (E1 : (0 <? get_item_count_by_status (items st) (heap st) UNTRANSLATED)
                 = true) by (apply Z.ltb_lt; lia).
    rewrite E1, Hlast, Z.eqb_refl. cbn [andb]. lia.
  - destruct (TaskStatus.eqb (WORK_STATUS st) TaskStatus.STOPPING);
      [now split|].
    destruct (get_item_count_by_status (items st) (heap st) UNTRANSLATED =? 0)
      eqn:E0; [now apply Z.eqb_eq|].
    destruct ((0 <? get_item_count_by_status (items st) (heap st) UNTRANSLATED)
              && (r =? max_round config)) eqn:E1.
    { apply andb_true_iff in E1. now apply Z.ltb_lt. }
    destruct (if 0 <? r then shrink_token_threshold config else Ok config)
      as [config1|e] eqn:Econfig.
    2:{ left. destruct (0 <? r); [|discriminate Econfig].
        exact (shrink_token_threshold_raises config e Econfig). }
    destruct (round_config_keeps r config config1 Econfig) as [Hmax Hsmall].
    destruct (run_tasks r config1 _) as [[e|] st2] eqn:Erun.
    { right. do 3 eexists. rewrite Erun. reflexivity. }
    specialize (IH config1 st2 ltac:(congruence)).
    destruct (rounds run_tasks status (rs ++ [last_round]) config1 st2)
      as [[[| | | |e] c] s]; try exact IH.
    destruct IH as [[He Hbig]|Hbody]; [left|right; exact Hbody].
    split; [exact He|].
    destruct (Z.lt_ge_cases (Z.abs (token_threshold config)) (2 ^ 53))
      as [Hs|Hs]; [|exact Hs].
    specialize (Hsmall Hs). lia.
Qed.

(** A loop left by [Returned] has reset the two flags. *)
Lemma rounds_returned (status : TranslationStatus) (rs : list Z) :
  forall (config config1 : Config) (st st1 : State),
    rounds run_tasks status rs config st = (Returned, config1, st1) ->
    translating st1 = false /\ WORK_STATUS st1 = TaskStatus.IDLE.
Proof.
  induction rs as [|r rs IH]; intros config config1 st st1 H; cbn [rounds] in H;
    [discriminate H|].
  destruct (TaskStatus.eqb (WORK_STATUS st) TaskStatus.STOPPING).
  { injection H as _ <-. now split. }
  destruct (get_item_count_by_status (items st) (heap st) UNTRANSLATED =? 0);
    [discriminate H|].
  destruct ((0 <? get_item_count_by_status (items st) (heap st) UNTRANSLATED)
            && (r =? max_round config)); [discriminate H|].
  destruct (if 0 <? r then shrink_token_threshold config else Ok config)
    as [config2|e]; [|discriminate H].
  destruct (run_tasks r config2 _) as [[e|] st2]; [discriminate H|].
  eapply IH. exact H.
Qed.

(** The configuration the loop leaves differs from the one it got in the
    token threshold only, which falls but stays positive. *)
Lemma rounds_config (status : TranslationStatus) (rs : list Z) :
  forall (config : Config) (st : State),
    let config1 := snd (fst (rounds run_tasks status rs config st)) in
    source_language config1 = source_language config
    /\ target_language config1 = target_language config
    /\ mtool_optimizer_enable config1 = mtool_optimizer_enable config
    /\ max_round config1 = max_round config
    /\ preceding_lines_threshold config1 = preceding_lines_threshold config
    /\ output_folder config1 = output_folder config
    /\ glossary_enable config1 = glossary_enable config
    /\ auto_glossary_enable config1 = auto_glossary_enable config
    /\ (1 <= token_threshold config < 2 ^ 53 ->
        1 <= token_threshold config1 <= token_threshold config).
Proof.
  induction rs as [|r rs IH]; intros config st; cbn [rounds].
  - cbn. repeat split; auto; lia.
  - destruct (TaskStatus.eqb (WORK_STATUS st) TaskStatus.STOPPING).
    { cbn. repeat split; auto; lia. }
    destruct (get_item_count_by_status (items st) (heap st) UNTRANSLATED =? 0).
    { cbn. repeat split; auto; lia. }
    destruct ((0 <? get_item_count_by_status (items st) (heap st) UNTRANSLATED)
              && (r =? max_round config)).
    { cbn. repeat split; auto; lia. }
    destruct (if 0 <? r then shrink_token_threshold config else Ok config)
      as [config2|e] eqn:Econfig.
    2:{ cbn. repeat split; auto; lia. }
    assert (Hkeep :
              source_language config2 = source_language config
              /\ target_language config2 = target_language config
              /\ mtool_optimizer_enable config2 = mtool_optimizer_enable config
              /\ max_round config2 = max_round config
              /\ preceding_lines_threshold config2 = preceding_lines_threshold config
              /\ output_folder config2 = output_folder config
              /\ glossary_enable config2 = glossary_enable config
              /\ auto_glossary_enable config2 = auto_glossary_enable config
              /\ (1 <= token_threshold config < 2 ^ 53 ->
                  1 <= token_threshold config2 <= token_threshold config)).
    { destruct (0 <? r).
      - destruct (shrink_token_threshold_keeps config config2 Econfig)
          as (H1 & H2 & H3 & H4 & H5 & H6 & H7 & H8 & H9 & H10).
        repeat split; try assumption.
        rewrite H10 by lia.
        assert (token_threshold config ÷ 3 <= token_threshold config).
        { apply Z.quot_le_upper_bound; lia. }
        lia.
      - injection Econfig as <-. repeat split; auto; lia. }
    destruct Hkeep as (K1 & K2 & K3 & K4 & K5 & K6 & K7 & K8 & K9).
    destruct (run_tasks r config2 _) as [[e|] st2].
    { cbn. do 8 (split; [assumption|]). exact K9. }
    destruct (IH config2 st2) as (H1 & H2 & H3 & H4 & H5 & H6 & H7 & H8 & H9).
    cbv zeta. do 8 (split; [congruence|]).
    intro H. specialize (K9 H). specialize (H9 ltac:(lia)). lia.
Qed.

End RoundsMore.

(** X23 (how the round loop ends).  With a non-negative [max_round], the
    loop of [translation_start_target] over [range(max_round + 1)] never
    runs out of rounds: it is left by the stop request, having reset
    [translating] and [WORK_STATUS], or by the first break with no
    UNTRANSLATED item left, or by the second break, in round [max_round],
    with UNTRANSLATED items left, or by an exception: one that the body of
    a round raised, or the [OverflowError] of line 220, which needs a token
    threshold of 2^53 or more in absolute value. *)
Theorem rounds_exit_cases
    (run_tasks : Z -> Translator.Config -> Translator.State
                 -> option exn * Translator.State)
    (status : TranslationStatus) (config : Translator.Config)
    (st : Translator.State) :
  0 <= Translator.max_round config ->
  match Translator.rounds run_tasks status
          (Translator.range (Translator.max_round config + 1)) config st with
  | (Translator.Returned, _, st1) =>
      Translator.translating st1 = false
      /\ Translator.WORK_STATUS st1 = TaskStatus.IDLE
  | (Translator.Completed, _, st1) =>
      Translator.get_item_count_by_status (Translator.items st1)
        (Translator.heap st1) UNTRANSLATED = 0
  | (Translator.Exhausted, _, st1) =>
      0 < Translator.get_item_count_by_status (Translator.items st1)
            (Translator.heap st1) UNTRANSLATED
  | (Translator.RangeEnded, _, _) => False
  | (Translator.Raised e, _, _) =>
      (e = OverflowError
       /\ 2 ^ 53 <= Z.abs (Translator.token_threshold config))
      \/ exists r c s, fst (run_tasks r c s) = Some e
  end.
Proof.
  intro H. rewrite (range_last _ H). now apply rounds_exit.
Qed.

(** X24 (the translator ends idle, unless an exception ends the loop).
    When the round loop is left by the stop request, by a break or by
    running out of rounds, what follows of [translation_start_target] ends
    with the flag [translating] off and [WORK_STATUS] IDLE.  When an
    exception ends the loop (the body of a round, or line 220), nothing
    more is run: the state stays as the exception found it, the flags are
    not reset and nothing is written.  (The return on a failure to read the
    items comes before the loop and resets neither; the result checker, the
    file manager and the event bus, called by lines 270 to 288 and not among
    the sources, are taken to return.) *)
Theorem translation_start_target_ends_idle
    (run_tasks : Z -> Translator.Config -> Translator.State
                 -> option exn * Translator.State)
    (status : TranslationStatus) (config : Translator.Config)
    (st : Translator.State) :
  let st' := Translator.translation_start_target run_tasks status config st in
  match Translator.rounds run_tasks status
          (Translator.range (Translator.max_round config + 1)) config st with
  | (Translator.Raised _, _, st1) => st' = st1
  | _ =>
      Translator.translating st' = false
      /\ Translator.WORK_STATUS st' = TaskStatus.IDLE
  end.
Proof.
  intro st'. subst st'. unfold Translator.translation_start_target.
  destruct (Translator.rounds run_tasks status
              (Translator.range (Translator.max_round config + 1)) config st)
    as [[exit config1] st1] eqn:E.
  assert (Hf : Translator.translating (Translator.finalize config1 st1) = false
               /\ Translator.WORK_STATUS (Translator.finalize config1 st1)
                  = TaskStatus.IDLE).
  { unfold Translator.finalize.
    destruct (Translator.mtool_optimizer_postprocess config1
                (Translator.items st1) (Translator.heap st1) (Translator.next st1))
      as [[its s] n]. now split. }
  destruct exit; try exact Hf; [|reflexivity].
  exact (rounds_returned run_tasks status _ _ _ _ _ E).
Qed.

(** X25 (the token threshold across the rounds).  The statements of the
    round loop write nothing of the configuration but the token threshold
    (the tasks are handed the configuration to read), and a threshold of at
    least 1 and below 2^53 never rises and never falls below 1, whatever
    the number of rounds and however the loop is left. *)
Theorem rounds_token_threshold
    (run_tasks : Z -> Translator.Config -> Translator.State
                 -> option exn * Translator.State)
    (status : TranslationStatus) (remaining : list Z)
    (config : Translator.Config) (st : Translator.State) :
  let config1 :=
    snd (fst (Translator.rounds run_tasks status remaining config st)) in
  Translator.max_round config1 = Translator.max_round config
  /\ Translator.source_language config1 = Translator.source_language config
  /\ Translator.target_language config1 = Translator.target_language config
  /\ Translator.mtool_optimizer_enable config1
     = Translator.mtool_optimizer_enable config
  /\ Translator.preceding_lines_threshold config1
     = Translator.preceding_lines_threshold config
  /\ Translator.output_folder config1 = Translator.output_folder config
  /\ (1 <= Translator.token_threshold config < 2 ^ 53 ->
      1 <= Translator.token_threshold config1
        <= Translator.token_threshold config).
Proof.
  intro config1. subst config1.
  destruct (rounds_config run_tasks status remaining config st)
    as (H1 & H2 & H3 & H4 & H5 & H6 & _ & _ & H9).
  repeat split; try assumption; now apply H9.
Qed.

(** ** The manual export *)

Section ManualExport.

Import Translator.

Lemma copy_step_allocates :
  allocates (fun item n => (item < n)%nat)
    (fun item s => [copy_item (s item)])
    (fun acc item =>
       let '(copies, s, n) := acc in
       (copies ++ [n], update s n (copy_item (s item)), S n)).
Proof.
  intros item its s n Hitem. eexists. cbn [length seq].
  rewrite Nat.add_1_r. split; [reflexivity|]. split.
  - intros l Hl. unfold update.
    destruct (Nat.eqb l n) eqn:E; [|reflexivity].
    apply Nat.eqb_eq in E. lia.
  - cbn [map]. unfold update. now rewrite Nat.eqb_refl.
Qed.

(** [copy_items] allocates one object per item, equal to the item, and
    leaves the objects that existed as they are. *)
Lemma copy_items_spec (its : list loc) (s : store) (n : loc) :
  Forall (fun item => (item < n)%nat) its ->
  exists s1,
    copy_items its s n = (seq n (length its), s1, (n + length its)%nat)
    /\ agree_below n s s1
    /\ map s1 (seq n (length its)) = map s its.
Proof.
  intro Hfresh.
  destruct (allocates_fold _ _ _ copy_step_allocates
              (stable_self (fun c => [copy_item c])) its [] s n Hfresh)
    as [s1 (E & A & M)].
  cbv beta in E, M. rewrite flat_map_singleton in E, M.
  rewrite length_map in E, M. cbn [app] in E.
  exists s1. split; [exact E|]. split; [exact A|]. exact M.
Qed.

(** The post-processing, enabled or not, appends to the list and leaves
    the objects that existed as they are. *)
Lemma mtool_optimizer_postprocess_frame (config : Config) (its : list loc)
    (s : store) (n : loc) :
  Forall (fun item => (item < n)%nat) its ->
  exists new s' n',
    mtool_optimizer_postprocess config its s n = (its ++ new, s', n')
    /\ agree_below n s s'.
Proof.
  intro Hfresh.
  destruct (mtool_optimizer_enable config) eqn:Henable.
  - destruct its as [|x its].
    + exists [], s, n. split; [reflexivity|apply agree_below_refl].
    + assert (Hne : x :: its <> []) by discriminate.
      destruct (mtool_optimizer_postprocess_spec config _ s n Henable Hne Hfresh)
        as (new & s' & E & _ & A & _).
      exists new, s', (n + length new)%nat. now split.
  - exists [], s, n. unfold mtool_optimizer_postprocess. rewrite Henable.
    rewrite orb_true_r, app_nil_r. split; [reflexivity|apply agree_below_refl].
Qed.

Lemma manual_export_target_spec (config : Config) (st : State) :
  Forall (fun item => (item < next st)%nat) (items st) ->
  let st' := translation_manual_export_target config st in
  items st' = items st
  /\ agree_below (next st) (heap st) (heap st')
  /\ project_status st' = project_status st
  /\ project_extras st' = project_extras st
  /\ extras st' = extras st
  /\ translating st' = translating st
  /\ WORK_STATUS st' = WORK_STATUS st
  /\ save_to_file_require st' = save_to_file_require st
  /\ exists out,
       written st' = written st ++ [out]
       /\ firstn (length (items st)) out = map (heap st) (items st).
Proof.
  intro Hfresh. unfold translation_manual_export_target.
  destruct (copy_items_spec (items st) (heap st) (next st) Hfresh)
    as [s1 (E1 & A1 & M1)].
  rewrite E1.
  set (m := length (items st)) in *. set (n := next st) in *.
  assert (Hcopies : Forall (fun item => (item < n + m)%nat) (seq n m)).
  { apply Forall_forall. intros l Hl. apply in_seq in Hl. lia. }
  destruct (mtool_optimizer_postprocess_frame config (seq n m) s1 (n + m)%nat
              Hcopies) as (new & s' & n' & E2 & A2).
  rewrite E2. cbn.
  repeat split.
  - apply agree_below_trans with (m := (n + m)%nat) (s1 := s1);
      [lia|exact A1|exact A2].
  - eexists. split; [reflexivity|].
    rewrite map_app, firstn_app, length_map, length_seq, Nat.sub_diag.
    cbn [firstn]. rewrite app_nil_r.
    rewrite firstn_all2 by (rewrite length_map, length_seq; lia).
    rewrite <- M1. apply map_ext_in. intros l Hl. apply in_seq in Hl.
    apply A2. lia.
Qed.

End ManualExport.

(** X26 (the manual export works on copies).  Over an item list whose
    references are allocated, [translation_manual_export] leaves the
    manager's item list, every object that existed, the project record,
    [extras] and the flags as they are, even with the optimizer enabled;
    while a translation is running it writes out one list that begins with
    the items as they are at that moment, and otherwise it does nothing. *)
Theorem translation_manual_export_isolated
    (config : Translator.Config) (st : Translator.State) :
  Forall (fun item => (item < Translator.next st)%nat) (Translator.items st) ->
  let st' := Translator.translation_manual_export config st in
  Translator.items st' = Translator.items st
  /\ agree_below (Translator.next st) (Translator.heap st) (Translator.heap st')
  /\ Translator.project_status st' = Translator.project_status st
  /\ Translator.project_extras st' = Translator.project_extras st
  /\ Translator.extras st' = Translator.extras st
  /\ Translator.translating st' = Translator.translating st
  /\ Translator.WORK_STATUS st' = Translator.WORK_STATUS st
  /\ Translator.save_to_file_require st' = Translator.save_to_file_require st
  /\ (Translator.WORK_STATUS st = TaskStatus.TRANSLATING ->
      exists out,
        Translator.written st' = Translator.written st ++ [out]
        /\ firstn (length (Translator.items st)) out
           = map (Translator.heap st) (Translator.items st))
  /\ (Translator.WORK_STATUS st <> TaskStatus.TRANSLATING -> st' = st).
Proof.
  intros Hfresh st'. subst st'. unfold Translator.translation_manual_export.
  destruct (TaskStatus.eqb (Translator.WORK_STATUS st) TaskStatus.TRANSLATING)
    eqn:E.
  - destruct (manual_export_target_spec config st Hfresh)
      as (H1 & H2 & H3 & H4 & H5 & H6 & H7 & H8 & H9).
    do 8 (split; [assumption|]). split; [intros _; exact H9|].
    intro Hn. exfalso. apply Hn.
    destruct (Translator.WORK_STATUS st); try discriminate E; reflexivity.
  - split; [reflexivity|]. split; [apply agree_below_refl|].
    do 6 (split; [reflexivity|]). split; [|reflexivity].
    intro Hw. rewrite Hw in E. discriminate E.
Qed.

(** ** The worker settings *)

(** X27 (the number of workers).  For non-negative settings,
    [initialize_max_workers] returns at least one worker, never changes the
    requests-per-minute threshold, and keeps a positive configured number
    of workers whatever the slots probe answered; with 0 configured, a
    non-empty list of slots gives their number. *)
Theorem initialize_max_workers_positive
    (max_workers rpm_threshold : Z) (response_json : json) :
  0 <= max_workers -> 0 <= rpm_threshold ->
  let r := Translator.initialize_max_workers max_workers rpm_threshold
             response_json in
  1 <= fst r
  /\ snd r = rpm_threshold
  /\ (0 < max_workers -> fst r = max_workers)
  /\ (max_workers = 0 ->
      forall slots, response_json = JList slots -> slots <> [] ->
                    fst r = len slots).
Proof.
  intros Hm Hr r. subst r. unfold Translator.initialize_max_workers.
  destruct (max_workers =? 0) eqn:E0.
  - apply Z.eqb_eq in E0. subst max_workers.
    assert (Hdefault :
              let r := if (0 =? 0) && (rpm_threshold =? 0) then (8, 0)
                       else if (0 <? 0) && (rpm_threshold =? 0)
                            then (0, rpm_threshold)
                       else if (0 =? 0) && (0 <? rpm_threshold)
                            then (8192, rpm_threshold)
                       else (0, rpm_threshold) in
              1 <= fst r /\ snd r = rpm_threshold).
    { cbn [Z.eqb Z.ltb Z.compare andb].
      destruct (rpm_threshold =? 0) eqn:Er.
      - apply Z.eqb_eq in Er. subst. cbn. split; [lia|reflexivity].
      - apply Z.eqb_neq in Er.
        assert (Hp : (0 <? rpm_threshold) = true) by (apply Z.ltb_lt; lia).
        rewrite Hp. cbn. split; [lia|reflexivity]. }
    assert (Hslots : forall slots : list json,
               slots <> [] ->
               let r := if (len slots =? 0) && (rpm_threshold =? 0) then (8, 0)
                        else if (0 <? len slots) && (rpm_threshold =? 0)
                             then (len slots, rpm_threshold)
                        else if (len slots =? 0) && (0 <? rpm_threshold)
                             then (8192, rpm_threshold)
                        else (len slots, rpm_threshold) in
               fst r = len slots /\ snd r = rpm_threshold /\ 1 <= len slots).
    { intros slots Hne.
      assert (Hpos : 0 < len slots).
      { pose proof (len_nonneg slots).
        assert (len slots <> 0) by (intro E; apply Hne; now apply len_zero_nil).
        lia. }
      assert (E1 : (len slots =? 0) = false) by (apply Z.eqb_neq; lia).
      assert (E2 : (0 <? len slots) = true) by (apply Z.ltb_lt; lia).
      rewrite E1, E2. cbn [andb].
      destruct (rpm_threshold =? 0); cbn; repeat split; lia. }
    destruct response_json as [| | | | |slots|];
      try (split; [apply Hdefault|]; split; [apply Hdefault|];
           split; [lia|]; intros _ slots' Hs; discriminate Hs).
    destruct (0 <? len slots) eqn:Epos.
    + assert (Hne : slots <> []).
      { intro E. subst slots. discriminate Epos. }
      destruct (Hslots slots Hne) as (H1 & H2 & H3). cbv zeta in H1, H2.
      split; [rewrite H1; exact H3|]. split; [exact H2|]. split; [lia|].
      intros _ slots' Hs _. injection Hs as <-. exact H1.
    + split; [apply Hdefault|]. split; [apply Hdefault|]. split; [lia|].
      intros _ slots' Hs Hne'. injection Hs as <-. exfalso.
      apply Z.ltb_ge in Epos. pose proof (len_nonneg slots).
      apply Hne'. apply len_zero_nil. lia.
  - assert (E1 : (0 <? max_workers) = true).
    { apply Z.eqb_neq in E0. apply Z.ltb_lt. lia. }
    cbv zeta. rewrite E0, E1. cbn [andb].
    destruct (rpm_threshold =? 0); cbn; repeat split; try lia.
Qed.

(* ================================================================== *)
(** * Worked examples *)

Example strip_example : strip (lit "  a b " ++ [12288%N]) = lit "a b".
Proof. reflexivity. Qed.

Example splitlines_example :
  splitlines [97; 13; 10; 98; 10; 10; 99; 10]%N = [[97]; [98]; []; [99]]%N
  /\ splitlines [] = []
  /\ splitlines [10%N] = [[]].
Proof. repeat split. Qed.

Example of_nat_example : of_nat 0 = lit "0" /\ of_nat 120 = lit "120".
Proof. split; reflexivity. Qed.

Example zip_longest_example :
  zip_longest [] [lit "a"; lit "b"] [lit "x"; lit "y"; lit "z"]
  = [(lit "a", lit "x"); (lit "b", lit "y"); ([], lit "z")].
Proof. reflexivity. Qed.

(** ** The planner *)

(** Three items of ten tokens, the third of another file: two chunks. *)
Example chunk_boundary_by_file :
  let a := example_item "one" "f1" UNTRANSLATED 10 in
  let b := example_item "two" "f1" UNTRANSLATED 10 in
  let c := example_item "three" "f2" UNTRANSLATED 10 in
  CacheManager.generate_item_chunks [a; b; c] 100 3 = Ok ([[a; b]; [c]], [[]; []]).
Proof. reflexivity. Qed.

Example preceding_context :
  CacheManager.generate_item_chunks planned_items 10 5
  = Ok ([ [example_item "Hello." "f1" UNTRANSLATED 10];
          [example_item "World" "f1" UNTRANSLATED 10] ],
        [ []; [example_item "Hello." "f1" UNTRANSLATED 10] ]).
Proof. reflexivity. Qed.

(** The backward walk takes the sentence before the chunk and stops at the
    line without a final mark. *)
Example preceding_walk_stops :
  let first := example_item "First sentence." "f1" TRANSLATED 1 in
  let middle := example_item "Middle without punctuation" "f1" TRANSLATED 1 in
  let trailing := example_item "Trailing line." "f1" TRANSLATED 1 in
  let current := example_item "Current" "f1" UNTRANSLATED 1 in
  CacheManager.generate_preceding_chunks [first; middle; trailing; current]
    [current] 4 0 5
  = Ok [trailing].
Proof. reflexivity. Qed.

(** With a negative threshold the preceding chunks are empty, which is
    more than the threshold allows. *)
Lemma generate_item_chunks_preceding_counterexample :
  exists chunks preceding_chunks pc,
    CacheManager.generate_item_chunks planned_items 10 (-1)
    = Ok (chunks, preceding_chunks)
    /\ In pc preceding_chunks
    /\ ~ len pc <= -1.
Proof.
  exists [ [example_item "Hello." "f1" UNTRANSLATED 10];
           [example_item "World" "f1" UNTRANSLATED 10] ], [ []; [] ], [].
  split; [reflexivity|]. split; [now left|]. cbn. lia.
Qed.

Lemma many_lines_count :
  CacheManager.non_empty_lines (get_src many_lines_item) = 2 ^ 49.
Proof.
  change (get_src many_lines_item)
    with (List.concat (repeat [97; 10]%N (Z.to_nat (2 ^ 49)))).
  rewrite non_empty_lines_repeat. apply Z2Nat.id. apply Z.pow_nonneg. lia.
Qed.

(** At a token threshold of 2^53 + 15 the quotient of line 161 is rounded
    up to 2^49 + 1, one more than [floor(token_threshold / 16)]: a chunk of
    two items holds 2^49 + 1 lines. *)
Lemma generate_item_chunks_bounds_counterexample :
  exists chunks preceding_chunks c,
    CacheManager.generate_item_chunks [many_lines_item; one_line_item]
      (2 ^ 53 + 15) 0 = Ok (chunks, preceding_chunks)
    /\ In c chunks
    /\ 1 < len c
    /\ Z.max 8 ((2 ^ 53 + 15) / 16) < total_lines c.
Proof.
  assert (Hone : CacheManager.non_empty_lines (get_src one_line_item) = 1)
    by reflexivity.
  assert (Hlimit : CacheManager.line_limit (2 ^ 53 + 15) = Ok 562949953421313)
    by (vm_compute; reflexivity).
  exists [[many_lines_item; one_line_item]], [[]],
         [many_lines_item; one_line_item].
  split; [|split; [now left|split; [reflexivity|]]].
  - unfold CacheManager.generate_item_chunks. rewrite Hlimit.
    cbn [bind].
    apply generate_item_chunks_with_pair.
    + reflexivity.
    + reflexivity.
    + reflexivity.
    + rewrite many_lines_count, Hone. vm_compute. discriminate.
    + change (1 + 1 <= 2 ^ 53 + 15). vm_compute. discriminate.
  - unfold total_lines. cbn [map fold_right].
    rewrite many_lines_count, Hone. reflexivity.
Qed.

(** Line 161: the quotient is a binary64 value, rounded from 2^53 on, and
    beyond the range of binary64 the division raises. *)
Example line_limit_of_384 : CacheManager.line_limit 384 = Ok 24.
Proof. reflexivity. Qed.

Example line_limit_floor_of_8 : CacheManager.line_limit (-100) = Ok 8.
Proof. reflexivity. Qed.

Example line_limit_rounded :
  CacheManager.line_limit (2 ^ 53 + 15) = Ok 562949953421313
  /\ Z.max 8 ((2 ^ 53 + 15) / 16) = 562949953421312.
Proof. split; reflexivity. Qed.

Example line_limit_overflow :
  CacheManager.line_limit (10 ^ 400) = Raise OverflowError
  /\ CacheManager.generate_item_chunks planned_items (10 ^ 400) 3
     = Raise OverflowError.
Proof. split; vm_compute; reflexivity. Qed.

Example truediv_beyond_float_range :
  exists x, truediv (10 ^ 309) 16 = Ok x
  /\ truediv (10 ^ 309) 3 = Raise OverflowError.
Proof. eexists. split; vm_compute; reflexivity. Qed.

(** ** The checker *)

Example degradation_detected :
  example_check_line (ResponseChecker.mkChecker [plain_item] EN ZH)
    (lit "Hello there") (Some (lit "hahahahahahahahahahahahahahahahaha"))
    plain_item EN
  = Ok ResponseChecker.LINE_ERROR_DEGRADATION.
Proof. reflexivity. Qed.

Example kana_residue :
  example_check_line (ResponseChecker.mkChecker [plain_item] JA ZH)
    konnichiwa (Some (konnichiwa ++ lit " world")) plain_item JA
  = Ok ResponseChecker.LINE_ERROR_KANA.
Proof. reflexivity. Qed.

Example similarity_gate_ja_zh :
  example_check_line (ResponseChecker.mkChecker [plain_item] JA ZH)
    konnichiwa (Some nihao) plain_item JA
  = Ok ResponseChecker.NONE.
Proof. reflexivity. Qed.

Example copied_source_is_similar :
  example_check_line (ResponseChecker.mkChecker [plain_item] EN ZH)
    (lit "Hello") (Some (lit "Hello")) plain_item EN
  = Ok ResponseChecker.LINE_ERROR_SIMILARITY.
Proof. reflexivity. Qed.

Example line_count_mismatch :
  example_check (ResponseChecker.mkChecker [plain_item; plain_item; plain_item] EN ZH)
    [(lit "0", lit "a"); (lit "1", lit "b"); (lit "2", lit "c")]
    [(lit "0", Some (lit "x")); (lit "1", Some (lit "y"))]
    [(lit "0", plain_item); (lit "1", plain_item); (lit "2", plain_item)] EN
  = Ok [ResponseChecker.FAIL_LINE_COUNT; ResponseChecker.FAIL_LINE_COUNT;
        ResponseChecker.FAIL_LINE_COUNT].
Proof. reflexivity. Qed.

Example single_item_second_retry :
  example_check (ResponseChecker.mkChecker [retried_item] JA ZH)
    [(lit "0", konnichiwa)] [(lit "0", Some konnichiwa)]
    [(lit "0", retried_item)] JA
  = Ok [ResponseChecker.NONE].
Proof. reflexivity. Qed.

(** A null among the translations of a batch of equal length: the per-line
    pass raises. *)
Example null_translation_raises :
  example_check (ResponseChecker.mkChecker [plain_item; plain_item] EN ZH)
    [(lit "0", lit "a"); (lit "1", lit "b")]
    [(lit "0", Some (lit "x")); (lit "1", None)]
    [(lit "0", plain_item); (lit "1", plain_item)] EN
  = Raise AttributeError.
Proof. reflexivity. Qed.

(** The two texts have the same two characters, a Jaccard similarity of 1. *)
Example anagram_similarity :
  TextHelper.check_similarity_by_jaccard (lit "ab") (lit "ba") = 1%float.
Proof. reflexivity. Qed.

Lemma check_line_ignores_similarity_witness :
  example_check_line (ResponseChecker.mkChecker [plain_item] EN ZH)
    (lit "ab") (Some (lit "ba")) plain_item EN
  = Ok ResponseChecker.NONE.
Proof.
  apply (@check_line_ignores_similarity (lit "<PLACEHOLDER>") (fun _ _ => false)
           (fun _ _ => false) (Degradation.search Degradation.ascii_lower) TextHelper.any_hiragana
           TextHelper.any_katakana TextHelper.any_hangeul
           TextHelper.check_similarity_by_jaccard
           (ResponseChecker.mkChecker [plain_item] EN ZH)
           (lit "ab") (lit "ba") plain_item EN).
  - unfold reaches_similarity_rule. repeat split; try reflexivity; discriminate.
  - reflexivity.
  - reflexivity.
  - reflexivity.
  - reflexivity.
Defined.

(** ** The decoder *)

Example decode_line_wise :
  ResponseDecoder.decode example_loads
    (lit "{0:a}" ++ [10%N] ++ lit "{src:x,dst:y,gender:z}" ++ [10%N] ++ lit "{0:b}")
  = ([(lit "0", lit "a"); (lit "1", lit "b")],
     [[(lit "src", lit "x"); (lit "dst", lit "y"); (lit "info", lit "z")]]).
Proof. reflexivity. Qed.

Example decode_fallback :
  ResponseDecoder.decode example_loads (lit "{k:a,m:b}")
  = ([(lit "0", lit "a"); (lit "1", lit "b")], []).
Proof. reflexivity. Qed.

(** ** The translator *)

Example callback_folds_usage :
  Translator.extras
    (Translator.task_done_callback (example_config false 3) 160.5%float
       (Translator.FutureDict example_result)
       (example_state [] (fun _ => plain_item) 0 example_extras))
  = [ (lit "start_time", VFloat 100%float); (lit "total_line", VInt 10);
      (lit "line", VInt 3); (lit "total_tokens", VInt 12);
      (lit "total_output_tokens", VInt 10); (lit "time", VFloat 60.5%float) ].
Proof. reflexivity. Qed.

(** A result whose count is not a number: the addition raises, the error
    is logged and [extras] is not replaced. *)
Example callback_swallows_type_error :
  let st := example_state [] (fun _ => plain_item) 0 example_extras in
  let st' :=
    Translator.task_done_callback (example_config false 3) 160.5%float
      (Translator.FutureDict [(lit "row_count", VOther)]) st in
  Translator.extras st' = Translator.extras st
  /\ Translator.errors_logged st' = 1%nat.
Proof. split; reflexivity. Qed.

Lemma task_done_callback_extras_witness :
  PyDict.get
    (Translator.extras
       (Translator.task_done_callback (example_config false 3) 160.5%float
          (Translator.FutureDict example_result)
          (example_state [] (fun _ => plain_item) 0 example_extras)))
    (lit "line")
  = Some (VInt (1 + 2)).
Proof.
  refine (proj1 (@task_done_callback_extras (example_config false 3) 160.5%float
                   example_result
                   (example_state [] (fun _ => plain_item) 0 example_extras)
                   2 3 4 1 5 6 100%float _ _ _ _ _ _ _ _ _ _ _));
    try reflexivity; try lia; discriminate.
Defined.

Example postprocess_expands :
  let '(its, s, n) :=
    Translator.mtool_optimizer_postprocess (example_config true 3) [0; 1]%nat
      example_heap 2%nat in
  its = [0; 1; 2; 3; 4]%nat /\ n = 5%nat
  /\ map s [2; 3; 4]%nat
     = [ mkCacheItem (lit "a") (lit "x") TRANSLATED (lit "f1") KVJSON 2 0 false 2 [];
         mkCacheItem (lit "b") (lit "y") TRANSLATED (lit "f1") KVJSON 2 0 false 2 [];
         mkCacheItem [] (lit "z") TRANSLATED (lit "f1") KVJSON 2 0 false 2 [] ]
  /\ map s [0; 1]%nat = map example_heap [0; 1]%nat.
Proof. repeat split. Qed.

Lemma mtool_optimizer_postprocess_appends_witness :
  exists new s',
    Translator.mtool_optimizer_postprocess (example_config true 3) [0; 1]%nat
      example_heap 2%nat
    = ([0; 1]%nat ++ new, s', (2 + length new)%nat)
    /\ (forall l, (l < 2)%nat -> s' l = example_heap l).
Proof.
  destruct (mtool_optimizer_postprocess_appends (example_config true 3)
              [0; 1]%nat example_heap 2%nat)
    as (new & s' & Hrun & _ & Hold & _).
  - reflexivity.
  - discriminate.
  - repeat constructor.
  - exists new, s'. split; [exact Hrun | exact Hold].
Defined.

Example exhausted_run_stays_translating :
  let final :=
    Translator.translation_start_target no_progress UNTRANSLATED
      (example_config true 1)
      (example_state [0; 1]%nat example_heap 2%nat example_extras) in
  Translator.project_status final = TRANSLATING
  /\ Translator.items final = [0; 1; 2; 3; 4]%nat
  /\ length (Translator.written final) = 1%nat
  /\ Translator.WORK_STATUS final = TaskStatus.IDLE.
Proof. repeat split. Qed.

Lemma finalize_project_status_witness :
  Translator.project_status
    (Translator.translation_start_target no_progress UNTRANSLATED
       (example_config true 1)
       (example_state [0; 1]%nat example_heap 2%nat example_extras))
  = TRANSLATING.
Proof.
  pose proof (finalize_project_status no_progress UNTRANSLATED
                (example_config true 1) (example_config true 1)
                (example_state [0; 1]%nat example_heap 2%nat example_extras)
                (Translator.record_total_line 1
                   (example_state [0; 1]%nat example_heap 2%nat example_extras))
                Translator.Exhausted eq_refl) as H.
  destruct H as (_ & _ & _ & _ & H).
  - discriminate.
  - intro e. discriminate.
  - repeat constructor.
  - destruct (H eq_refl) as (_ & _ & Hstay & _). exact (Hstay eq_refl).
Defined.

(** ** Further examples *)

Lemma generate_item_chunks_no_context_witness :
  exists chunks preceding_chunks,
    CacheManager.generate_item_chunks planned_items 10 0
    = Ok (chunks, preceding_chunks)
    /\ Forall (fun pc => pc = []) preceding_chunks.
Proof. apply (generate_item_chunks_no_context planned_items 10 0). lia. Defined.

Lemma generate_preceding_chunks_bounds_witness :
  exists result,
    CacheManager.generate_preceding_chunks planned_items
      [example_item "World" "f1" UNTRANSLATED 10] 2 0 3 = Ok result.
Proof.
  refine (proj1 (generate_preceding_chunks_bounds planned_items
                   [example_item "World" "f1" UNTRANSLATED 10] 2 0 3 _) _).
  - discriminate.
  - vm_compute. discriminate.
Defined.

Lemma check_one_code_per_line_witness :
  example_check (ResponseChecker.mkChecker [plain_item] EN ZH)
    [(lit "0", lit "ab")] [(lit "0", Some (lit "xy"))] [(lit "0", plain_item)] EN
  = Ok [ResponseChecker.NONE]
  /\ length [ResponseChecker.NONE] = length [(lit "0", lit "ab")].
Proof.
  split; [reflexivity|].
  apply (@check_one_code_per_line (lit "<PLACEHOLDER>") (fun _ _ => false)
           (fun _ _ => false) (Degradation.search Degradation.ascii_lower) TextHelper.any_hiragana
           TextHelper.any_katakana TextHelper.any_hangeul
           TextHelper.check_similarity_by_jaccard
           (ResponseChecker.mkChecker [plain_item] EN ZH)
           [(lit "0", lit "ab")] [(lit "0", Some (lit "xy"))]
           [(lit "0", plain_item)] EN [ResponseChecker.NONE]).
  - simpl. lia.
  - reflexivity.
Defined.

Lemma check_line_gated_similarity_unreachable_witness :
  exists e,
    example_check_line (ResponseChecker.mkChecker [plain_item] JA ZH)
      konnichiwa (Some nihao) plain_item JA = Ok e
    /\ e <> ResponseChecker.LINE_ERROR_SIMILARITY.
Proof.
  apply (@check_line_gated_similarity_unreachable (lit "<PLACEHOLDER>")
           (fun _ _ => false) (fun _ _ => false) (Degradation.search Degradation.ascii_lower)
           TextHelper.any_hiragana TextHelper.any_katakana TextHelper.any_hangeul
           TextHelper.check_similarity_by_jaccard
           (ResponseChecker.mkChecker [plain_item] JA ZH)
           konnichiwa nihao plain_item JA).
  - reflexivity.
  - reflexivity.
  - left. reflexivity.
Defined.

Lemma check_line_echo_witness :
  example_check_line (ResponseChecker.mkChecker [plain_item] EN ZH)
    (lit "ab") (Some (lit "ab")) plain_item EN
  = Ok ResponseChecker.LINE_ERROR_SIMILARITY.
Proof.
  apply (@check_line_echo (lit "<PLACEHOLDER>") (fun _ _ => false)
           (fun _ _ => false) (Degradation.search Degradation.ascii_lower) TextHelper.any_hiragana
           TextHelper.any_katakana TextHelper.any_hangeul
           TextHelper.check_similarity_by_jaccard
           (ResponseChecker.mkChecker [plain_item] EN ZH)
           (lit "ab") (lit "ab") plain_item EN).
  - unfold reaches_similarity_rule. repeat split; try reflexivity; discriminate.
  - reflexivity.
  - reflexivity.
Defined.

(** The one-line entry repeats a line of the two-line entry: the
    pre-processing excludes it, and reports one exclusion. *)
Example preprocess_excludes_repeated_line :
  let r := Translator.mtool_optimizer_preprocess (example_config true 0)
             [0; 1]%nat repeated_line_heap in
  get_status (fst r 0%nat) = UNTRANSLATED
  /\ get_status (fst r 1%nat) = EXCLUDED
  /\ snd r = Some 1.
Proof. vm_compute. repeat split. Qed.

Lemma mtool_optimizer_preprocess_keeps_parents_witness :
  fst (Translator.mtool_optimizer_preprocess (example_config true 0)
         [0; 1]%nat repeated_line_heap) 0%nat
  = repeated_line_heap 0%nat.
Proof.
  apply (mtool_optimizer_preprocess_keeps_parents (example_config true 0)
           [0; 1]%nat repeated_line_heap 0%nat).
  reflexivity.
Defined.

Lemma mtool_optimizer_postprocess_restores_witness :
  exists r,
    (2 <= r)%nat
    /\ In r (fst (fst (Translator.mtool_optimizer_postprocess
                         (example_config true 0) [0; 1]%nat repeated_line_heap 2)))
    /\ let s' := snd (fst (Translator.mtool_optimizer_postprocess
                             (example_config true 0) [0; 1]%nat
                             repeated_line_heap 2)) in
       get_src (s' r) = get_src (repeated_line_heap 1%nat)
       /\ get_file_path (s' r) = get_file_path (repeated_line_heap 1%nat)
       /\ get_row (s' r) = group_size [0; 1]%nat repeated_line_heap 0%nat.
Proof.
  apply (mtool_optimizer_postprocess_restores (example_config true 0)
           [0; 1]%nat repeated_line_heap 2%nat 1%nat 0%nat).
  - reflexivity.
  - repeat constructor.
  - unfold sub_line_of. split; [now left|]. split; [reflexivity|].
    split; [reflexivity|]. split; [reflexivity|].
    vm_compute. right. left. reflexivity.
Defined.

Lemma mtool_optimizer_postprocess_count_witness :
  length (fst (fst (Translator.mtool_optimizer_postprocess
                      (example_config true 0) [0; 1]%nat example_heap 2)))
  = 5%nat.
Proof.
  apply (mtool_optimizer_postprocess_count (example_config true 0)
           [0; 1]%nat example_heap 2%nat).
  - reflexivity.
  - repeat constructor.
Defined.

Lemma task_done_callback_commutes_witness :
  PyDict.get
    (Translator.extras
       (Translator.task_done_callback (example_config false 0) 102%float
          (Translator.FutureDict second_result)
          (Translator.task_done_callback (example_config false 0) 101%float
             (Translator.FutureDict example_result)
             (example_state [0; 1]%nat example_heap 2 example_extras))))
    (lit "line")
  = Some (VInt (1 + 2 + 1)).
Proof.
  refine (proj1 (task_done_callback_commutes (example_config false 0)
                   101%float 102%float 103%float 104%float
                   example_result second_result
                   (example_state [0; 1]%nat example_heap 2 example_extras)
                   2 3 4 1 7 2 1 5 6 100%float _ _ _ _ _ _ _ _ _ _ _ _));
    try reflexivity; discriminate.
Defined.

Lemma rounds_exit_cases_witness :
  0 < Translator.get_item_count_by_status
        (Translator.items
           (snd (Translator.rounds no_progress UNTRANSLATED
                   (Translator.range (1 + 1)) (example_config false 1)
                   (example_state [0; 1]%nat example_heap 2 example_extras))))
        (Translator.heap
           (snd (Translator.rounds no_progress UNTRANSLATED
                   (Translator.range (1 + 1)) (example_config false 1)
                   (example_state [0; 1]%nat example_heap 2 example_extras))))
        UNTRANSLATED.
Proof.
  assert (H : 0 <= Translator.max_round (example_config false 1))
    by (cbn; lia).
  exact (rounds_exit_cases no_progress UNTRANSLATED (example_config false 1)
           (example_state [0; 1]%nat example_heap 2 example_extras) H).
Defined.

Lemma translation_manual_export_isolated_witness :
  Translator.items
    (Translator.translation_manual_export (example_config true 0)
       (example_state [0; 1]%nat example_heap 2 example_extras))
  = [0; 1]%nat.
Proof.
  refine (proj1 (translation_manual_export_isolated (example_config true 0)
                   (example_state [0; 1]%nat example_heap 2 example_extras) _)).
  repeat constructor.
Defined.

(** The copies are expanded and written out; the manager's list is not. *)
Example manual_export_writes_expansion :
  let st' := Translator.translation_manual_export (example_config true 0)
               (example_state [0; 1]%nat example_heap 2 example_extras) in
  map (@length CacheItem) (Translator.written st') = [5%nat]
  /\ length (Translator.items st') = 2%nat.
Proof. vm_compute. split; reflexivity. Qed.

Lemma initialize_max_workers_positive_witness :
  1 <= fst (Translator.initialize_max_workers 0 60 JNull).
Proof.
  refine (proj1 (initialize_max_workers_positive 0 60 JNull _ _)); lia.
Defined.

(** ** Exceptions *)


(** The translation of the first line is lost when the parser raises on the
    second. *)
Example decode_raises_on_a_line :
  ResponseDecoder.Raising.decode failing_loads
    (lit "{0:a}" ++ [10%N] ++ lit "{0:b}")
  = Raise TypeError.
Proof. reflexivity. Qed.

(** Line 220 in round 1: the thread ends there, with both flags still set
    and nothing written. *)
Example shrink_overflow_leaves_flags :
  let st := example_state [0; 1]%nat example_heap 2%nat example_extras in
  let final :=
    Translator.translation_start_target no_progress UNTRANSLATED (huge_config 2) st in
  fst (fst (Translator.rounds no_progress UNTRANSLATED
              (Translator.range (2 + 1)) (huge_config 2) st))
  = Translator.Raised OverflowError
  /\ Translator.translating final = true
  /\ Translator.WORK_STATUS final = TaskStatus.TRANSLATING
  /\ Translator.written final = [].
Proof. vm_compute. repeat split. Qed.

(** Line 223 in round 0, for a threshold beyond the range of line 161. *)
Example planner_overflow_ends_the_loop :
  let st := example_state [0; 1]%nat example_heap 2%nat example_extras in
  let config :=
    Translator.mkConfig JA ZH false 2 (10 ^ 400) 3 (lit "output") false false in
  fst (fst (Translator.rounds plan_only UNTRANSLATED
              (Translator.range (2 + 1)) config st))
  = Translator.Raised OverflowError
  /\ Translator.translating
       (Translator.translation_start_target plan_only UNTRANSLATED config st)
     = true.
Proof. vm_compute. split; reflexivity. Qed.
